(** * Sales-rep front-end components: aggregation, filtering and
    notification logic, embedded from the JavaScript sources.

  Conventions of the embedding.

  - A JavaScript number that the code adds, divides, rounds or compares
    is an exact rational ([Q]); the IEEE rounding error, [NaN] and the
    infinities of a double are not represented.  The trigonometric code
    of the visit tracker is over the real numbers ([R]).
  - Where a statement is about the very number that a computation
    stores or returns, the rates of the dashboard rounded to hundredths
    and the progress of a visit, the arithmetic is that of doubles: the
    modules [Double], [AnalyticsDouble] and [TrackerDouble] round the
    exact result of each operation to the nearest binary64 number, a tie
    going to the even significand.  The exponent of these numbers is not
    bounded: overflow, underflow, [NaN], the infinities and the sign of
    zero are not represented.
  - A property that may be missing, [null] or [undefined] is an
    [option]; [None] is the missing value.
  - An element of an array that may be [null] is an [option] as well,
    and reading a property of it throws.
  - Dates are milliseconds on the local time line ([Z]), already parsed.
  - An [async] function is taken from its call to its end, the answer of
    the server to each of its requests being a parameter: the value it
    resolves with, or a rejection.  Runs of such functions do not
    overlap.
  - The calls of [orm.write] and [orm.call], of [notification.add], of
    [console.error] and of [setTimeout] or [setInterval] are recorded in
    the state, the most recent first. *)

From Stdlib Require Import ZArith QArith Qround Qabs Qminmax Qpower.
From Stdlib Require Import List String Bool Lia Morphisms.
From Stdlib Require Import DecimalString.
From Stdlib Require Import PrimFloat FloatOps SpecFloat.
From Stdlib Require Import Reals Ratan Machin Psatz.
Import ListNotations.

(* ================================================================== *)
(** * Part I.  Definitions                                             *)
(* ================================================================== *)

(** ** JavaScript operators on numbers *)

Module Js.

Local Open Scope Q_scope.

(** [a < b] and [a > b] on numbers. *)
Definition ltb (a b : Q) : bool := negb (Qle_bool b a).
Definition gtb (a b : Q) : bool := ltb b a.
Definition leb (a b : Q) : bool := Qle_bool a b.

(** Truthiness of a numeric property: missing and [0] are falsy. *)
Definition truthy (v : option Q) : bool :=
  match v with
  | Some q => negb (Qeq_bool q 0)
  | None => false
  end.

(** [v || d] for a numeric property [v]. *)
Definition or_else (v : option Q) (d : Q) : Q :=
  match v with
  | Some q => if Qeq_bool q 0 then d else q
  | None => d
  end.

(** [Math.round]: the nearest integer, a tie going up. *)
Definition Math_round (x : Q) : Q := inject_Z (Qfloor (x + (1 # 2))).

(** [Math.min] of two numbers. *)
Definition Math_min (a b : Q) : Q := if Qle_bool a b then a else b.

(** The idiom [Math.round(x * 100) / 100] in exact arithmetic: [x]
    rounded to two decimal places, a tie going up. *)
Definition round2 (x : Q) : Q := Math_round (x * 100) / 100.

(** Comparisons whose left operand is a property: a missing operand
    converts to [NaN], and every comparison with [NaN] is false. *)
Definition prop_ltb (v : option Q) (b : Q) : bool :=
  match v with Some q => ltb q b | None => false end.
Definition prop_gtb (v : option Q) (b : Q) : bool :=
  match v with Some q => gtb q b | None => false end.

End Js.

(** ** Visit analytics dashboard: [calculateKPIs], in exact arithmetic *)

Module Analytics.

Import Js.
Local Open Scope Q_scope.

(** One period row of [daily.visit.analytics]; the fields the
    aggregation reads. *)
Record AnalyticsRow : Type := {
  period : string;
  total_visits : option Q;
  total_revenue : option Q;
  completion_rate : option Q;
  target_visits : option Q
}.

(** An element of [state.analytics]: a row, or [null]. *)
Definition Item : Type := option AnalyticsRow.

(** The object assigned to [state.kpis]. *)
Record Kpis : Type := {
  totalVisits : Q;
  avgCompletionRate : Q;
  totalRevenue : Q;
  avgRevenueAchievement : Q;
  growthRate : Q;
  targetAchievement : Q
}.

Record State : Type := {
  analytics : list Item;
  kpis : Kpis;
  console : list string
}.

Definition zero_kpis : Kpis :=
  {| totalVisits := 0; avgCompletionRate := 0; totalRevenue := 0;
     avgRevenueAchievement := 0; growthRate := 0; targetAchievement := 0 |}.

(** *** Statements over the component state, with exceptions *)

Inductive Exn : Type := TypeError (msg : string).

Inductive Outcome (A : Type) : Type :=
| Normal (a : A)
| Thrown (e : Exn).
Arguments Normal {A} a.
Arguments Thrown {A} e.

(** A computation reads and writes the state and may throw; the state
    written before a throw stays written. *)
Definition M (A : Type) : Type := State -> Outcome A * State.

Definition ret {A} (a : A) : M A := fun s => (Normal a, s).

Definition bind {A B} (m : M A) (k : A -> M B) : M B :=
  fun s =>
    match m s with
    | (Normal a, s') => k a s'
    | (Thrown e, s') => (Thrown e, s')
    end.

Definition throw {A} (e : Exn) : M A := fun s => (Thrown e, s).

Definition try_catch {A} (body : M A) (handler : Exn -> M A) : M A :=
  fun s =>
    match body s with
    | (Normal a, s') => (Normal a, s')
    | (Thrown e, s') => handler e s'
    end.

Definition get_analytics : M (list Item) := fun s => (Normal (analytics s), s).

Definition set_kpis (k : Kpis) : M unit :=
  fun s => (Normal tt,
            {| analytics := analytics s; kpis := k; console := console s |}).

Definition console_error (msg : string) : M unit :=
  fun s => (Normal tt,
            {| analytics := analytics s; kpis := kpis s;
               console := msg :: console s |}).

Declare Scope kpi_scope.
Delimit Scope kpi_scope with kpi.
Notation "x <- m ;; k" := (bind m (fun x => k))
  (at level 61, m at next level, right associativity) : kpi_scope.
Notation "m ;;; k" := (bind m (fun _ => k))
  (at level 61, right associativity) : kpi_scope.
Local Open Scope kpi_scope.

(** [item.f]: reading a property of [null] throws. *)
Definition prop (f : AnalyticsRow -> option Q) (item : Item) : M (option Q) :=
  match item with
  | Some row => ret (f row)
  | None => throw (TypeError "Cannot read properties of null")
  end.

(** [array.reduce(callback, init)] with a callback that may throw. *)
Fixpoint reduce (callback : Q -> Item -> M Q) (acc : Q) (array : list Item)
  : M Q :=
  match array with
  | [] => ret acc
  | item :: rest => acc' <- callback acc item ;; reduce callback acc' rest
  end.

(** [array[i]]: out of range is [undefined]. *)
Definition index (array : list Item) (i : nat) : Item :=
  match nth_error array i with
  | Some item => item
  | None => None
  end.

(** [(sum, item) => sum + (item.f || 0)] *)
Definition add_field (f : AnalyticsRow -> option Q) (sum : Q) (item : Item)
  : M Q :=
  v <- prop f item ;; ret (sum + or_else v 0).

Definition of_nat (n : nat) : Q := inject_Z (Z.of_nat n).

(** The body of the [try] block. *)
Definition computeKPIs (analytics : list Item) : M unit :=
  totalVisits <- reduce (add_field total_visits) 0 analytics ;;
  totalRevenue <- reduce (add_field total_revenue) 0 analytics ;;
  completionSum <- reduce (add_field completion_rate) 0 analytics ;;
  let avgCompletionRate := completionSum / of_nat (List.length analytics) in
  growthRate <-
    (if (2 <=? List.length analytics)%nat then
       first <- prop total_visits (index analytics 0) ;;
       let firstPeriod := or_else first 0 in
       last <- prop total_visits (index analytics (List.length analytics - 1)) ;;
       let lastPeriod := or_else last 0 in
       if gtb firstPeriod 0
       then ret (((lastPeriod - firstPeriod) / firstPeriod) * 100)
       else ret 0
     else ret 0) ;;
  totalTarget <- reduce (add_field target_visits) 0 analytics ;;
  let targetAchievement :=
    if gtb totalTarget 0 then (totalVisits / totalTarget) * 100 else 0 in
  set_kpis
    {| totalVisits := totalVisits;
       avgCompletionRate := round2 avgCompletionRate;
       totalRevenue := totalRevenue;
       avgRevenueAchievement :=
         if gtb totalRevenue 0
         then Math_round ((totalRevenue / (totalRevenue * (12 # 10))) * 100)
         else 0;
       growthRate := round2 growthRate;
       targetAchievement := round2 targetAchievement |}.

Definition calculateKPIs : M unit :=
  analytics <- get_analytics ;;
  if (List.length analytics =? 0)%nat then
    set_kpis zero_kpis
  else
    try_catch
      (computeKPIs analytics)
      (fun error =>
         console_error "Error calculating KPIs:" ;;;
         set_kpis zero_kpis).

(** The state after a call of [calculateKPIs]. *)
Definition after_calculateKPIs (s : State) : State := snd (calculateKPIs s).

(** The dashboard holding the rows [rows], as [loadAnalytics] stores
    them. *)
Definition dashboard (rows : list AnalyticsRow) (k : Kpis) : State :=
  {| analytics := map Some rows; kpis := k; console := [] |}.

(** The summary [calculateKPIs] leaves for the rows [rows]. *)
Definition aggregate (rows : list AnalyticsRow) : Kpis :=
  kpis (after_calculateKPIs (dashboard rows zero_kpis)).

(** *** The aggregation on rows none of which is [null]

    The same arithmetic as [computeKPIs], without the exception
    plumbing; [computeKPIs_rows] below proves that the two agree. *)

Definition fold_field (f : AnalyticsRow -> option Q) (rows : list AnalyticsRow)
  : Q :=
  fold_left (fun sum row => sum + or_else (f row) 0) rows 0.

Definition visits_at (rows : list AnalyticsRow) (i : nat) : Q :=
  match nth_error rows i with
  | Some row => or_else (total_visits row) 0
  | None => 0
  end.

Definition raw_growth (rows : list AnalyticsRow) : Q :=
  if (2 <=? List.length rows)%nat then
    let firstPeriod := visits_at rows 0 in
    let lastPeriod := visits_at rows (List.length rows - 1) in
    if gtb firstPeriod 0
    then ((lastPeriod - firstPeriod) / firstPeriod) * 100
    else 0
  else 0.

Definition raw_target (rows : list AnalyticsRow) : Q :=
  if gtb (fold_field target_visits rows) 0
  then (fold_field total_visits rows / fold_field target_visits rows) * 100
  else 0.

Definition summary (rows : list AnalyticsRow) : Kpis :=
  {| totalVisits := fold_field total_visits rows;
     avgCompletionRate :=
       round2 (fold_field completion_rate rows / of_nat (List.length rows));
     totalRevenue := fold_field total_revenue rows;
     avgRevenueAchievement :=
       if gtb (fold_field total_revenue rows) 0
       then Math_round ((fold_field total_revenue rows
                         / (fold_field total_revenue rows * (12 # 10))) * 100)
       else 0;
     growthRate := round2 (raw_growth rows);
     targetAchievement := round2 (raw_target rows) |}.

(** *** The summary in the words of the specification *)

(** An absent field counts as 0. *)
Definition absent_as_zero (v : option Q) : Q :=
  match v with
  | Some q => q
  | None => 0
  end.

(** The sum of a field across the rows. *)
Fixpoint sum_of (f : AnalyticsRow -> option Q) (rows : list AnalyticsRow) : Q :=
  match rows with
  | [] => 0
  | row :: rest => absent_as_zero (f row) + sum_of f rest
  end.

(** [total_visits] of the first and of the last row. *)
Definition first_visits (rows : list AnalyticsRow) : Q :=
  match rows with
  | [] => 0
  | row :: _ => absent_as_zero (total_visits row)
  end.

Fixpoint last_visits (rows : list AnalyticsRow) : Q :=
  match rows with
  | [] => 0
  | [row] => absent_as_zero (total_visits row)
  | _ :: rest => last_visits rest
  end.

(** Field-wise equality of two summaries, as numbers. *)
Definition kpis_eq (a b : Kpis) : Prop :=
  totalVisits a == totalVisits b /\
  avgCompletionRate a == avgCompletionRate b /\
  totalRevenue a == totalRevenue b /\
  avgRevenueAchievement a == avgRevenueAchievement b /\
  growthRate a == growthRate b /\
  targetAchievement a == targetAchievement b.

(** A row with the four fields given, as in the examples. *)
Definition row (visits revenue rate target : Q) : AnalyticsRow :=
  {| period := ""; total_visits := Some visits; total_revenue := Some revenue;
     completion_rate := Some rate; target_visits := Some target |}.

(** Visits growing from 3 to 4: a growth of a third. *)
Definition a_third_more : list AnalyticsRow :=
  [row 3 30 50 5; row 4 40 50 5].

(** Three periods against a target of 100 visits each. *)
Definition three_periods : list AnalyticsRow :=
  [row 100 0 0 100; row 120 0 0 100; row 150 0 0 100].

(** A dashboard whose second element is [null], holding the summary of an
    earlier load. *)
Definition with_null_row : State :=
  {| analytics := [Some (row 10 100 50 20); None];
     kpis := {| totalVisits := 7; avgCompletionRate := 7; totalRevenue := 7;
                avgRevenueAchievement := 7; growthRate := 7;
                targetAchievement := 7 |};
     console := [] |}.

End Analytics.

(** ** Daily visit tracker: progress and time status *)

Module Tracker.

Import Js.
Local Open Scope Q_scope.
Local Open Scope string_scope.

(** A record of [daily.visit.line]; the fields the two classifiers read.
    [planned_time] is the time of day, in milliseconds after midnight;
    [actual_start_time] is an instant.  An empty value is [None]. *)
Record Visit : Type := {
  state : string;
  planned_time : option Z;
  actual_start_time : option Z;
  duration : option Q
}.

Definition day_ms : Z := 86400000.

(** Midnight of the day of [now]: the date part [toDateString] keeps. *)
Definition start_of_day (now : Z) : Z := (now - now mod day_ms)%Z.

(** [new Date(`${new Date().toDateString()} ${visit.planned_time}`)] *)
Definition plannedDate (now : Z) (time_of_day : Z) : Z :=
  (start_of_day now + time_of_day)%Z.

(** [(b - a) / 1000 / 60]: a difference of two dates, in minutes. *)
Definition diff_minutes (b a : Z) : Q := inject_Z (b - a) / 1000 / 60.

(** The value [-1] that marks an overdue visit. *)
Definition overdue_sentinel : Q := -1.

Definition calculateVisitProgress (now : Z) (visit : Visit) : Q :=
  if state visit =? "completed" then 100
  else if state visit =? "cancelled" then 0
  else
    match (if state visit =? "in_progress"
           then actual_start_time visit else None) with
    | Some startTime =>
        let elapsed := diff_minutes now startTime in
        let expected := or_else (duration visit) 60 in
        Math_min ((elapsed / expected) * 100) 95
    | None =>
        if (state visit =? "planned")
           && match planned_time visit with
              | Some t => (plannedDate now t <? now)%Z
              | None => false
              end
        then overdue_sentinel
        else 0
    end.

Definition getVisitTimeStatus (now : Z) (visit : Visit) : string :=
  match planned_time visit with
  | None => "unknown"
  | Some t =>
      let plannedTime := plannedDate now t in
      match (if state visit =? "completed"
             then actual_start_time visit else None) with
      | Some actualStart =>
          let diffMinutes := diff_minutes actualStart plannedTime in
          if leb diffMinutes (-5) then "early"
          else if leb diffMinutes 15 then "on-time"
          else "late"
      | None =>
          if state visit =? "planned" then
            let diffMinutes := diff_minutes now plannedTime in
            if gtb diffMinutes 15 then "overdue"
            else if gtb diffMinutes (-30) then "upcoming"
            else "scheduled"
          else state visit
      end
  end.

(** *** Example visits *)

(** A midnight, and 09:00, 09:30 and 10:30 of that day. *)
Definition midnight : Z := 20394 * day_ms.
Definition at_0900 : Z := midnight + 9 * 3600000.
Definition at_0930 : Z := midnight + 9 * 3600000 + 30 * 60000.
Definition at_1030 : Z := midnight + 10 * 3600000 + 30 * 60000.

(** A visit planned for 09:00 that started [late_by] minutes after that
    and is completed. *)
Definition completed_visit (late_by : Z) : Visit :=
  {| state := "completed"; planned_time := Some (9 * 3600000)%Z;
     actual_start_time := Some (at_0900 + late_by * 60000)%Z;
     duration := Some 60 |}.

(** A visit planned for 09:00 and not yet started. *)
Definition planned_visit : Visit :=
  {| state := "planned"; planned_time := Some (9 * 3600000)%Z;
     actual_start_time := None; duration := Some 60 |}.

(** A visit of 60 minutes that started at 09:00 and is in progress. *)
Definition running_visit : Visit :=
  {| state := "in_progress"; planned_time := Some (9 * 3600000)%Z;
     actual_start_time := Some at_0900; duration := Some 60 |}.

End Tracker.

(** ** Daily visit tracker: distance and travel time *)

Module Geo.

Local Open Scope R_scope.

(** [state.location], and the two location fields of a visit. *)
Record Location : Type := {
  latitude : option R;
  longitude : option R
}.

Record Visit : Type := {
  location_lat : option R;
  location_lng : option R
}.

(** [!v] is false exactly on a number other than 0. *)
Definition truthy (v : option R) : bool :=
  match v with
  | Some x => if Req_dec_T x 0 then false else true
  | None => false
  end.

(** The number an operand of [-] or of [toRadians] converts to
    ([null] converts to 0). *)
Definition to_number (v : option R) : R :=
  match v with
  | Some x => x
  | None => 0
  end.

Definition toRadians (degrees : R) : R := degrees * (PI / 180).

(** [Math.atan2(y, x)], the angle of the point [(x, y)] in (-PI, PI]. *)
Definition Math_atan2 (y x : R) : R :=
  if Rlt_dec 0 x then atan (y / x)
  else if Rlt_dec x 0 then
    if Rle_dec 0 y then atan (y / x) + PI else atan (y / x) - PI
  else if Rlt_dec 0 y then PI / 2
  else if Rlt_dec y 0 then - (PI / 2)
  else 0.

(** [Math.round]: the nearest integer, a tie going up. *)
Definition Math_round (x : R) : R := IZR (Int_part (x + / 2)).

Definition earth_radius_km : R := 6371.

Definition calculateDistance (location : Location) (visit : Visit) : option R :=
  if negb (truthy (latitude location)) || negb (truthy (location_lat visit))
  then None
  else
    let R_km := earth_radius_km in
    let dLat :=
      toRadians (to_number (location_lat visit) - to_number (latitude location)) in
    let dLon :=
      toRadians (to_number (location_lng visit) - to_number (longitude location)) in
    let a :=
      sin (dLat / 2) * sin (dLat / 2) +
      cos (toRadians (to_number (latitude location))) *
      cos (toRadians (to_number (location_lat visit))) *
      sin (dLon / 2) * sin (dLon / 2) in
    let c := 2 * Math_atan2 (sqrt a) (sqrt (1 - a)) in
    Some (R_km * c).

Definition avgSpeed : R := 40.

Definition estimateTravelTime (location : Location) (visit : Visit) : option R :=
  let distance := calculateDistance location visit in
  if negb (truthy distance) then None
  else Some (Math_round ((to_number distance / avgSpeed) * 60)).

(** *** The distance in the words of the specification *)

(** The haversine of an angle. *)
Definition hav (theta : R) : R := Rsqr (sin (theta / 2)).

(** The haversine of the central angle between two points given in
    degrees. *)
Definition central_hav (lat1 lon1 lat2 lon2 : R) : R :=
  hav (toRadians lat2 - toRadians lat1)
  + cos (toRadians lat1) * cos (toRadians lat2)
    * hav (toRadians lon2 - toRadians lon1).

(** The great-circle distance, by the haversine formula, between two
    points given in degrees, on a sphere of radius [radius]. *)
Definition haversine_distance (radius lat1 lon1 lat2 lon2 : R) : R :=
  2 * radius * asin (sqrt (central_hav lat1 lon1 lat2 lon2)).

(** Travel time in minutes at a constant speed in km/h, to the nearest
    minute. *)
Definition travel_minutes (distance speed : R) : R :=
  Math_round (distance / speed * 60).

Definition at_point (lat lon : R) : Location :=
  {| latitude := Some lat; longitude := Some lon |}.

Definition visit_at (lat lon : R) : Visit :=
  {| location_lat := Some lat; location_lng := Some lon |}.

(** The coordinates of the examples. *)
Definition example_lat : R := 247136 / 10000.
Definition example_lon : R := 466753 / 10000.

End Geo.

(** ** GPS interactive maps: [validateTrackingData] *)

Module GpsMaps.

Import Js.
Local Open Scope Q_scope.

(** A record of [gps.tracking]; the fields the filter reads, and the
    timestamp that tells the points apart. *)
Record TrackingPoint : Type := {
  timestamp : Z;
  latitude : option Q;
  longitude : option Q;
  accuracy : option Q
}.

(** The callback of [data.filter]. *)
Definition valid_point (point : TrackingPoint) : bool :=
  if negb (truthy (latitude point)) || negb (truthy (longitude point))
  then false
  else if prop_ltb (latitude point) (-90) || prop_gtb (latitude point) 90
          || prop_ltb (longitude point) (-180)
          || prop_gtb (longitude point) 180
  then false
  else if truthy (accuracy point) && prop_gtb (accuracy point) 1000
  then false
  else true.

Definition validateTrackingData (data : list TrackingPoint)
  : list TrackingPoint :=
  filter valid_point data.

(** *** The filter in the words of the specification *)

Definition in_range (lo hi : Q) (v : option Q) : bool :=
  match v with
  | Some q => Qle_bool lo q && Qle_bool q hi
  | None => false
  end.

Definition accuracy_ok (v : option Q) : bool :=
  match v with
  | Some q => Qle_bool q 1000
  | None => true
  end.

(** Latitude and longitude present and within range, accuracy (when
    present) at most 1000. *)
Definition usable (point : TrackingPoint) : bool :=
  in_range (-90) 90 (latitude point)
  && in_range (-180) 180 (longitude point)
  && accuracy_ok (accuracy point).

(** Neither coordinate is the number 0. *)
Definition off_axes (point : TrackingPoint) : bool :=
  match latitude point, longitude point with
  | Some la, Some lo => negb (Qeq_bool la 0) && negb (Qeq_bool lo 0)
  | _, _ => true
  end.

Definition point (t : Z) (lat lon : Q) (acc : option Q) : TrackingPoint :=
  {| timestamp := t; latitude := Some lat; longitude := Some lon;
     accuracy := acc |}.

(** A fix on the equator, accurate to 50. *)
Definition on_equator : TrackingPoint :=
  point 1 0 (466753 # 10000) (Some 50).

(** A fix on the prime meridian, accurate to 50. *)
Definition on_prime_meridian : TrackingPoint :=
  point 2 (515 # 10) 0 (Some 50).

(** The three points of the examples: latitude 95, accuracy 1500, and a
    good fix with accuracy 50. *)
Definition latitude_95 : TrackingPoint :=
  point 3 95 (466753 # 10000) (Some 50).
Definition accuracy_1500 : TrackingPoint :=
  point 4 (247136 # 10000) (466753 # 10000) (Some 1500).
Definition good_fix : TrackingPoint :=
  point 5 (247136 # 10000) (466753 # 10000) (Some 50).

End GpsMaps.

(** ** Real-time notifications: the list, the unread counter and the
    reconnection of the bus *)

Module Notifications.

Local Open Scope string_scope.

(** The [id] of a notification: a database id, a [temp_...] string, or
    missing.  [id_eqb] is [===]. *)
Inductive Id : Type :=
| IdUndefined
| IdNumber (n : Z)
| IdString (s : string).

Definition id_eqb (a b : Id) : bool :=
  match a, b with
  | IdUndefined, IdUndefined => true
  | IdNumber n, IdNumber m => (n =? m)%Z
  | IdString s, IdString t => (s =? t)%string
  | _, _ => false
  end.

Record Notification : Type := {
  id : Id;
  title : string;
  priority : string;
  is_read : option bool;
  created_date : Z;
  isNew : bool
}.

(** What the bus or the server sends; [timeAgo] and [isNew] are added by
    the component. *)
Record NotificationData : Type := {
  data_id : Id;
  data_title : string;
  data_priority : string;
  data_is_read : option bool;
  data_created_date : Z
}.

(** What a [setTimeout] call registers. *)
Inductive Callback : Type :=
| ReconnectCallback
| AutoMarkReadCallback (notificationId : Id).

Record Component : Type := {
  isLoading : bool;
  isConnected : bool;
  connectionStatus : string;
  error : option string;
  notifications : list Notification;
  unreadCount : nat;
  totalCount : nat;
  autoMarkRead : bool;
  reconnectAttempts : nat;
  timeouts : list (Callback * Z)
}.

Definition maxReconnectAttempts : nat := 5.

(** The component as [setup] leaves it. *)
Definition setup : Component :=
  {| isLoading := false; isConnected := false;
     connectionStatus := "disconnected"; error := None;
     notifications := []; unreadCount := 0; totalCount := 0;
     autoMarkRead := false; reconnectAttempts := 0; timeouts := [] |}.

(** *** Assignments to single fields *)

Definition set_isLoading (b : bool) (c : Component) : Component :=
  {| isLoading := b; isConnected := isConnected c;
     connectionStatus := connectionStatus c; error := error c;
     notifications := notifications c; unreadCount := unreadCount c;
     totalCount := totalCount c; autoMarkRead := autoMarkRead c;
     reconnectAttempts := reconnectAttempts c; timeouts := timeouts c |}.

Definition set_isConnected (b : bool) (c : Component) : Component :=
  {| isLoading := isLoading c; isConnected := b;
     connectionStatus := connectionStatus c; error := error c;
     notifications := notifications c; unreadCount := unreadCount c;
     totalCount := totalCount c; autoMarkRead := autoMarkRead c;
     reconnectAttempts := reconnectAttempts c; timeouts := timeouts c |}.

Definition set_connectionStatus (st : string) (c : Component) : Component :=
  {| isLoading := isLoading c; isConnected := isConnected c;
     connectionStatus := st; error := error c;
     notifications := notifications c; unreadCount := unreadCount c;
     totalCount := totalCount c; autoMarkRead := autoMarkRead c;
     reconnectAttempts := reconnectAttempts c; timeouts := timeouts c |}.

Definition set_error (e : option string) (c : Component) : Component :=
  {| isLoading := isLoading c; isConnected := isConnected c;
     connectionStatus := connectionStatus c; error := e;
     notifications := notifications c; unreadCount := unreadCount c;
     totalCount := totalCount c; autoMarkRead := autoMarkRead c;
     reconnectAttempts := reconnectAttempts c; timeouts := timeouts c |}.

Definition set_notifications (l : list Notification) (c : Component)
  : Component :=
  {| isLoading := isLoading c; isConnected := isConnected c;
     connectionStatus := connectionStatus c; error := error c;
     notifications := l; unreadCount := unreadCount c;
     totalCount := totalCount c; autoMarkRead := autoMarkRead c;
     reconnectAttempts := reconnectAttempts c; timeouts := timeouts c |}.

Definition set_unreadCount (n : nat) (c : Component) : Component :=
  {| isLoading := isLoading c; isConnected := isConnected c;
     connectionStatus := connectionStatus c; error := error c;
     notifications := notifications c; unreadCount := n;
     totalCount := totalCount c; autoMarkRead := autoMarkRead c;
     reconnectAttempts := reconnectAttempts c; timeouts := timeouts c |}.

Definition set_totalCount (n : nat) (c : Component) : Component :=
  {| isLoading := isLoading c; isConnected := isConnected c;
     connectionStatus := connectionStatus c; error := error c;
     notifications := notifications c; unreadCount := unreadCount c;
     totalCount := n; autoMarkRead := autoMarkRead c;
     reconnectAttempts := reconnectAttempts c; timeouts := timeouts c |}.

Definition set_reconnectAttempts (n : nat) (c : Component) : Component :=
  {| isLoading := isLoading c; isConnected := isConnected c;
     connectionStatus := connectionStatus c; error := error c;
     notifications := notifications c; unreadCount := unreadCount c;
     totalCount := totalCount c; autoMarkRead := autoMarkRead c;
     reconnectAttempts := n; timeouts := timeouts c |}.

(** [setTimeout(callback, delay)]; the most recent call is first. *)
Definition setTimeout (callback : Callback) (delay : Z) (c : Component)
  : Component :=
  {| isLoading := isLoading c; isConnected := isConnected c;
     connectionStatus := connectionStatus c; error := error c;
     notifications := notifications c; unreadCount := unreadCount c;
     totalCount := totalCount c; autoMarkRead := autoMarkRead c;
     reconnectAttempts := reconnectAttempts c;
     timeouts := (callback, delay) :: timeouts c |}.

(** *** The notification list *)

(** [!n.is_read]: a missing flag counts as not read. *)
Definition not_read (n : Notification) : bool :=
  match is_read n with
  | Some true => false
  | _ => true
  end.

Definition updateUnreadCount (c : Component) : Component :=
  set_unreadCount (List.length (filter not_read (notifications c))) c.

(** [notification.is_read = true; notification.isNew = false] *)
Definition read_and_seen (n : Notification) : Notification :=
  {| id := id n; title := title n; priority := priority n;
     is_read := Some true; created_date := created_date n; isNew := false |}.

(** [notification.is_read = true] *)
Definition read (n : Notification) : Notification :=
  {| id := id n; title := title n; priority := priority n;
     is_read := Some true; created_date := created_date n; isNew := isNew n |}.

(** [array.find(n => n.id === notificationId)] *)
Definition find_by_id (notificationId : Id) (l : list Notification)
  : option Notification :=
  find (fun n => id_eqb (id n) notificationId) l.

(** The list after an assignment [f] to the object that
    [find(n => n.id === notificationId)] returns: the first match only. *)
Fixpoint update_found (notificationId : Id) (f : Notification -> Notification)
  (l : list Notification) : list Notification :=
  match l with
  | [] => []
  | n :: rest =>
      if id_eqb (id n) notificationId then f n :: rest
      else n :: update_found notificationId f rest
  end.

(** [ids.includes(x)] *)
Definition includes (ids : list Id) (x : Id) : bool :=
  existsb (fun y => id_eqb y x) ids.

(** [isRecentNotification]: at most five minutes old. *)
Definition isRecentNotification (now created : Z) : bool :=
  (now - created <=? 5 * 60 * 1000)%Z.

Definition from_server (now : Z) (d : NotificationData) : Notification :=
  {| id := data_id d; title := data_title d; priority := data_priority d;
     is_read := data_is_read d; created_date := data_created_date d;
     isNew := isRecentNotification now (data_created_date d) |}.

Definition from_bus (d : NotificationData) : Notification :=
  {| id := data_id d; title := data_title d; priority := data_priority d;
     is_read := data_is_read d; created_date := data_created_date d;
     isNew := true |}.

(** *** Reconnection *)

Definition attemptReconnection (c : Component) : Component :=
  if (maxReconnectAttempts <=? reconnectAttempts c)%nat then
    set_connectionStatus "error" c
  else
    let c1 := set_reconnectAttempts (S (reconnectAttempts c)) c in
    let delay :=
      Z.min (1000 * 2 ^ Z.of_nat (reconnectAttempts c1)) 30000 in
    setTimeout ReconnectCallback delay c1.

(** [connectToBus]; [ok] is false when subscribing throws. *)
Definition connectToBus (ok : bool) (c : Component) : Component :=
  let c1 := set_connectionStatus "connecting" c in
  if ok then c1 else set_connectionStatus "error" c1.

(** The callback that [attemptReconnection] hands to [setTimeout]. *)
Definition reconnect_callback (ok : bool) (c : Component) : Component :=
  let c1 := connectToBus ok c in
  if ok then c1 else attemptReconnection c1.

(** The listeners of the bus events [connect] and [disconnect]. *)
Definition on_connect (c : Component) : Component :=
  set_reconnectAttempts 0
    (set_isConnected true (set_connectionStatus "connected" c)).

Definition on_disconnect (c : Component) : Component :=
  attemptReconnection
    (set_isConnected false (set_connectionStatus "disconnected" c)).

(** [handleError]; [network] tells whether the message of the error
    includes the word network. *)
Definition handleError (network : bool) (c : Component) : Component :=
  let c1 :=
    set_error
      (Some "An error occurred in notifications. Please try refreshing.") c in
  let c2 := set_connectionStatus "error" c1 in
  let c3 := set_isLoading false c2 in
  if network then attemptReconnection c3 else c3.

(** *** The five operations on the list *)

(** The answer of a remote call: the value, or a failure and whether
    its message includes the word network. *)
Inductive Reply (A : Type) : Type :=
| Resolved (a : A)
| Rejected (network : bool).
Arguments Resolved {A} a.
Arguments Rejected {A} network.

Definition loadNotifications (now : Z) (reply : Reply (list NotificationData))
  (c : Component) : Component :=
  let c1 := set_isLoading true c in
  let c2 :=
    match reply with
    | Resolved records =>
        let c3 := set_notifications (map (from_server now) records) c1 in
        let c4 := set_totalCount (List.length (notifications c3)) c3 in
        updateUnreadCount c4
    | Rejected network => handleError network c1
    end in
  set_isLoading false c2.

Definition addNewNotification (d : NotificationData) (c : Component)
  : Component :=
  let notification := from_bus d in
  let c1 := set_notifications (notification :: notifications c) c in
  let c2 := updateUnreadCount c1 in
  if autoMarkRead c2
  then setTimeout (AutoMarkReadCallback (id notification)) 3000 c2
  else c2.

(** [markAsRead], from the point where [orm.write] has answered. *)
Definition markAsRead (notificationId : Id) (reply : Reply unit)
  (c : Component) : Component :=
  match reply with
  | Resolved _ =>
      updateUnreadCount
        (set_notifications
           (update_found notificationId read_and_seen (notifications c)) c)
  | Rejected _ => c
  end.

(** The ids [markAllAsRead] collects before it calls [orm.write]. *)
Definition unread_ids (c : Component) : list Id :=
  map id (filter not_read (notifications c)).

(** [markAllAsRead], from the point where [orm.write] has answered;
    [unreadIds] are the ids collected before the call. *)
Definition markAllAsRead_resume (unreadIds : list Id) (reply : Reply unit)
  (c : Component) : Component :=
  if (0 <? List.length unreadIds)%nat then
    match reply with
    | Resolved _ =>
        updateUnreadCount
          (set_notifications
             (map (fun notification =>
                     if includes unreadIds (id notification)
                     then read_and_seen notification
                     else notification)
                  (notifications c)) c)
    | Rejected _ => c
    end
  else c.

(** [markAllAsRead] with nothing running between the call and the
    answer. *)
Definition markAllAsRead (reply : Reply unit) (c : Component) : Component :=
  markAllAsRead_resume (unread_ids c) reply c.

Definition markNotificationRead (notificationId : Id) (c : Component)
  : Component :=
  match find_by_id notificationId (notifications c) with
  | Some notification =>
      if not_read notification
      then updateUnreadCount
             (set_notifications
                (update_found notificationId read (notifications c)) c)
      else c
  | None => c
  end.

(** The operations, with what the environment answers to each. *)
Inductive Operation : Type :=
| LoadNotifications (now : Z) (reply : Reply (list NotificationData))
| AddNewNotification (d : NotificationData)
| MarkAsRead (notificationId : Id) (reply : Reply unit)
| MarkAllAsRead (reply : Reply unit)
| MarkAllAsReadResume (unreadIds : list Id) (reply : Reply unit)
| MarkNotificationRead (notificationId : Id).

Definition perform (op : Operation) (c : Component) : Component :=
  match op with
  | LoadNotifications now reply => loadNotifications now reply c
  | AddNewNotification d => addNewNotification d c
  | MarkAsRead i reply => markAsRead i reply c
  | MarkAllAsRead reply => markAllAsRead reply c
  | MarkAllAsReadResume ids reply => markAllAsRead_resume ids reply c
  | MarkNotificationRead i => markNotificationRead i c
  end.

(** The component after a history of operations, the first one first. *)
Definition after (history : list Operation) (c : Component) : Component :=
  fold_left (fun c op => perform op c) history c.

(** The number of notifications whose read flag is not set. *)
Definition count_unread (l : list Notification) : nat :=
  List.length (filter not_read l).

Definition unread_count_correct (c : Component) : Prop :=
  unreadCount c = count_unread (notifications c).

(** The delays of the reconnection timers, in the order they were set. *)
Definition reconnect_delays (c : Component) : list Z :=
  rev (map snd
         (filter (fun t => match fst t with
                           | ReconnectCallback => true
                           | _ => false
                           end) (timeouts c))).

(** The component after the connection drops and [n] reconnection timers
    fire, every reconnection failing. *)
Fixpoint failed_reconnections (n : nat) (c : Component) : Component :=
  match n with
  | O => on_disconnect c
  | S k => reconnect_callback false (failed_reconnections k c)
  end.

(** The delay before the [k]-th attempt, as [attemptReconnection]
    computes it once it has counted the attempt. *)
Definition backoff_delay (k : nat) : Z :=
  Z.min (1000 * 2 ^ Z.of_nat k) 30000.

(** The delay before the [k]-th attempt, in the words of the
    specification: 1000 ms at first, then doubling, at most 30000 ms. *)
Definition doubling_from_base (k : nat) : Z :=
  Z.min (1000 * 2 ^ (Z.of_nat k - 1)) 30000.

(** *** Example data *)

Definition unread_from_bus : NotificationData :=
  {| data_id := IdNumber 7; data_title := "Visit reminder";
     data_priority := "high"; data_is_read := Some false;
     data_created_date := 0 |}.

End Notifications.

(** ** Double-precision arithmetic *)

Module Double.

Local Open Scope Q_scope.

(** The exponent [e] of a number other than 0: [2^e <= |x| < 2^(e+1)]. *)
Definition exponent (x : Q) : Z :=
  let e := (Z.log2 (Z.abs (Qnum x)) - Z.log2 (Z.pos (Qden x)))%Z in
  if Qle_bool (2 ^ e) (Qabs x) then e else (e - 1)%Z.

(** The nearest integer, a tie going to the even one. *)
Definition round_half_even (y : Q) : Z :=
  let f := Qfloor y in
  match Qcompare (y - inject_Z f) (1 # 2) with
  | Lt => f
  | Gt => (f + 1)%Z
  | Eq => if Z.even f then f else (f + 1)%Z
  end.

(** The distance between two doubles next to [x]: 53 bits of
    significand. *)
Definition ulp (x : Q) : Q := 2 ^ (exponent x - 52).

(** The double nearest to [x]. *)
Definition binary64 (x : Q) : Q :=
  if Qeq_bool x 0 then 0
  else inject_Z (round_half_even (x / ulp x)) * ulp x.

(** The four operations of JavaScript on numbers: the exact result,
    rounded. *)
Definition add (a b : Q) : Q := binary64 (a + b).
Definition sub (a b : Q) : Q := binary64 (a - b).
Definition mul (a b : Q) : Q := binary64 (a * b).
Definition div (a b : Q) : Q := binary64 (a / b).

(** Half the distance between 1 and the next double, [2^-53]: the
    largest relative error of one rounding. *)
Definition epsilon : Q := 1 # 9007199254740992.

(** [Number.MAX_SAFE_INTEGER], [2^53 - 1]. *)
Definition MAX_SAFE_INTEGER : Z := 9007199254740991.

(** [2^-50]: more than the relative error of five roundings. *)
Definition tolerance : Q := 1 # 1125899906842624.

(** [a] is [b] up to the relative error [eps]. *)
Definition close (eps a b : Q) : Prop := Qabs (a - b) <= eps * Qabs b.

(** The value of a float of the kernel that is finite. *)
Definition of_float (f : float) : Q :=
  match Prim2SF f with
  | S754_finite s m e =>
      (if s then - inject_Z (Z.pos m) else inject_Z (Z.pos m)) * 2 ^ e
  | _ => 0
  end.

End Double.

(** ** Visit analytics dashboard: [calculateKPIs] in double arithmetic

    The function that the module [Analytics] takes in exact arithmetic,
    statement by statement once more, each addition, subtraction,
    multiplication and division rounding its result to the nearest
    double; [Math.round] is exact on a double, and the length of an array
    is a whole number, which is a double. *)

Module AnalyticsDouble.

Import Js Analytics Double.
Local Open Scope Q_scope.
Local Open Scope kpi_scope.

(** [(sum, item) => sum + (item.f || 0)] *)
Definition add_field (f : AnalyticsRow -> option Q) (sum : Q) (item : Item)
  : M Q :=
  v <- prop f item ;; ret (add sum (or_else v 0)).

(** The idiom [Math.round(x * 100) / 100]. *)
Definition round2 (x : Q) : Q := div (Math_round (mul x 100)) 100.

(** The body of the [try] block. *)
Definition computeKPIs (analytics : list Item) : M unit :=
  totalVisits <- reduce (add_field total_visits) 0 analytics ;;
  totalRevenue <- reduce (add_field total_revenue) 0 analytics ;;
  completionSum <- reduce (add_field completion_rate) 0 analytics ;;
  let avgCompletionRate :=
    div completionSum (inject_Z (Z.of_nat (List.length analytics))) in
  growthRate <-
    (if (2 <=? List.length analytics)%nat then
       first <- prop total_visits (index analytics 0) ;;
       let firstPeriod := or_else first 0 in
       last <- prop total_visits (index analytics (List.length analytics - 1)) ;;
       let lastPeriod := or_else last 0 in
       if gtb firstPeriod 0
       then ret (mul (div (sub lastPeriod firstPeriod) firstPeriod) 100)
       else ret 0
     else ret 0) ;;
  totalTarget <- reduce (add_field target_visits) 0 analytics ;;
  let targetAchievement :=
    if gtb totalTarget 0 then mul (div totalVisits totalTarget) 100 else 0 in
  set_kpis
    {| totalVisits := totalVisits;
       avgCompletionRate := round2 avgCompletionRate;
       totalRevenue := totalRevenue;
       avgRevenueAchievement :=
         if gtb totalRevenue 0
         then Math_round
                (mul (div totalRevenue (mul totalRevenue (binary64 (12 # 10))))
                   100)
         else 0;
       growthRate := round2 growthRate;
       targetAchievement := round2 targetAchievement |}.

Definition calculateKPIs : M unit :=
  analytics <- get_analytics ;;
  if (List.length analytics =? 0)%nat then
    set_kpis zero_kpis
  else
    try_catch
      (computeKPIs analytics)
      (fun error =>
         console_error "Error calculating KPIs:" ;;;
         set_kpis zero_kpis).

(** The state after a call of [calculateKPIs]. *)
Definition after_calculateKPIs (s : State) : State := snd (calculateKPIs s).

(** *** The aggregation on rows none of which is [null]

    The same arithmetic as [computeKPIs], without the exception
    plumbing. *)

Definition fold_field (f : AnalyticsRow -> option Q) (rows : list AnalyticsRow)
  : Q :=
  fold_left (fun sum row => add sum (or_else (f row) 0)) rows 0.

Definition visits_at (rows : list AnalyticsRow) (i : nat) : Q :=
  match nth_error rows i with
  | Some row => or_else (total_visits row) 0
  | None => 0
  end.

Definition raw_growth (rows : list AnalyticsRow) : Q :=
  if (2 <=? List.length rows)%nat then
    let firstPeriod := visits_at rows 0 in
    let lastPeriod := visits_at rows (List.length rows - 1) in
    if gtb firstPeriod 0
    then mul (div (sub lastPeriod firstPeriod) firstPeriod) 100
    else 0
  else 0.

Definition raw_target (rows : list AnalyticsRow) : Q :=
  if gtb (fold_field target_visits rows) 0
  then mul (div (fold_field total_visits rows) (fold_field target_visits rows))
         100
  else 0.

Definition summary (rows : list AnalyticsRow) : Kpis :=
  {| totalVisits := fold_field total_visits rows;
     avgCompletionRate :=
       round2 (div (fold_field completion_rate rows)
                 (inject_Z (Z.of_nat (List.length rows))));
     totalRevenue := fold_field total_revenue rows;
     avgRevenueAchievement :=
       if gtb (fold_field total_revenue rows) 0
       then Math_round
              (mul (div (fold_field total_revenue rows)
                      (mul (fold_field total_revenue rows)
                         (binary64 (12 # 10))))
                 100)
       else 0;
     growthRate := round2 (raw_growth rows);
     targetAchievement := round2 (raw_target rows) |}.

(** *** The summary in the words of the specification *)

(** The sum of a field across the rows as a program accumulates it in
    doubles: from the first row on, each partial sum rounded. *)
Definition sum64 (f : AnalyticsRow -> option Q) (rows : list AnalyticsRow)
  : Q :=
  fold_left (fun sum row => binary64 (sum + absent_as_zero (f row))) rows 0.

(** [r] is [x] rounded to two decimal places in doubles: [r] is the
    double nearest to [n / 100] for a whole number [n] of hundredths,
    which is at most half a hundredth away from [x], up to the relative
    error [tolerance] of the arithmetic before the rounding. *)
Definition stored_2dp (x r : Q) : Prop :=
  exists n : Z,
    r == binary64 (inject_Z n / 100)
    /\ Qabs (inject_Z n - 100 * x) <= (1 # 2) + tolerance * Qabs (100 * x).

(** A field that holds a count: absent, or a whole number that is not
    negative. *)
Definition count (v : option Q) : bool :=
  match v with
  | Some q => Qle_bool 0 q && Qeq_bool q (inject_Z (Qfloor q))
  | None => true
  end.

Definition counts (f : AnalyticsRow -> option Q) (rows : list AnalyticsRow)
  : bool :=
  forallb (fun row => count (f row)) rows.

(** A field of counts whose sum is a safe integer. *)
Definition safe_counts (f : AnalyticsRow -> option Q)
  (rows : list AnalyticsRow) : bool :=
  counts f rows && Qle_bool (sum_of f rows) (inject_Z MAX_SAFE_INTEGER).

(** *** Example data *)

(** A summary of an earlier load. *)
Definition sevens : Kpis :=
  {| totalVisits := 7; avgCompletionRate := 7; totalRevenue := 7;
     avgRevenueAchievement := 7; growthRate := 7; targetAchievement := 7 |}.



(** Visits falling from 160 to 67: a growth of -58.125. *)
Definition falling : list AnalyticsRow :=
  [row 160 0 0 0; row 67 0 0 0].

(** Visits doubling, and visits starting from 0. *)
Definition doubling : list AnalyticsRow := [row 10 0 0 0; row 20 0 0 0].
Definition from_zero : list AnalyticsRow := [row 0 0 0 0; row 5 0 0 0].

(** 23 visits against a target of 160: 14.375. *)
Definition below_target : list AnalyticsRow := [row 23 0 0 160].

End AnalyticsDouble.

(** ** Daily visit tracker: [calculateVisitProgress] in double
    arithmetic *)

Module TrackerDouble.

Import Js Tracker Double.
Local Open Scope Q_scope.
Local Open Scope string_scope.

(** [(b - a) / 1000 / 60]: a difference of two dates, in minutes. *)
Definition diff_minutes (b a : Z) : Q :=
  div (div (sub (inject_Z b) (inject_Z a)) 1000) 60.

Definition calculateVisitProgress (now : Z) (visit : Visit) : Q :=
  if state visit =? "completed" then 100
  else if state visit =? "cancelled" then 0
  else
    match (if state visit =? "in_progress"
           then actual_start_time visit else None) with
    | Some startTime =>
        let elapsed := diff_minutes now startTime in
        let expected := or_else (duration visit) 60 in
        Math_min (mul (div elapsed expected) 100) 95
    | None =>
        if (state visit =? "planned")
           && match planned_time visit with
              | Some t => (plannedDate now t <? now)%Z
              | None => false
              end
        then -1
        else 0
    end.

(** *** Example visits *)

(** A visit of 60 minutes that started at 09:00 and is in progress, seven
    minutes later. *)
Definition at_0907 : Z := midnight + 9 * 3600000 + 7 * 60000.

End TrackerDouble.

(** ** Real-time notifications: the bus messages and the display of a
    notification's age *)

Module Bus.

Import Notifications.
Local Open Scope string_scope.

(** [handleBulkNotification]; [None] is a [notifications] property that
    is not an array. *)
Definition handleBulkNotification (notifications : option (list NotificationData))
  (c : Component) : Component :=
  match notifications with
  | Some batch => fold_left (fun c notif => addNewNotification notif c) batch c
  | None => c
  end.

(** A message of the channel [sales_rep_notifications], by its [type]. *)
Inductive Message : Type :=
| new_notification (data : NotificationData)
| notification_read (data_id : Id)
| bulk_notification (notifications : option (list NotificationData))
| other_type (type : string).

Definition handleBusMessage (message : Message) (c : Component) : Component :=
  match message with
  | new_notification data => addNewNotification data c
  | notification_read i => markNotificationRead i c
  | bulk_notification notifications => handleBulkNotification notifications c
  | other_type _ => c
  end.

(** The toggles of [settings.notificationTypes] that the handlers read. *)
Record NotificationTypes : Type := {
  visitCompleted : bool;
  targetAchieved : bool
}.

(** [`temp_${Date.now()}`] *)
Definition temp_id (now : Z) : Id :=
  IdString ("temp_" ++ NilZero.string_of_int (Z.to_int now)).

(** [createNotification]: the notification gets a temporary id and is
    not read. *)
Definition createNotification (now : Z) (title priority : string)
  (c : Component) : Component :=
  addNewNotification
    {| data_id := temp_id now; data_title := title;
       data_priority := priority; data_is_read := Some false;
       data_created_date := now |} c.

(** [handleVisitUpdate] on a message with the given [status]. *)
Definition handleVisitUpdate (types : NotificationTypes) (now : Z)
  (status : string) (c : Component) : Component :=
  if visitCompleted types && (status =? "completed")
  then createNotification now "Visit Completed" "medium" c
  else c.

(** [handleTargetAlert] on a message with the given
    [achievement_percentage]. *)
Definition handleTargetAlert (types : NotificationTypes) (now : Z)
  (achievement_percentage : Q) (c : Component) : Component :=
  if targetAchieved types && Qle_bool 100 achievement_percentage
  then createNotification now "Target Achieved!" "high" c
  else c.

(** What [getTimeAgo] hands to the translation function: the template
    and its argument. *)
Inductive TimeAgo : Type :=
| Just_now
| minutes_ago (minutes : Z)
| hours_ago (hours : Z)
| days_ago (days : Z).

Definition getTimeAgo (now date : Z) : TimeAgo :=
  let diffInSeconds := ((now - date) / 1000)%Z in
  if (diffInSeconds <? 60)%Z then Just_now
  else if (diffInSeconds <? 3600)%Z then minutes_ago (diffInSeconds / 60)
  else if (diffInSeconds <? 86400)%Z then hours_ago (diffInSeconds / 3600)
  else days_ago (diffInSeconds / 86400).

(** [getNotificationType] *)
Definition getNotificationType (priority : string) : string :=
  if priority =? "high" then "danger"
  else if priority =? "medium" then "warning"
  else if priority =? "low" then "info"
  else "info".

(** [n] loads in a row that fail with a network error. *)
Fixpoint failed_loads (n : nat) (now : Z) (c : Component) : Component :=
  match n with
  | O => c
  | S k => loadNotifications now (Rejected true) (failed_loads k now c)
  end.

(** Whether the notification that [find] returns for the id [i] is
    unread. *)
Definition first_is_unread (i : Id) (l : list Notification) : bool :=
  match find_by_id i l with
  | Some n => not_read n
  | None => false
  end.

(** [k] messages [notification_read] for the id [i] in a row. *)
Fixpoint read_messages (k : nat) (i : Id) (c : Component) : Component :=
  match k with
  | O => c
  | S j => handleBusMessage (notification_read i) (read_messages j i c)
  end.

(** *** Example data *)

Definition read_from_bus : NotificationData :=
  {| data_id := IdNumber 8; data_title := "Route update";
     data_priority := "low"; data_is_read := Some true;
     data_created_date := 0 |}.

Definition all_types_on : NotificationTypes :=
  {| visitCompleted := true; targetAchieved := true |}.

End Bus.

(** ** Daily visit tracker: statistics, the tracking of a visit and the
    display of the elapsed time *)

Module Visits.

Import Js.
Local Open Scope string_scope.

(** A record of [daily.visit.line] in [state.visits]; the fields that
    the statistics and the visit actions read.  [actual_start_time] is
    the time of day in hours that [startVisit] writes. *)
Record VisitLine : Type := {
  id : Z;
  state : string;
  actual_start_time : option Q;
  actual_revenue : option Q;
  expected_revenue : option Q
}.

(** *** [updateVisitStats] *)

Record Stats : Type := {
  total : nat;
  completed : nat;
  pending : nat;
  inProgress : nat;
  cancelled : nat;
  totalRevenue : Q;
  efficiency : Q
}.

(** [visits.filter(v => v.state === s).length] *)
Definition count_state (s : string) (visits : list VisitLine) : nat :=
  List.length (filter (fun v => state v =? s) visits).

Definition of_nat (n : nat) : Q := inject_Z (Z.of_nat n).

Definition updateVisitStats (visits : list VisitLine) : Stats :=
  let total := List.length visits in
  let completed := count_state "completed" visits in
  {| total := total;
     completed := completed;
     pending := count_state "planned" visits;
     inProgress := count_state "in_progress" visits;
     cancelled := count_state "cancelled" visits;
     totalRevenue :=
       fold_left
         (fun sum v =>
            (sum + or_else (actual_revenue v) (or_else (expected_revenue v) 0))%Q)
         visits 0%Q;
     efficiency :=
       if (0 <? total)%nat
       then (of_nat completed / of_nat total * 100)%Q
       else 0%Q |}.

Definition indicator (b : bool) : nat := if b then 1 else 0.

(** One of the four states that [updateVisitStats] counts. *)
Definition counted_state (s : string) : bool :=
  (s =? "completed") || (s =? "planned") || (s =? "in_progress")
  || (s =? "cancelled").

(** The sum of the four counters. *)
Definition counted (visits : list VisitLine) : nat :=
  (count_state "completed" visits + count_state "planned" visits
   + count_state "in_progress" visits + count_state "cancelled" visits)%nat.

(** *** Starting, completing and cancelling a visit *)

(** A call of [orm.write] on [daily.visit.line]. *)
Inductive Write : Type :=
| write_start (visitId : Z) (actual_start_time : Q)
| write_complete (visitId : Z) (actual_end_time actual_duration : Q)
    (visit_result : string)
| write_cancel (visitId : Z) (visit_notes : string)
| write_reschedule (visitId : Z) (planned_time : Q).

(** The answer of the server to a call. *)
Inductive Answer (A : Type) : Type :=
| Resolved (a : A)
| Rejected.
Arguments Resolved {A} a.
Arguments Rejected {A}.

(** The tracker.  [timer] is the handle in [state.timer]; [intervals]
    are the handles of the intervals that are running, each of which
    adds 1 to [elapsedTime] every second; handles are positive numbers,
    as those of a browser; [writes] and [messages] are the calls of
    [orm.write] and of [notification.add], the most recent first. *)
Record Tracker : Type := {
  visits : list VisitLine;
  stats : Stats;
  currentVisit : option Z;
  isTracking : bool;
  elapsedTime : nat;
  timer : option nat;
  intervals : list nat;
  next_handle : nat;
  writes : list Write;
  messages : list (string * string)
}.

Definition setup : Tracker :=
  {| visits := []; stats := updateVisitStats []; currentVisit := None;
     isTracking := false; elapsedTime := 0; timer := None; intervals := [];
     next_handle := 1; writes := []; messages := [] |}.

Definition notify (text type : string) (t : Tracker) : Tracker :=
  {| visits := visits t; stats := stats t; currentVisit := currentVisit t;
     isTracking := isTracking t; elapsedTime := elapsedTime t;
     timer := timer t; intervals := intervals t;
     next_handle := next_handle t; writes := writes t;
     messages := (text, type) :: messages t |}.

Definition orm_write (w : Write) (t : Tracker) : Tracker :=
  {| visits := visits t; stats := stats t; currentVisit := currentVisit t;
     isTracking := isTracking t; elapsedTime := elapsedTime t;
     timer := timer t; intervals := intervals t;
     next_handle := next_handle t; writes := w :: writes t;
     messages := messages t |}.

(** [loadVisits]: the visits of the answer replace the list and the
    statistics follow; a failed read throws. *)
Definition loadVisits (reply : Answer (list VisitLine)) (t : Tracker)
  : bool * Tracker :=
  match reply with
  | Resolved loaded =>
      (true,
       {| visits := loaded; stats := updateVisitStats loaded;
          currentVisit := currentVisit t; isTracking := isTracking t;
          elapsedTime := elapsedTime t; timer := timer t;
          intervals := intervals t; next_handle := next_handle t;
          writes := writes t; messages := messages t |})
  | Rejected => (false, t)
  end.

(** The four assignments of [startVisit] after the write; [setInterval]
    hands out a new handle and starts an interval. *)
Definition begin_tracking (visitId : Z) (t : Tracker) : Tracker :=
  {| visits := visits t; stats := stats t; currentVisit := Some visitId;
     isTracking := true; elapsedTime := 0;
     timer := Some (next_handle t);
     intervals := next_handle t :: intervals t;
     next_handle := S (next_handle t); writes := writes t;
     messages := messages t |}.

Definition stopTracking (t : Tracker) : Tracker :=
  {| visits := visits t; stats := stats t; currentVisit := None;
     isTracking := false; elapsedTime := 0; timer := None;
     intervals :=
       match timer t with
       | Some handle => filter (fun h => negb (h =? handle)%nat) (intervals t)
       | None => intervals t
       end;
     next_handle := next_handle t; writes := writes t;
     messages := messages t |}.

(** One second passes: every running interval adds 1. *)
Definition tick (t : Tracker) : Tracker :=
  {| visits := visits t; stats := stats t; currentVisit := currentVisit t;
     isTracking := isTracking t;
     elapsedTime := elapsedTime t + List.length (intervals t);
     timer := timer t; intervals := intervals t;
     next_handle := next_handle t; writes := writes t;
     messages := messages t |}.

(** The end of the four actions: [loadVisits], then the message of
    success, or the message of the [catch] block when the load throws. *)
Definition reload_and_report (reply : Answer (list VisitLine))
  (success failure : string * string) (t : Tracker) : Tracker :=
  match loadVisits reply t with
  | (true, t') => notify (fst success) (snd success) t'
  | (false, t') => notify (fst failure) (snd failure) t'
  end.

Definition startVisit (visitId : Z) (currentTime : Q) (write : Answer unit)
  (reply : Answer (list VisitLine)) (t : Tracker) : Tracker :=
  let t1 := orm_write (write_start visitId currentTime) t in
  match write with
  | Resolved _ =>
      reload_and_report reply
        ("Visit started successfully", "success")
        ("Error starting visit", "danger")
        (begin_tracking visitId t1)
  | Rejected => notify "Error starting visit" "danger" t1
  end.

Definition completeVisit (visitId : Z) (currentTime : Q) (result : string)
  (write : Answer unit) (reply : Answer (list VisitLine)) (t : Tracker)
  : Tracker :=
  match find (fun v => (id v =? visitId)%Z) (visits t) with
  | None => notify "Error completing visit" "danger" t
  | Some visit =>
      let duration :=
        if truthy (actual_start_time visit)
        then (currentTime - or_else (actual_start_time visit) 0)%Q
        else 0%Q in
      let t1 :=
        orm_write (write_complete visitId currentTime duration result) t in
      match write with
      | Resolved _ =>
          reload_and_report reply
            ("Visit completed successfully", "success")
            ("Error completing visit", "danger")
            (stopTracking t1)
      | Rejected => notify "Error completing visit" "danger" t1
      end
  end.

Definition cancelVisit (visitId : Z) (reason : string) (write : Answer unit)
  (reply : Answer (list VisitLine)) (t : Tracker) : Tracker :=
  let t1 := orm_write (write_cancel visitId reason) t in
  match write with
  | Resolved _ =>
      reload_and_report reply
        ("Visit cancelled", "warning")
        ("Error cancelling visit", "danger")
        (stopTracking t1)
  | Rejected => notify "Error cancelling visit" "danger" t1
  end.

Definition rescheduleVisit (visitId : Z) (newTime : Q) (write : Answer unit)
  (reply : Answer (list VisitLine)) (t : Tracker) : Tracker :=
  let t1 := orm_write (write_reschedule visitId newTime) t in
  match write with
  | Resolved _ =>
      reload_and_report reply
        ("Visit rescheduled successfully", "info")
        ("Error rescheduling visit", "danger")
        t1
  | Rejected => notify "Error rescheduling visit" "danger" t1
  end.

(** What the tracking consists of. *)
Definition tracking (t : Tracker) : option Z * bool * nat * option nat :=
  (currentVisit t, isTracking t, elapsedTime t, timer t).

(** Every handle in use is older than the next one [setInterval] will
    hand out. *)
Definition handles_in_use (t : Tracker) : Prop :=
  Forall (fun h => (h < next_handle t)%nat) (intervals t).

(** *** [formatElapsedTime] *)

(** [n.toString()] for a natural number. *)
Definition toString (n : nat) : string :=
  NilEmpty.string_of_uint (Nat.to_uint n).

(** [s.padStart(2, '0')] *)
Definition padStart2 (s : string) : string :=
  match String.length s with
  | O => "00"
  | S O => "0" ++ s
  | _ => s
  end.

Definition formatElapsedTime (seconds : nat) : string :=
  let hours := (seconds / 3600)%nat in
  let minutes := ((seconds mod 3600) / 60)%nat in
  let secs := (seconds mod 60)%nat in
  padStart2 (toString hours) ++ ":" ++ padStart2 (toString minutes)
  ++ ":" ++ padStart2 (toString secs).

(** *** Example data *)

Definition line (i : Z) (s : string) : VisitLine :=
  {| id := i; state := s; actual_start_time := Some (9 # 1)%Q;
     actual_revenue := None; expected_revenue := Some (100 # 1)%Q |}.

Definition three_visits : list VisitLine :=
  [line 1 "completed"; line 2 "planned"; line 3 "rescheduled"].

(** A tracker that follows visit 2 of three. *)
Definition tracking_visit_2 : Tracker :=
  begin_tracking 2
    (snd (loadVisits (Resolved three_visits) setup)).

End Visits.

(** ** GPS interactive maps: the viewport, the markers, the statistics
    and the load of the data *)

Module MapView.

Import Js GpsMaps.
Local Open Scope string_scope.

(** A record of [gps.tracking] as the map uses it: the fields of
    [TrackingPoint], which the validity filter reads, and the fields that
    the markers and the statistics read. *)
Record Fix : Type := {
  point : TrackingPoint;
  tracking_type : string;
  is_valid : bool;
  is_in_territory : bool
}.

(** [validateTrackingData] on these records. *)
Definition validate_fixes (data : list Fix) : list Fix :=
  filter (fun f => valid_point (point f)) data.

(** *** The viewport *)

Record Bounds : Type := {
  north : Q;
  south : Q;
  east : Q;
  west : Q
}.

(** [v >= b] and [v <= b] for a property [v]; a missing operand
    converts to [NaN] and makes the comparison false.  (A [null] would
    compare as 0; the points of [state.trackingData] have passed
    [validateTrackingData], which keeps no point without coordinates.) *)
Definition prop_geb (v : option Q) (b : Q) : bool :=
  match v with Some q => Qle_bool b q | None => false end.
Definition prop_leb (v : option Q) (b : Q) : bool :=
  match v with Some q => Qle_bool q b | None => false end.

(** The callback of the filter of [filterDataByBounds]. *)
Definition in_bounds (bounds : Bounds) (f : Fix) : bool :=
  prop_geb (latitude (point f)) (south bounds)
  && prop_leb (latitude (point f)) (north bounds)
  && prop_geb (longitude (point f)) (west bounds)
  && prop_leb (longitude (point f)) (east bounds).

Definition filterDataByBounds (data : list Fix) (bounds : Bounds) : list Fix :=
  filter (in_bounds bounds) data.

(** *** Markers *)

(** What a function returns, or the error it throws. *)
Inductive Result (A : Type) : Type :=
| Returned (a : A)
| Threw (error : string).
Arguments Returned {A} a.
Arguments Threw {A} error.

(** The icon of a marker: for Google Maps an SVG image with a symbol on
    a coloured disc, for Leaflet a coloured disc. *)
Inductive Icon : Type :=
| svg_icon (symbol color : string)
| div_icon (color : string).

(** [getMarkerIcon].  [iconColor] is declared [const]: the assignment
    of the case [emergency] throws a [TypeError]. *)
Definition getMarkerIcon (google : bool) (trackingType : string)
  (isValid : bool) : Result Icon :=
  let iconColor := if isValid then "green" else "red" in
  let iconSymbol :=
    if trackingType =? "visit_start" then Returned "play"
    else if trackingType =? "visit_end" then Returned "stop"
    else if trackingType =? "emergency"
         then Threw "TypeError: Assignment to constant variable."
    else if trackingType =? "manual" then Returned "hand"
    else Returned "circle" in
  match iconSymbol with
  | Returned symbol =>
      Returned (if google then svg_icon symbol iconColor
                else div_icon iconColor)
  | Threw error => Threw error
  end.

Record Marker : Type := {
  position : option Q * option Q;
  icon : Icon
}.

Definition createMarker (google : bool) (f : Fix) : Result Marker :=
  let position := (latitude (point f), longitude (point f)) in
  match getMarkerIcon google (tracking_type f) (is_valid f) with
  | Returned icon => Returned {| position := position; icon := icon |}
  | Threw error => Threw error
  end.

(** [data.map(point => this.createMarker(point))]: the first error ends
    the mapping. *)
Fixpoint create_markers (google : bool) (data : list Fix)
  : Result (list Marker) :=
  match data with
  | [] => Returned []
  | f :: rest =>
      match createMarker google f with
      | Threw error => Threw error
      | Returned marker =>
          match create_markers google rest with
          | Threw error => Threw error
          | Returned markers => Returned (marker :: markers)
          end
      end
  end.

(** *** Statistics *)

Record TrackingStats : Type := {
  totalPoints : nat;
  validPoints : nat;
  territoryPoints : nat;
  averageAccuracy : Q;
  dateRange_from : option Z;
  dateRange_to : option Z
}.

(** [Math.min(...l)] and [Math.max(...l)] of a list that is not empty. *)
Definition Math_min_of (first : Z) (rest : list Z) : Z :=
  fold_left Z.min rest first.
Definition Math_max_of (first : Z) (rest : list Z) : Z :=
  fold_left Z.max rest first.

Definition of_nat (n : nat) : Q := inject_Z (Z.of_nat n).

Definition accuracy_sum (data : list Fix) : Q :=
  fold_left (fun sum p => (sum + or_else (accuracy (point p)) 0)%Q) data 0%Q.

Definition compute_stats (data : list Fix) : TrackingStats :=
  {| totalPoints := List.length data;
     validPoints := List.length (filter is_valid data);
     territoryPoints := List.length (filter is_in_territory data);
     averageAccuracy :=
       if (0 <? List.length data)%nat
       then (accuracy_sum data / of_nat (List.length data))%Q
       else 0%Q;
     dateRange_from :=
       match map (fun p => timestamp (point p)) data with
       | first :: rest => Some (Math_min_of first rest)
       | [] => None
       end;
     dateRange_to :=
       match map (fun p => timestamp (point p)) data with
       | first :: rest => Some (Math_max_of first rest)
       | [] => None
       end |}.

(** *** The component *)

(** The part of the state that the functions below touch.  [google]
    is [window.google], the Google Maps API being the one loaded, and
    [mapInstance] tells whether the map exists; [stats] and
    [visibleMarkers] are no properties of the state that [setup] creates,
    [None] until they are assigned; [console] and [messages] are the
    calls of [console.error] or [console.warn] and of [notification.add],
    the most recent first.  The calls of the map library succeed. *)
Record Map : Type := {
  mapLoaded : bool;
  mapInstance : bool;
  google : bool;
  isLoading : bool;
  error : option string;
  currentView : string;
  trackingData : list Fix;
  stats : option TrackingStats;
  markers : list Marker;
  visibleMarkers : option (list Marker);
  console : list string;
  messages : list string
}.

Definition set_isLoading (b : bool) (m : Map) : Map :=
  {| mapLoaded := mapLoaded m; mapInstance := mapInstance m;
     google := google m; isLoading := b; error := error m;
     currentView := currentView m; trackingData := trackingData m;
     stats := stats m; markers := markers m;
     visibleMarkers := visibleMarkers m; console := console m;
     messages := messages m |}.

Definition set_trackingData (data : list Fix) (m : Map) : Map :=
  {| mapLoaded := mapLoaded m; mapInstance := mapInstance m;
     google := google m; isLoading := isLoading m; error := error m;
     currentView := currentView m; trackingData := data;
     stats := stats m; markers := markers m;
     visibleMarkers := visibleMarkers m; console := console m;
     messages := messages m |}.

Definition set_stats (s : option TrackingStats) (m : Map) : Map :=
  {| mapLoaded := mapLoaded m; mapInstance := mapInstance m;
     google := google m; isLoading := isLoading m; error := error m;
     currentView := currentView m; trackingData := trackingData m;
     stats := s; markers := markers m;
     visibleMarkers := visibleMarkers m; console := console m;
     messages := messages m |}.

Definition set_markers (l : list Marker) (m : Map) : Map :=
  {| mapLoaded := mapLoaded m; mapInstance := mapInstance m;
     google := google m; isLoading := isLoading m; error := error m;
     currentView := currentView m; trackingData := trackingData m;
     stats := stats m; markers := l;
     visibleMarkers := visibleMarkers m; console := console m;
     messages := messages m |}.

Definition set_visibleMarkers (l : option (list Marker)) (m : Map) : Map :=
  {| mapLoaded := mapLoaded m; mapInstance := mapInstance m;
     google := google m; isLoading := isLoading m; error := error m;
     currentView := currentView m; trackingData := trackingData m;
     stats := stats m; markers := markers m;
     visibleMarkers := l; console := console m;
     messages := messages m |}.

Definition log (line : string) (m : Map) : Map :=
  {| mapLoaded := mapLoaded m; mapInstance := mapInstance m;
     google := google m; isLoading := isLoading m; error := error m;
     currentView := currentView m; trackingData := trackingData m;
     stats := stats m; markers := markers m;
     visibleMarkers := visibleMarkers m; console := line :: console m;
     messages := messages m |}.

(** [this.state.error = text; this.notification.add(this.state.error,
    ...)] *)
Definition fail_with (text : string) (m : Map) : Map :=
  {| mapLoaded := mapLoaded m; mapInstance := mapInstance m;
     google := google m; isLoading := isLoading m; error := Some text;
     currentView := currentView m; trackingData := trackingData m;
     stats := stats m; markers := markers m;
     visibleMarkers := visibleMarkers m; console := console m;
     messages := text :: messages m |}.

Definition updateTrackingStats (m : Map) : Map :=
  set_stats (Some (compute_stats (trackingData m))) m.

(** *** The visible markers *)

Definition abs_diff (a b : nat) : nat :=
  Z.to_nat (Z.abs (Z.of_nat a - Z.of_nat b)).

Definition shouldUpdateMarkers (newData : list Fix) (m : Map) : bool :=
  let currentCount :=
    match visibleMarkers m with
    | Some l => List.length l
    | None => O
    end in
  let newCount := List.length newData in
  (10 <? abs_diff currentCount newCount)%nat
  || match visibleMarkers m with Some _ => false | None => true end.

Definition clearVisibleMarkers (m : Map) : Map :=
  set_visibleMarkers (Some []) m.

(** [updateVisibleMarkers]: an error of [createMarker] leaves the list
    cleared. *)
Definition updateVisibleMarkers (data : list Fix) (m : Map)
  : Result unit * Map :=
  let m1 := clearVisibleMarkers m in
  match create_markers (google m1) data with
  | Returned l => (Returned tt, set_visibleMarkers (Some l) m1)
  | Threw error => (Threw error, m1)
  end.

(** [refreshVisibleData]; [bounds] is what [getCurrentMapBounds]
    returns. *)
Definition refreshVisibleData (bounds : Bounds) (m : Map) : Map :=
  if negb (mapInstance m) || isLoading m then m
  else
    let visibleData := filterDataByBounds (trackingData m) bounds in
    if shouldUpdateMarkers visibleData m then
      match updateVisibleMarkers visibleData m with
      | (Returned _, m1) => m1
      | (Threw _, m1) => log "Error refreshing visible data:" m1
      end
    else m.

(** *** Rendering the tracking points *)

(** The loop of [renderTrackingPoints]: each marker is pushed as soon as
    it is created. *)
Fixpoint push_markers (data : list Fix) (m : Map) : Result unit * Map :=
  match data with
  | [] => (Returned tt, m)
  | f :: rest =>
      match createMarker (google m) f with
      | Returned marker =>
          push_markers rest (set_markers (markers m ++ [marker]) m)
      | Threw error => (Threw error, m)
      end
  end.

Definition renderTrackingPoints (m : Map) : Result unit * Map :=
  if (List.length (trackingData m) =? 0)%nat then (Returned tt, m)
  else push_markers (trackingData m) m.

Definition clearMapElements (m : Map) : Map := set_markers [] m.

(** [renderCurrentView].  In the view [tracking] it draws the tracking
    points; in the other views it draws with the map library and touches
    none of the fields of [Map] before it returns. *)
Definition renderCurrentView (m : Map) : Result unit * Map :=
  let m1 := clearMapElements m in
  if currentView m1 =? "tracking" then renderTrackingPoints m1
  else (Returned tt, m1).

(** *** Loading *)

(** The answer of the server to a read. *)
Inductive Answer (A : Type) : Type :=
| Resolved (a : A)
| Rejected.
Arguments Resolved {A} a.
Arguments Rejected {A}.

Definition loadTrackingData (reply : Answer (list Fix)) (m : Map)
  : Result unit * Map :=
  match reply with
  | Resolved data =>
      (Returned tt, updateTrackingStats (set_trackingData (validate_fixes data) m))
  | Rejected =>
      (Threw "Error loading tracking data",
       set_trackingData [] (log "Error loading tracking data:" m))
  end.

(** The object [state.realTimeSettings]: [setup] creates no such
    property and nothing assigns one. *)
Definition realTimeSettings (m : Map) : option bool := None.

Definition load_failed : string :=
  "Failed to load map data. Please try refreshing.".

(** [loadRouteData], which touches the console only among the fields
    of [Map]. *)
Definition loadRouteData (routes_ok : bool) (m : Map) : Result unit * Map :=
  if routes_ok then (Returned tt, m)
  else (Threw "Error loading route data", log "Error loading route data:" m).

(** [loadInitialData] of the map.  [tracking] and [routes_ok] are the
    answers to [loadTrackingData] and [loadRouteData], taken in this
    order; the two other loads catch their errors and touch other
    fields. *)
Definition loadInitialData (tracking : Answer (list Fix)) (routes_ok : bool)
  (m : Map) : Map :=
  if negb (mapLoaded m) then log "Map not loaded yet, skipping data load" m
  else
    let m1 := set_isLoading true m in
    let (loaded, m1') := loadTrackingData tracking m1 in
    let (routes, m2) := loadRouteData routes_ok m1' in
    let caught (m' : Map) :=
      fail_with load_failed (log "Error loading initial data:" m') in
    let m3 :=
      match loaded, routes with
      | Returned _, Returned _ =>
          match renderCurrentView m2 with
          | (Returned _, m') =>
              match realTimeSettings m' with
              | Some _ => m'
              | None => caught m'
              end
          | (Threw _, m') => caught m'
          end
      | _, _ => caught m2
      end in
    set_isLoading false m3.

(** *** Example data *)

Definition fix_of (t : Z) (lat lon : Q) (type : string) : Fix :=
  {| point := GpsMaps.point t lat lon (Some 50%Q); tracking_type := type;
     is_valid := true; is_in_territory := true |}.

(** A viewport over the date line, from 170 degrees east to 170 degrees
    west. *)
Definition over_the_date_line : Bounds :=
  {| north := 10; south := -10; east := -170; west := 170 |}.

(** A viewport around the location of the examples. *)
Definition around_riyadh : Bounds :=
  {| north := 30; south := 20; east := 50; west := 40 |}.

Definition loaded_map : Map :=
  {| mapLoaded := true; mapInstance := true; google := true;
     isLoading := false; error := None; currentView := "tracking";
     trackingData := []; stats := None; markers := [];
     visibleMarkers := None; console := []; messages := [] |}.

Definition two_fixes : list Fix :=
  [fix_of 20 (247 # 10) (467 # 10) "manual";
   fix_of 10 (248 # 10) (468 # 10) "visit_start"].

Definition with_emergency : list Fix :=
  [fix_of 30 (247 # 10) (467 # 10) "manual";
   fix_of 20 (248 # 10) (468 # 10) "emergency";
   fix_of 10 (249 # 10) (469 # 10) "visit_end"].

End MapView.

(** ** Visit analytics dashboard: loading the data and the filter
    handlers *)

Module Dashboard.

Import Js Analytics.
Local Open Scope string_scope.

(** The value of a date input as [new Date(value)] reads it: an instant,
    or [Invalid Date]. *)
Definition DateValue : Type := option Z.

(** [new Date(a) > new Date(b)]: false when either date is invalid. *)
Definition date_gtb (a b : DateValue) : bool :=
  match a, b with
  | Some x, Some y => (y <? x)%Z
  | _, _ => false
  end.

(** The arguments of a call of [get_analytics_data] that vary. *)
Record Query : Type := {
  period_type : string;
  date_from : DateValue;
  date_to : DateValue
}.

(** The object that [get_analytics_data] returns: [data] is an array or
    is missing; [kpis], when present, is given as the update that
    [Object.assign(this.state.kpis, analytics.kpis)] makes. *)
Record AnalyticsData : Type := {
  data : option (list Item);
  server_kpis : option (Kpis -> Kpis)
}.

(** The answer to [orm.call]: an object, [null], or a rejection with the
    message of its error. *)
Inductive Answer : Type :=
| Resolved (analytics : option AnalyticsData)
| Rejected (message : string).

(** How a call ends: it returns, or it throws an error with a
    message. *)
Inductive Completion : Type :=
| Completed
| Failed (message : string).

(** The state of the component: [core] holds the rows, the summary and
    the console lines of the functions modelled here; [queries] and
    [messages] are the calls of [orm.call] and of [notification.add], the
    most recent first; [draws] counts the times [renderCharts] went past
    its guard. *)
Record Dash : Type := {
  core : State;
  loading : bool;
  error : option string;
  periodType : string;
  dateFrom : DateValue;
  dateTo : DateValue;
  queries : list Query;
  messages : list string;
  draws : nat
}.

Definition set_core (s : State) (d : Dash) : Dash :=
  {| core := s; loading := loading d; error := error d;
     periodType := periodType d; dateFrom := dateFrom d; dateTo := dateTo d;
     queries := queries d; messages := messages d; draws := draws d |}.

Definition set_loading (b : bool) (d : Dash) : Dash :=
  {| core := core d; loading := b; error := error d;
     periodType := periodType d; dateFrom := dateFrom d; dateTo := dateTo d;
     queries := queries d; messages := messages d; draws := draws d |}.

Definition set_error (e : option string) (d : Dash) : Dash :=
  {| core := core d; loading := loading d; error := e;
     periodType := periodType d; dateFrom := dateFrom d; dateTo := dateTo d;
     queries := queries d; messages := messages d; draws := draws d |}.

Definition set_periodType (v : string) (d : Dash) : Dash :=
  {| core := core d; loading := loading d; error := error d;
     periodType := v; dateFrom := dateFrom d; dateTo := dateTo d;
     queries := queries d; messages := messages d; draws := draws d |}.

Definition set_dateFrom (v : DateValue) (d : Dash) : Dash :=
  {| core := core d; loading := loading d; error := error d;
     periodType := periodType d; dateFrom := v; dateTo := dateTo d;
     queries := queries d; messages := messages d; draws := draws d |}.

Definition set_dateTo (v : DateValue) (d : Dash) : Dash :=
  {| core := core d; loading := loading d; error := error d;
     periodType := periodType d; dateFrom := dateFrom d; dateTo := v;
     queries := queries d; messages := messages d; draws := draws d |}.

(** [this.orm.call('daily.visit.analytics', 'get_analytics_data', ...)]
    with the filters of the state. *)
Definition call_get_analytics_data (d : Dash) : Dash :=
  {| core := core d; loading := loading d; error := error d;
     periodType := periodType d; dateFrom := dateFrom d; dateTo := dateTo d;
     queries := {| period_type := periodType d; date_from := dateFrom d;
                   date_to := dateTo d |} :: queries d;
     messages := messages d; draws := draws d |}.

Definition notify (text : string) (d : Dash) : Dash :=
  {| core := core d; loading := loading d; error := error d;
     periodType := periodType d; dateFrom := dateFrom d; dateTo := dateTo d;
     queries := queries d; messages := text :: messages d;
     draws := draws d |}.

Definition drawn (d : Dash) : Dash :=
  {| core := core d; loading := loading d; error := error d;
     periodType := periodType d; dateFrom := dateFrom d; dateTo := dateTo d;
     queries := queries d; messages := messages d; draws := S (draws d) |}.

Definition log (line : string) (d : Dash) : Dash :=
  set_core {| analytics := analytics (core d); kpis := kpis (core d);
              console := line :: console (core d) |} d.

Definition set_analytics (rows : list Item) (d : Dash) : Dash :=
  set_core {| analytics := rows; kpis := kpis (core d);
              console := console (core d) |} d.

Definition assign_kpis (update : Kpis -> Kpis) (d : Dash) : Dash :=
  set_core {| analytics := analytics (core d); kpis := update (kpis (core d));
              console := console (core d) |} d.

(** [renderCharts]; [charts_ok] tells whether the three charts render
    without an error. *)
Definition renderCharts (charts_ok : bool) (d : Dash) : Dash :=
  if loading d || (List.length (analytics (core d)) =? 0)%nat then d
  else
    let d1 := drawn d in
    if charts_ok then d1
    else notify "Failed to render charts" (log "Error rendering charts:" d1).

(** [analytics.data || []] *)
Definition rows_of (a : AnalyticsData) : list Item :=
  match data a with
  | Some rows => rows
  | None => []
  end.

Definition start_after_end : string := "Start date cannot be after end date".

(** [loadAnalytics]; [reply] is the answer to its [orm.call]. *)
Definition loadAnalytics (reply : Answer) (charts_ok : bool) (d : Dash)
  : Completion * Dash :=
  let caught (message : string) (d' : Dash) :=
    (Failed message,
     set_error
       (Some (if message =? "" then "Failed to load analytics data"
              else message))
       (log "Error loading analytics:" d')) in
  let d1 := set_loading true d in
  if date_gtb (dateFrom d1) (dateTo d1) then caught start_after_end d1
  else
    let d2 := call_get_analytics_data d1 in
    match reply with
    | Rejected message => caught message d2
    | Resolved None =>
        caught "Cannot read properties of null (reading 'data')" d2
    | Resolved (Some analytics) =>
        let d3 := set_analytics (rows_of analytics) d2 in
        let d4 :=
          match server_kpis analytics with
          | Some update => assign_kpis update d3
          | None => d3
          end in
        let d5 := set_core (after_calculateKPIs (core d4)) d4 in
        (Completed, renderCharts charts_ok d5)
    end.

(** [loadInitialData], on the fields of [Dash]: the loads of the
    filters and of the real-time data, which run beside [loadAnalytics],
    catch their errors and write to other properties of the state. *)
Definition loadInitialData (reply : Answer) (charts_ok : bool) (d : Dash)
  : Dash :=
  let d1 := set_error None (set_loading true d) in
  let d2 :=
    match loadAnalytics reply charts_ok d1 with
    | (Completed, d') => d'
    | (Failed _, d') =>
        notify "Failed to load analytics data"
          (log "Failed to load analytics:" d')
    end in
  set_loading false d2.

Definition refreshData (reply : Answer) (charts_ok : bool) (d : Dash) : Dash :=
  notify "Dashboard data refreshed successfully"
    (loadInitialData reply charts_ok d).

(** The body shared by the handlers once the new value is stored:
    [await this.loadAnalytics(); await this.renderCharts();] inside
    [try], with the [catch] of the handler. *)
Definition reload (reply : Answer) (charts_ok : bool)
  (line text : string) (d : Dash) : Dash :=
  match loadAnalytics reply charts_ok d with
  | (Completed, d') => renderCharts charts_ok d'
  | (Failed _, d') => notify text (log line d')
  end.

Definition onPeriodTypeChange (value : string) (reply : Answer)
  (charts_ok : bool) (d : Dash) : Dash :=
  reload reply charts_ok "Error changing period type:"
    "Failed to update period type" (set_periodType value d).

Definition onDateFromChange (value : DateValue) (reply : Answer)
  (charts_ok : bool) (d : Dash) : Dash :=
  let d1 := set_dateFrom value d in
  if date_gtb (dateFrom d1) (dateTo d1) then notify start_after_end d1
  else reload reply charts_ok "Error changing date from:"
         "Failed to update start date" d1.

Definition onDateToChange (value : DateValue) (reply : Answer)
  (charts_ok : bool) (d : Dash) : Dash :=
  let d1 := set_dateTo value d in
  if date_gtb (dateFrom d1) (dateTo d1) then notify start_after_end d1
  else reload reply charts_ok "Error changing date to:"
         "Failed to update end date" d1.

(** *** Runs of the component

    One step is a whole run of a handler or of a load, from its call to
    its end: the runs do not overlap. *)
Inductive Event : Type :=
| InitialLoad (reply : Answer)
| Refresh (reply : Answer)
| PeriodTypeChange (value : string) (reply : Answer)
| DateFromChange (value : DateValue) (reply : Answer)
| DateToChange (value : DateValue) (reply : Answer).

Definition handle (charts_ok : bool) (d : Dash) (e : Event) : Dash :=
  match e with
  | InitialLoad reply => loadInitialData reply charts_ok d
  | Refresh reply => refreshData reply charts_ok d
  | PeriodTypeChange value reply => onPeriodTypeChange value reply charts_ok d
  | DateFromChange value reply => onDateFromChange value reply charts_ok d
  | DateToChange value reply => onDateToChange value reply charts_ok d
  end.

Definition run (charts_ok : bool) (events : list Event) (d : Dash) : Dash :=
  fold_left (handle charts_ok) events d.

(** A change of a filter that gets past the check of its handler, and
    so goes on to load. *)
Definition starts_a_load (e : Event) (d : Dash) : bool :=
  match e with
  | PeriodTypeChange _ _ => true
  | DateFromChange value _ => negb (date_gtb value (dateTo d))
  | DateToChange value _ => negb (date_gtb (dateFrom d) value)
  | InitialLoad _ | Refresh _ => false
  end.

(** A query whose start date is after its end date. *)
Definition inverted (q : Query) : bool := date_gtb (date_from q) (date_to q).

(** *** Example data *)

(** The state that [setup] creates, for a month that starts at the
    instant 0. *)
Definition fresh : Dash :=
  {| core := {| analytics := []; kpis := zero_kpis; console := [] |};
     loading := true; error := None; periodType := "monthly";
     dateFrom := Some 0%Z; dateTo := Some 2592000000%Z;
     queries := []; messages := []; draws := 0 |}.

Definition two_rows : AnalyticsData :=
  {| data := Some [Some (row 10 100 80 10);
                   Some (row 20 200 90 10)];
     server_kpis := Some (fun _ => zero_kpis) |}.

End Dashboard.

(* ================================================================== *)
(** * Part II.  Properties                                             *)
(* ================================================================== *)

(** ** Rounding *)

Module JsFacts.

Import Js.
Local Open Scope Q_scope.

Lemma ltb_lt (a b : Q) : ltb a b = true <-> a < b.
Proof.
  unfold ltb. rewrite negb_true_iff. split.
  - intros H. apply Qnot_le_lt. intros Hle.
    apply Qle_bool_iff in Hle. congruence.
  - intros H. destruct (Qle_bool b a) eqn:E; [|reflexivity].
    apply Qle_bool_iff in E. apply Qle_not_lt in E. contradiction.
Qed.

Lemma ltb_ge (a b : Q) : ltb a b = false <-> b <= a.
Proof.
  unfold ltb. rewrite negb_false_iff. apply Qle_bool_iff.
Qed.

Lemma gtb_gt (a b : Q) : gtb a b = true <-> b < a.
Proof. apply ltb_lt. Qed.

Lemma gtb_le (a b : Q) : gtb a b = false <-> a <= b.
Proof. apply ltb_ge. Qed.

Lemma leb_le (a b : Q) : leb a b = true <-> a <= b.
Proof. apply Qle_bool_iff. Qed.

Lemma leb_gt (a b : Q) : leb a b = false <-> b < a.
Proof.
  unfold leb. split.
  - intros H. apply Qnot_le_lt. intros Hle.
    apply Qle_bool_iff in Hle. congruence.
  - intros H. destruct (Qle_bool a b) eqn:E; [|reflexivity].
    apply Qle_bool_iff in E. apply Qle_not_lt in E. contradiction.
Qed.

#[export] Instance ltb_comp : Proper (Qeq ==> Qeq ==> eq) ltb.
Proof. intros a b Hab c d Hcd. unfold ltb. now rewrite Hab, Hcd. Qed.

#[export] Instance gtb_comp : Proper (Qeq ==> Qeq ==> eq) gtb.
Proof. intros a b Hab c d Hcd. unfold gtb. now rewrite Hab, Hcd. Qed.

#[export] Instance Math_round_comp : Proper (Qeq ==> Qeq) Math_round.
Proof. intros a b Hab. unfold Math_round. now rewrite Hab. Qed.

#[export] Instance round2_comp : Proper (Qeq ==> Qeq) round2.
Proof. intros a b Hab. unfold round2. now rewrite Hab. Qed.

Lemma or_else_zero (v : option Q) (d : Q) :
  d == 0 -> or_else v d == match v with Some q => q | None => 0 end.
Proof.
  intros Hd. destruct v as [q|]; simpl; [|exact Hd].
  destruct (Qeq_bool q 0) eqn:E; [|reflexivity].
  apply Qeq_bool_iff in E. now rewrite Hd, E.
Qed.

(** [Math.round x] is the integer in [(x - 1/2, x + 1/2]]. *)
Lemma Math_round_bounds (x : Q) :
  x - (1 # 2) < Math_round x /\ Math_round x <= x + (1 # 2).
Proof.
  unfold Math_round. split.
  - pose proof (Qlt_floor (x + (1 # 2))) as H.
    rewrite inject_Z_plus in H. change (inject_Z 1) with 1 in H. lra.
  - apply Qfloor_le.
Qed.

Lemma Math_round_integer (x : Q) : exists n : Z, Math_round x = inject_Z n.
Proof. now exists (Qfloor (x + (1 # 2))). Qed.

Lemma Math_round_inject_Z (n : Z) : Math_round (inject_Z n) = inject_Z n.
Proof.
  unfold Math_round. f_equal.
  pose proof (Qfloor_le (inject_Z n + (1 # 2))) as Hle.
  pose proof (Qlt_floor (inject_Z n + (1 # 2))) as Hlt.
  set (m := Qfloor (inject_Z n + (1 # 2))) in *.
  assert (H1 : inject_Z m < inject_Z (n + 1)).
  { rewrite inject_Z_plus. change (inject_Z 1) with 1. lra. }
  assert (H2 : inject_Z n < inject_Z (m + 1)) by lra.
  rewrite <- Zlt_Qlt in H1, H2. lia.
Qed.

(** [round2 x] is [x] to the nearest hundredth. *)
Lemma round2_bounds (x : Q) : Qabs (round2 x - x) <= 1 # 200.
Proof.
  unfold round2. destruct (Math_round_bounds (x * 100)) as [Hlo Hhi].
  apply Qabs_Qle_condition. split.
  - apply Qlt_le_weak.
    assert (H : (x * 100 - (1 # 2)) / 100 < Math_round (x * 100) / 100).
    { apply Qmult_lt_compat_r; [reflexivity | exact Hlo]. }
    assert (E : (x * 100 - (1 # 2)) / 100 == x - (1 # 200)) by field.
    rewrite E in H. lra.
  - assert (H : Math_round (x * 100) / 100 <= (x * 100 + (1 # 2)) / 100).
    { apply Qmult_le_compat_r; [exact Hhi | discriminate]. }
    assert (E : (x * 100 + (1 # 2)) / 100 == x + (1 # 200)) by field.
    rewrite E in H. lra.
Qed.

Lemma round2_hundredths (x : Q) : exists n : Z, round2 x == n # 100.
Proof.
  unfold round2. destruct (Math_round_integer (x * 100)) as [n Hn].
  exists n. rewrite Hn. unfold Qdiv, Qmult, Qinv, inject_Z, Qeq. simpl. lia.
Qed.

End JsFacts.

(** ** The KPI aggregation *)

Module AnalyticsFacts.

Import Js JsFacts Analytics.
Local Open Scope Q_scope.

(** On rows none of which is [null], [reduce] does not throw and is the
    left fold. *)
Lemma reduce_rows (f : AnalyticsRow -> option Q) (rows : list AnalyticsRow) :
  forall (acc : Q) (s : State),
    reduce (add_field f) acc (map Some rows) s
    = (Normal (fold_left (fun sum row => sum + or_else (f row) 0) rows acc), s).
Proof.
  induction rows as [|r rows IH]; intros acc s; simpl.
  - reflexivity.
  - unfold bind, add_field, prop, ret. apply IH.
Qed.

Lemma index_rows (rows : list AnalyticsRow) (i : nat) :
  index (map Some rows) i = nth_error rows i.
Proof.
  unfold index. rewrite nth_error_map. now destruct (nth_error rows i).
Qed.

Lemma nth_error_in_range (rows : list AnalyticsRow) (i : nat) :
  (i < List.length rows)%nat -> exists r, nth_error rows i = Some r.
Proof.
  intros H. destruct (nth_error rows i) as [r|] eqn:E.
  - now exists r.
  - apply nth_error_None in E. lia.
Qed.

(** [computeKPIs] on rows none of which is [null] assigns [summary]. *)
Lemma computeKPIs_rows (rows : list AnalyticsRow) (s : State) :
  computeKPIs (map Some rows) s
  = (Normal tt,
     {| analytics := analytics s; kpis := summary rows;
        console := console s |}).
Proof.
  unfold computeKPIs.
  unfold bind at 1. rewrite reduce_rows.
  unfold bind at 1. rewrite reduce_rows.
  unfold bind at 1. rewrite reduce_rows.
  rewrite length_map.
  assert (G : forall s0,
             (if (2 <=? List.length rows)%nat
              then
                bind (prop total_visits (index (map Some rows) 0))
                  (fun first =>
                     bind (prop total_visits
                             (index (map Some rows) (List.length rows - 1)))
                       (fun last =>
                          if gtb (or_else first 0) 0
                          then ret (((or_else last 0 - or_else first 0)
                                     / or_else first 0) * 100)
                          else ret 0))
              else ret 0) s0 = (Normal (raw_growth rows), s0)).
  { intros s0. unfold raw_growth, visits_at.
    destruct (2 <=? List.length rows)%nat eqn:E; [|reflexivity].
    apply Nat.leb_le in E.
    destruct (@nth_error_in_range rows 0%nat) as [r0 H0]; [lia|].
    destruct (@nth_error_in_range rows (List.length rows - 1)%nat) as [r1 H1];
      [lia|].
    rewrite !index_rows, H0, H1. unfold bind, prop, ret. simpl.
    now destruct (gtb (or_else (total_visits r0) 0) 0). }
  unfold bind at 1. rewrite G.
  unfold bind at 1. rewrite reduce_rows.
  reflexivity.
Qed.

(** The state after [calculateKPIs] on rows none of which is [null]. *)
Lemma calculateKPIs_rows (rows : list AnalyticsRow) (k : Kpis) :
  after_calculateKPIs (dashboard rows k)
  = {| analytics := map Some rows;
       kpis := match rows with [] => zero_kpis | _ :: _ => summary rows end;
       console := [] |}.
Proof.
  unfold after_calculateKPIs, calculateKPIs, get_analytics.
  unfold bind at 1. cbn [dashboard analytics].
  destruct rows as [|r rows]; [reflexivity|].
  cbn [map List.length Nat.eqb]. unfold try_catch.
  change (Some r :: map Some rows) with (map Some (r :: rows)).
  rewrite computeKPIs_rows. reflexivity.
Qed.

Lemma aggregate_rows (rows : list AnalyticsRow) :
  aggregate rows
  = match rows with [] => zero_kpis | _ :: _ => summary rows end.
Proof. unfold aggregate. now rewrite calculateKPIs_rows. Qed.

(** The summary does not depend on what [state.kpis] held before. *)
Lemma aggregate_any_start (rows : list AnalyticsRow) (k : Kpis) :
  kpis (after_calculateKPIs (dashboard rows k)) = aggregate rows.
Proof. now rewrite aggregate_rows, calculateKPIs_rows. Qed.



(** *** Evaluation of closed numeric goals *)

Ltac q_eq := apply Qeq_bool_iff; vm_compute; reflexivity.
Ltac q_neq :=
  let H := fresh in
  intro H; apply Qeq_bool_iff in H; vm_compute in H; discriminate.
Ltac q_lt := vm_compute; reflexivity.
Ltac q_le := vm_compute; discriminate.

(** *** Failure of the aggregation *)

(** A [null] element makes [reduce] throw, the state untouched. *)
Lemma reduce_null (f : AnalyticsRow -> option Q) (items : list Item) :
  In None items ->
  forall (acc : Q) (s : State),
    exists e, reduce (add_field f) acc items s = (Thrown e, s).
Proof.
  induction items as [|item items IH]; intros Hin acc s.
  - contradiction.
  - cbn [reduce]. destruct item as [r|].
    + destruct Hin as [Hin|Hin]; [discriminate|].
      destruct (IH Hin (acc + or_else (f r) 0) s) as [e He].
      exists e. unfold bind, add_field, prop, ret. exact He.
    + eexists. unfold bind, add_field, prop, throw. reflexivity.
Qed.

(** With a [null] element among the rows the aggregation throws before it
    assigns anything. *)
Lemma computeKPIs_null (s : State) :
  In None (analytics s) ->
  exists e, computeKPIs (analytics s) s = (Thrown e, s).
Proof.
  intros Hin.
  destruct (reduce_null total_visits (analytics s) Hin 0 s) as [e He].
  exists e. unfold computeKPIs. unfold bind at 1. now rewrite He.
Qed.

Lemma null_or_rows (items : list Item) :
  In None items \/ exists rows, items = map Some rows.
Proof.
  induction items as [|[r|] items IH].
  - right. now exists [].
  - destruct IH as [IH|[rows IH]].
    + left. now right.
    + right. exists (r :: rows). now rewrite IH.
  - left. now left.
Qed.

Lemma after_calculateKPIs_cases (s : State) :
  after_calculateKPIs s
  = if (List.length (analytics s) =? 0)%nat
    then snd (set_kpis zero_kpis s)
    else snd (try_catch (computeKPIs (analytics s))
                (fun error =>
                   bind (console_error "Error calculating KPIs:")
                     (fun _ => set_kpis zero_kpis)) s).
Proof.
  unfold after_calculateKPIs, calculateKPIs, get_analytics, bind at 1.
  now destruct (List.length (analytics s) =? 0)%nat.
Qed.

(** With a [null] element among the rows [calculateKPIs] leaves the
    all-zero summary. *)
Lemma calculateKPIs_null (s : State) :
  In None (analytics s) ->
  kpis (after_calculateKPIs s) = zero_kpis /\
  analytics (after_calculateKPIs s) = analytics s.
Proof.
  intros Hnull. destruct (computeKPIs_null s Hnull) as [e He].
  rewrite after_calculateKPIs_cases.
  destruct (List.length (analytics s) =? 0)%nat; [now split|].
  unfold try_catch. rewrite He. now split.
Qed.

(** C4.  If the computation of [calculateKPIs] throws, the summary it
    leaves is exactly the all-zero summary: no summary with some fields
    computed and others not is left behind; the rows are as they were. *)
Theorem failing_aggregation_leaves_zero_summary
  (s s1 : State) (e : Exn) :
  computeKPIs (analytics s) s = (Thrown e, s1) ->
  kpis (after_calculateKPIs s) = zero_kpis /\
  analytics (after_calculateKPIs s) = analytics s.
Proof.
  intros Hthrow.
  destruct (null_or_rows (analytics s)) as [Hnull|[rows Hrows]].
  - now apply calculateKPIs_null.
  - rewrite Hrows, computeKPIs_rows in Hthrow. discriminate.
Qed.

(** The theorem on a dashboard whose second element is [null]: the
    summary of the earlier load is replaced by the all-zero one. *)
Lemma failing_aggregation_leaves_zero_summary_witness :
  kpis (after_calculateKPIs with_null_row) = zero_kpis /\
  kpis with_null_row <> zero_kpis.
Proof.
  split.
  - refine (proj1 (failing_aggregation_leaves_zero_summary
                     with_null_row with_null_row
                     (TypeError "Cannot read properties of null") _)).
    reflexivity.
  - discriminate.
Defined.

(** Whatever the rows, [calculateKPIs] leaves either the all-zero summary
    or the summary of all the rows. *)
Lemma calculateKPIs_all_or_nothing (s : State) :
  kpis (after_calculateKPIs s) = zero_kpis \/
  exists rows, analytics s = map Some rows /\
               kpis (after_calculateKPIs s) = summary rows.
Proof.
  destruct (null_or_rows (analytics s)) as [Hnull|[rows Hrows]].
  - left. now apply calculateKPIs_null.
  - rewrite after_calculateKPIs_cases.
    destruct (List.length (analytics s) =? 0)%nat; [now left|].
    right. exists rows. split; [exact Hrows|].
    unfold try_catch. rewrite Hrows, computeKPIs_rows. reflexivity.
Qed.

End AnalyticsFacts.

(** ** The tracking filter *)

Module GpsFacts.

Import Js JsFacts GpsMaps.
Local Open Scope Q_scope.

Lemma zero_le_1000 (a : Q) : Qeq_bool a 0 = true -> Qle_bool a 1000 = true.
Proof.
  intros H. apply Qeq_bool_iff in H. apply Qle_bool_iff. rewrite H.
  discriminate.
Qed.

(** What the callback of the filter accepts: the usable points that have
    neither coordinate equal to 0. *)
Lemma valid_point_spec (p : TrackingPoint) :
  valid_point p = usable p && off_axes p.
Proof.
  unfold valid_point, usable, off_axes, in_range, accuracy_ok, truthy,
    prop_ltb, prop_gtb, gtb, ltb.
  destruct (latitude p) as [la|], (longitude p) as [lo|]; cbn [negb orb andb];
    try reflexivity.
  - destruct (Qeq_bool la 0), (Qeq_bool lo 0); cbn [negb orb andb];
      rewrite ?andb_false_r; try reflexivity.
    destruct (Qle_bool (-90) la), (Qle_bool la 90), (Qle_bool (-180) lo),
      (Qle_bool lo 180); cbn [negb orb andb]; try reflexivity.
    destruct (accuracy p) as [a|]; [|reflexivity].
    destruct (Qeq_bool a 0) eqn:Ea; cbn [negb andb].
    + now rewrite (zero_le_1000 a Ea).
    + now destruct (Qle_bool a 1000).
  - destruct (Qeq_bool la 0); cbn [negb orb andb];
      now rewrite ?andb_false_r.
Qed.

Lemma validateTrackingData_spec (data : list TrackingPoint) :
  validateTrackingData data = filter (fun p => usable p && off_axes p) data.
Proof.
  unfold validateTrackingData. apply filter_ext. intros p.
  apply valid_point_spec.
Qed.

(** Away from the equator and the prime meridian the filter keeps exactly
    the usable points, in their order. *)
Lemma validateTrackingData_off_axes (data : list TrackingPoint) :
  (forall p, In p data -> off_axes p = true) ->
  validateTrackingData data = filter usable data.
Proof.
  intros H. unfold validateTrackingData. apply filter_ext_in. intros p Hp.
  rewrite valid_point_spec, (H p Hp). apply andb_true_r.
Qed.

(** The filter keeps the order of the points: it works through a
    sequence piece by piece, and what it returns is taken from its
    input. *)
Lemma validateTrackingData_order (data1 data2 : list TrackingPoint) :
  validateTrackingData (data1 ++ data2)
  = validateTrackingData data1 ++ validateTrackingData data2.
Proof. apply filter_app. Qed.

Lemma validateTrackingData_from_input (data : list TrackingPoint)
  (p : TrackingPoint) :
  In p (validateTrackingData data) <-> In p data /\ valid_point p = true.
Proof. apply filter_In. Qed.

(** The three examples of the specification. *)
Example validateTrackingData_examples :
  validateTrackingData [latitude_95; good_fix; accuracy_1500; good_fix]
  = [good_fix; good_fix].
Proof. reflexivity. Qed.

(** C5 on a point of the equator: latitude 0 and longitude 46.6753 are
    present and in range and the accuracy 50 is within the threshold, so
    the claim retains the point; [validateTrackingData] discards it, and
    likewise a point of the prime meridian. *)
Theorem zero_coordinate_discarded :
  usable on_equator = true /\
  validateTrackingData [on_equator] = [] /\
  usable on_prime_meridian = true /\
  validateTrackingData [good_fix; on_prime_meridian; good_fix]
  = [good_fix; good_fix].
Proof. repeat split. Qed.

End GpsFacts.

(** ** Progress and time status of a visit *)

Module TrackerFacts.

Import Js JsFacts Tracker.
Local Open Scope Q_scope.
Local Open Scope string_scope.

Lemma Math_min_spec (a b : Q) : Math_min a b == Qmin a b.
Proof.
  unfold Math_min. destruct (Qle_bool a b) eqn:E.
  - apply Qle_bool_iff in E. symmetry. now apply Q.min_l.
  - apply leb_gt in E. symmetry. apply Q.min_r. now apply Qlt_le_weak.
Qed.

Lemma Math_min_le_r (a b : Q) : Math_min a b <= b.
Proof. rewrite Math_min_spec. apply Q.le_min_r. Qed.




(** A visit with no planned time has the status ["unknown"], and a visit
    that is neither completed with a start time nor planned keeps its
    state as status. *)
Lemma time_status_other (now : Z) (visit : Visit) :
  (planned_time visit = None -> getVisitTimeStatus now visit = "unknown") /\
  (forall t, planned_time visit = Some t ->
             state visit <> "completed" -> state visit <> "planned" ->
             getVisitTimeStatus now visit = state visit).
Proof.
  unfold getVisitTimeStatus. split.
  - now intros ->.
  - intros t -> Hc Hp. apply String.eqb_neq in Hc, Hp. now rewrite Hc, Hp.
Qed.

End TrackerFacts.

(** ** Notifications: the unread counter and the reconnection *)

Module NotificationFacts.

Import Notifications.
Local Open Scope list_scope.

(** *** The unread counter *)

Lemma updateUnreadCount_correct (c : Component) :
  unread_count_correct (updateUnreadCount c).
Proof. reflexivity. Qed.

Lemma attemptReconnection_list (c : Component) :
  notifications (attemptReconnection c) = notifications c /\
  unreadCount (attemptReconnection c) = unreadCount c.
Proof.
  unfold attemptReconnection.
  now destruct (maxReconnectAttempts <=? reconnectAttempts c)%nat.
Qed.

Lemma handleError_list (network : bool) (c : Component) :
  notifications (handleError network c) = notifications c /\
  unreadCount (handleError network c) = unreadCount c.
Proof.
  unfold handleError. destruct network; [|now split].
  now rewrite (proj1 (attemptReconnection_list _)),
    (proj2 (attemptReconnection_list _)).
Qed.

Lemma loadNotifications_keeps (now : Z) (reply : Reply (list NotificationData))
  (c : Component) :
  unread_count_correct c ->
  unread_count_correct (loadNotifications now reply c).
Proof.
  intros H. unfold loadNotifications, unread_count_correct.
  destruct reply as [records|network]; [reflexivity|].
  cbn [set_isLoading notifications unreadCount].
  destruct (handleError_list network (set_isLoading true c)) as [-> ->].
  exact H.
Qed.

Lemma addNewNotification_correct (d : NotificationData) (c : Component) :
  unread_count_correct (addNewNotification d c).
Proof.
  unfold addNewNotification.
  now destruct (autoMarkRead _).
Qed.

Lemma markAsRead_keeps (i : Id) (reply : Reply unit) (c : Component) :
  unread_count_correct c -> unread_count_correct (markAsRead i reply c).
Proof. intros H. now destruct reply. Qed.

Lemma markAllAsRead_resume_keeps (ids : list Id) (reply : Reply unit)
  (c : Component) :
  unread_count_correct c ->
  unread_count_correct (markAllAsRead_resume ids reply c).
Proof.
  intros H. unfold markAllAsRead_resume.
  destruct (0 <? List.length ids)%nat; [|exact H]. now destruct reply.
Qed.

Lemma markNotificationRead_keeps (i : Id) (c : Component) :
  unread_count_correct c -> unread_count_correct (markNotificationRead i c).
Proof.
  intros H. unfold markNotificationRead.
  destruct (find_by_id i (notifications c)) as [n|]; [|exact H].
  now destruct (not_read n).
Qed.

(** Every operation keeps the counter equal to the number of unread
    notifications. *)
Lemma perform_keeps (op : Operation) (c : Component) :
  unread_count_correct c -> unread_count_correct (perform op c).
Proof.
  destruct op; cbn [perform].
  - apply loadNotifications_keeps.
  - intros _. apply addNewNotification_correct.
  - apply markAsRead_keeps.
  - apply markAllAsRead_resume_keeps.
  - apply markAllAsRead_resume_keeps.
  - apply markNotificationRead_keeps.
Qed.

Lemma after_keeps (history : list Operation) :
  forall c, unread_count_correct c -> unread_count_correct (after history c).
Proof.
  induction history as [|op history IH]; intros c H.
  - exact H.
  - cbn [after fold_left]. apply IH. now apply perform_keeps.
Qed.

(** A notification counts as unread exactly when its flag is not [true];
    when the flag is present, exactly when it is [false]. *)
Lemma not_read_flag (n : Notification) (b : bool) :
  is_read n = Some b -> (not_read n = true <-> b = false).
Proof.
  unfold not_read. intros ->. destruct b; split; congruence.
Qed.

(** C10.  Started from a component whose [unreadCount] is the number of
    notifications not read - such as the component [setup] leaves - after
    any history of [loadNotifications], [addNewNotification],
    [markAsRead], [markAllAsRead] and [markNotificationRead], whatever
    the server answers, each of these operations leaves [unreadCount]
    equal to the number of notifications in the list whose [is_read] flag
    is not set. *)
Theorem unread_count_invariant
  (c : Component) (history : list Operation) (op : Operation) :
  unread_count_correct c ->
  unreadCount (perform op (after history c))
  = List.length
      (filter (fun n => match is_read n with Some true => false | _ => true end)
         (notifications (perform op (after history c)))).
Proof.
  intros H. apply (perform_keeps op). now apply after_keeps.
Qed.

(** The theorem on a fresh component: two unread notifications arrive,
    a write to the server fails, and one of the two is then marked as
    read. *)
Lemma unread_count_invariant_witness :
  unread_count_correct setup /\
  unreadCount
    (perform (MarkNotificationRead (IdNumber 7))
       (after [AddNewNotification unread_from_bus;
               AddNewNotification unread_from_bus;
               MarkAsRead (IdNumber 7) (Rejected false)] setup))
  = 1%nat.
Proof.
  split; [reflexivity|].
  rewrite (unread_count_invariant setup
             [AddNewNotification unread_from_bus;
              AddNewNotification unread_from_bus;
              MarkAsRead (IdNumber 7) (Rejected false)]
             (MarkNotificationRead (IdNumber 7)) eq_refl).
  reflexivity.
Defined.

(** *** Reconnection *)

Lemma attemptReconnection_below (c : Component) :
  (reconnectAttempts c < maxReconnectAttempts)%nat ->
  attemptReconnection c
  = setTimeout ReconnectCallback (backoff_delay (S (reconnectAttempts c)))
      (set_reconnectAttempts (S (reconnectAttempts c)) c).
Proof.
  intros H. unfold attemptReconnection.
  apply Nat.leb_gt in H. now rewrite H.
Qed.

Lemma attemptReconnection_exhausted (c : Component) :
  (maxReconnectAttempts <= reconnectAttempts c)%nat ->
  attemptReconnection c = set_connectionStatus "error"%string c.
Proof.
  intros H. unfold attemptReconnection.
  apply Nat.leb_le in H. now rewrite H.
Qed.

Lemma reconnect_delays_setTimeout (d : Z) (c : Component) :
  reconnect_delays (setTimeout ReconnectCallback d c)
  = reconnect_delays c ++ [d].
Proof. reflexivity. Qed.

(** One more call of [attemptReconnection], between calls that touch
    neither the counter nor the timers. *)
Lemma attemptReconnection_step (c : Component) (k : nat) (ds : list Z) :
  reconnectAttempts c = Nat.min k maxReconnectAttempts ->
  reconnect_delays c = ds ++ map backoff_delay (seq 1 (Nat.min k maxReconnectAttempts)) ->
  reconnectAttempts (attemptReconnection c)
  = Nat.min (S k) maxReconnectAttempts /\
  reconnect_delays (attemptReconnection c)
  = ds ++ map backoff_delay (seq 1 (Nat.min (S k) maxReconnectAttempts)).
Proof.
  intros Ha Hd.
  destruct (Nat.lt_ge_cases k maxReconnectAttempts) as [Hk|Hk].
  - rewrite attemptReconnection_below by lia.
    rewrite reconnect_delays_setTimeout.
    cbn [setTimeout set_reconnectAttempts reconnectAttempts].
    replace (reconnect_delays (set_reconnectAttempts (S (reconnectAttempts c)) c))
      with (reconnect_delays c) by reflexivity.
    rewrite Hd, Ha.
    rewrite (Nat.min_l k) by lia. rewrite (Nat.min_l (S k)) by exact Hk.
    split; [reflexivity|].
    rewrite seq_S, map_app, <- app_assoc. reflexivity.
  - rewrite attemptReconnection_exhausted by lia.
    replace (reconnect_delays (set_connectionStatus "error"%string c))
      with (reconnect_delays c) by reflexivity.
    cbn [set_connectionStatus reconnectAttempts].
    rewrite Hd, Ha.
    rewrite (Nat.min_r k) by lia. rewrite (Nat.min_r (S k)) by lia.
    now split.
Qed.

Lemma failed_reconnections_state (c : Component) (n : nat) :
  reconnectAttempts c = 0%nat ->
  reconnectAttempts (failed_reconnections n c)
  = Nat.min (S n) maxReconnectAttempts /\
  reconnect_delays (failed_reconnections n c)
  = reconnect_delays c
    ++ map backoff_delay (seq 1 (Nat.min (S n) maxReconnectAttempts)).
Proof.
  intros H0. induction n as [|n [IHa IHd]].
  - cbn [failed_reconnections]. unfold on_disconnect.
    apply (attemptReconnection_step _ 0).
    + exact H0.
    + cbn. now rewrite app_nil_r.
  - cbn [failed_reconnections]. unfold reconnect_callback.
    apply (attemptReconnection_step _ (S n)).
    + exact IHa.
    + exact IHd.
Qed.

(** After the fifth timer has fired in vain the status is ["error"] and
    no timer is set any more. *)
Lemma failed_reconnections_exhausted (c : Component) (n : nat) :
  reconnectAttempts c = 0%nat ->
  (maxReconnectAttempts <= n)%nat ->
  connectionStatus (failed_reconnections n c) = "error"%string /\
  timeouts (failed_reconnections n c)
  = timeouts (failed_reconnections (maxReconnectAttempts - 1) c).
Proof.
  intros H0 Hn. induction n as [|n IH]; [unfold maxReconnectAttempts in Hn; lia|].
  cbn [failed_reconnections]. unfold reconnect_callback.
  destruct (failed_reconnections_state c n H0) as [Ha _].
  rewrite attemptReconnection_exhausted.
  2:{ cbn [connectToBus set_connectionStatus reconnectAttempts].
      rewrite Ha. unfold maxReconnectAttempts in *. lia. }
  split; [reflexivity|].
  cbn [connectToBus set_connectionStatus timeouts].
  destruct (Nat.eq_dec n (maxReconnectAttempts - 1)) as [->|Hne].
  - reflexivity.
  - apply IH. unfold maxReconnectAttempts in *. lia.
Qed.

(** A successful connection resets the counter, so that the next drop
    starts from 0 again. *)
Lemma on_connect_resets (c : Component) :
  reconnectAttempts (on_connect c) = 0%nat.
Proof. reflexivity. Qed.

(** C9, as the claim states it, fails: the first delay is 2000 ms, not
    1000 ms, and the five delays are not those of the claim. *)
Lemma first_delay_is_doubled :
  reconnect_delays (failed_reconnections 0 setup) = [2000%Z] /\
  doubling_from_base 1 = 1000%Z /\
  reconnect_delays (failed_reconnections 4 setup)
  <> map doubling_from_base (seq 1 maxReconnectAttempts).
Proof.
  split; [reflexivity|]. split; [reflexivity|]. vm_compute. discriminate.
Qed.

(** C9, amended.  When the connection drops and the reconnections keep
    failing, at most 5 reconnections are scheduled; the delay of the
    [k]-th is [min(1000 * 2^k, 30000)] ms for [k] = 1..5, that is 2000,
    4000, 8000, 16000 and 30000 ms; after the fifth has failed no further
    attempt is scheduled and the connection status is ["error"], and
    stays so while the failures go on. *)
Theorem reconnection_backoff (c : Component) :
  reconnectAttempts c = 0%nat ->
  (forall n,
     reconnect_delays (failed_reconnections n c)
     = reconnect_delays c
       ++ map backoff_delay (seq 1 (Nat.min (S n) maxReconnectAttempts))) /\
  map backoff_delay (seq 1 maxReconnectAttempts)
  = [2000; 4000; 8000; 16000; 30000]%Z /\
  (forall n,
     (maxReconnectAttempts <= n)%nat ->
     connectionStatus (failed_reconnections n c) = "error"%string /\
     timeouts (failed_reconnections n c)
     = timeouts (failed_reconnections (maxReconnectAttempts - 1) c)).
Proof.
  intros H0. split; [|split].
  - intros n. now apply failed_reconnections_state.
  - reflexivity.
  - intros n Hn. now apply failed_reconnections_exhausted.
Qed.

(** The theorem on a fresh component, after the drop and nine failed
    reconnections. *)
Lemma reconnection_backoff_witness :
  reconnectAttempts setup = 0%nat /\
  reconnect_delays (failed_reconnections 9 setup)
  = [2000; 4000; 8000; 16000; 30000]%Z /\
  connectionStatus (failed_reconnections 9 setup) = "error"%string.
Proof.
  destruct (reconnection_backoff setup eq_refl) as (Hd & _ & He).
  split; [reflexivity|]. split.
  - rewrite Hd. reflexivity.
  - apply He. unfold maxReconnectAttempts. lia.
Defined.

End NotificationFacts.

(** ** Distance and travel time *)

Module GeoFacts.

Import Geo.
Local Open Scope R_scope.

Lemma truthy_nonzero (x : R) : x <> 0 -> truthy (Some x) = true.
Proof. intros H. unfold truthy. now destruct (Req_dec_T x 0). Qed.

Lemma truthy_zero : truthy (Some 0) = false.
Proof. unfold truthy. now destruct (Req_dec_T 0 0). Qed.

Lemma Math_atan2_right (y x : R) : 0 < x -> Math_atan2 y x = atan (y / x).
Proof. intros H. unfold Math_atan2. now destruct (Rlt_dec 0 x). Qed.

Lemma Math_atan2_up (y : R) : 0 < y -> Math_atan2 y 0 = PI / 2.
Proof.
  intros H. unfold Math_atan2.
  destruct (Rlt_dec 0 0) as [F|_]; [lra|].
  destruct (Rlt_dec 0 0) as [F|_]; [lra|].
  now destruct (Rlt_dec 0 y).
Qed.

(** The guard passed, the distance is the radius times the angle. *)
Lemma calculateDistance_present (la lo lb lo' : R) :
  la <> 0 -> lb <> 0 ->
  calculateDistance (at_point la lo) (visit_at lb lo')
  = Some (earth_radius_km
          * (2 * Math_atan2 (sqrt (central_hav la lo lb lo'))
                   (sqrt (1 - central_hav la lo lb lo')))).
Proof.
  intros Ha Hb. unfold calculateDistance.
  cbn [at_point visit_at latitude longitude location_lat location_lng
       to_number].
  rewrite (truthy_nonzero la Ha), (truthy_nonzero lb Hb). cbn [negb orb].
  assert (E : sin (toRadians (lb - la) / 2) * sin (toRadians (lb - la) / 2)
              + cos (toRadians la) * cos (toRadians lb)
                * sin (toRadians (lo' - lo) / 2)
                * sin (toRadians (lo' - lo) / 2)
              = central_hav la lo lb lo').
  { unfold central_hav, hav, Rsqr.
    replace (toRadians lb - toRadians la) with (toRadians (lb - la))
      by (unfold toRadians; ring).
    replace (toRadians lo' - toRadians lo) with (toRadians (lo' - lo))
      by (unfold toRadians; ring).
    ring. }
  now rewrite E.
Qed.

Lemma hav_half (theta : R) : hav theta = (1 - cos theta) / 2.
Proof.
  unfold hav, Rsqr.
  replace (cos theta) with (cos (2 * (theta / 2))) by (f_equal; field).
  rewrite cos_2a_sin. field.
Qed.

(** The haversine of a central angle lies between 0 and 1. *)
Lemma central_hav_range (la lo lb lo' : R) :
  0 <= central_hav la lo lb lo' <= 1.
Proof.
  unfold central_hav. rewrite !hav_half, cos_minus.
  set (w := cos (toRadians lo' - toRadians lo)).
  pose proof (COS_bound (toRadians lo' - toRadians lo)) as Hw. fold w in Hw.
  pose proof (sin2_cos2 (toRadians la)) as H1.
  pose proof (sin2_cos2 (toRadians lb)) as H2.
  unfold Rsqr in H1, H2.
  set (sx := sin (toRadians la)) in *. set (cx := cos (toRadians la)) in *.
  set (sy := sin (toRadians lb)) in *. set (cy := cos (toRadians lb)) in *.
  clearbody w sx cx sy cy.
  assert (P1 : 0 <= (1 - w) * ((cx + cy) * (cx + cy))).
  { apply Rmult_le_pos; [lra | apply (Rle_0_sqr (cx + cy))]. }
  assert (P2 : 0 <= (1 + w) * ((cx - cy) * (cx - cy))).
  { apply Rmult_le_pos; [lra | apply (Rle_0_sqr (cx - cy))]. }
  assert (P3 : 0 <= (1 + w) * ((cx + cy) * (cx + cy))).
  { apply Rmult_le_pos; [lra | apply (Rle_0_sqr (cx + cy))]. }
  assert (P4 : 0 <= (1 - w) * ((cx - cy) * (cx - cy))).
  { apply Rmult_le_pos; [lra | apply (Rle_0_sqr (cx - cy))]. }
  assert (P5 : 0 <= (sx - sy) * (sx - sy)) by apply (Rle_0_sqr (sx - sy)).
  assert (P6 : 0 <= (sx + sy) * (sx + sy)) by apply (Rle_0_sqr (sx + sy)).
  split; nra.
Qed.

(** On the haversine of an angle the [atan2] of the code is the arc
    sine of the formula. *)
Lemma atan2_asin (h : R) :
  0 <= h <= 1 -> Math_atan2 (sqrt h) (sqrt (1 - h)) = asin (sqrt h).
Proof.
  intros [H0 H1]. destruct (Req_dec h 1) as [->|Hne].
  - replace (1 - 1) with 0 by ring. rewrite sqrt_0, sqrt_1, asin_1.
    apply Math_atan2_up. lra.
  - assert (Hlt : h < 1) by lra.
    rewrite Math_atan2_right by (apply sqrt_lt_R0; lra).
    assert (Hs : sqrt h < 1).
    { rewrite <- sqrt_1. apply sqrt_lt_1; lra. }
    pose proof (sqrt_pos h) as Hp.
    rewrite asin_atan by lra.
    replace ((sqrt h)²) with h; [reflexivity|].
    unfold Rsqr. now rewrite sqrt_sqrt.
Qed.

(** With both latitudes present and other than 0, [calculateDistance] is
    the haversine distance on a sphere of radius 6371 km. *)
Lemma distance_is_haversine (la lo lb lo' : R) :
  la <> 0 -> lb <> 0 ->
  calculateDistance (at_point la lo) (visit_at lb lo')
  = Some (haversine_distance 6371 la lo lb lo').
Proof.
  intros Ha Hb. rewrite calculateDistance_present by assumption.
  rewrite atan2_asin by apply central_hav_range.
  unfold haversine_distance, earth_radius_km. f_equal. ring.
Qed.

Lemma central_hav_same (la lo : R) : central_hav la lo la lo = 0.
Proof.
  unfold central_hav, hav.
  replace (toRadians la - toRadians la) with 0 by ring.
  replace (toRadians lo - toRadians lo) with 0 by ring.
  replace (0 / 2) with 0 by field. rewrite sin_0. unfold Rsqr. ring.
Qed.

(** The distance from a place to itself is 0. *)
Lemma distance_same_place (la lo : R) :
  la <> 0 -> calculateDistance (at_point la lo) (visit_at la lo) = Some 0.
Proof.
  intros Ha. rewrite distance_is_haversine by assumption.
  unfold haversine_distance. rewrite central_hav_same, sqrt_0, asin_0.
  f_equal. ring.
Qed.

Lemma PI_bounds : 313 / 100 < PI < 315 / 100.
Proof.
  pose proof (PI_2_3_7_ineq 0) as [L _].
  pose proof (PI_2_3_7_ineq 1) as [_ U].
  unfold PI_2_3_7_tg, tg_alt, Ratan_seq in L, U.
  simpl in L, U.
  split; lra.
Qed.

Lemma central_hav_one_degree (la lo : R) :
  central_hav la lo (la + 1) lo = Rsqr (sin (PI / 360)).
Proof.
  unfold central_hav, hav.
  replace (toRadians (la + 1) - toRadians la) with (PI / 180)
    by (unfold toRadians; field).
  replace (toRadians lo - toRadians lo) with 0 by ring.
  replace (0 / 2) with 0 by field.
  replace (PI / 180 / 2) with (PI / 360) by field.
  rewrite sin_0. unfold Rsqr. ring.
Qed.

(** Two places one degree of latitude apart are [6371 * PI / 180] km
    apart, which is within 1 km of 111 km. *)
Lemma distance_one_degree (la lo : R) :
  la <> 0 -> la + 1 <> 0 ->
  exists d,
    calculateDistance (at_point la lo) (visit_at (la + 1) lo) = Some d /\
    d = 6371 * (PI / 180) /\
    Rabs (d - 111) < 1.
Proof.
  intros Ha Hb. exists (6371 * (PI / 180)).
  pose proof PI_bounds as [Plo Phi].
  split; [|split; [reflexivity|]].
  - rewrite calculateDistance_present by assumption.
    rewrite central_hav_one_degree.
    assert (Hu : 0 < PI / 360 < PI / 2) by lra.
    assert (Hs : 0 < sin (PI / 360)) by (apply sin_gt_0; lra).
    assert (Hc : 0 < cos (PI / 360)) by (apply cos_gt_0; lra).
    rewrite sqrt_Rsqr by lra.
    replace (1 - (sin (PI / 360))²) with ((cos (PI / 360))²)
      by (rewrite cos2; reflexivity).
    rewrite sqrt_Rsqr by lra.
    rewrite Math_atan2_right by exact Hc.
    change (sin (PI / 360) / cos (PI / 360)) with (tan (PI / 360)).
    rewrite atan_tan by lra.
    unfold earth_radius_km. f_equal. field.
  - apply Rabs_def1; lra.
Qed.

Lemma Math_round_zero : Math_round 0 = 0.
Proof.
  unfold Math_round. f_equal. symmetry. apply Int_part_spec. simpl. lra.
Qed.

(** With a distance other than 0, the travel time is the distance at
    40 km/h, in minutes, rounded. *)
Lemma travel_time_of_distance (location : Location) (visit : Visit) (d : R) :
  calculateDistance location visit = Some d -> d <> 0 ->
  estimateTravelTime location visit = Some (travel_minutes d 40).
Proof.
  intros Hd Hne. unfold estimateTravelTime. rewrite Hd.
  now rewrite (truthy_nonzero d Hne).
Qed.

(** No location, no distance and no travel time. *)
Lemma no_location_no_distance (lo : option R) (visit : Visit) :
  calculateDistance {| latitude := None; longitude := lo |} visit = None /\
  estimateTravelTime {| latitude := None; longitude := lo |} visit = None.
Proof. split; reflexivity. Qed.

(** On the equator the guard takes the latitude 0 for a missing one. *)
Lemma equator_has_no_distance (lo lb lo' : R) :
  calculateDistance (at_point 0 lo) (visit_at lb lo') = None.
Proof.
  unfold calculateDistance. cbn [at_point latitude]. now rewrite truthy_zero.
Qed.

Lemma example_lat_nonzero : example_lat <> 0.
Proof. unfold example_lat. lra. Qed.

(** The two distances of the specification. *)
Example distance_examples :
  calculateDistance (at_point example_lat example_lon)
    (visit_at example_lat example_lon) = Some 0 /\
  exists d,
    calculateDistance (at_point example_lat example_lon)
      (visit_at (example_lat + 1) example_lon) = Some d /\
    Rabs (d - 111) < 1.
Proof.
  split.
  - apply distance_same_place, example_lat_nonzero.
  - destruct (distance_one_degree example_lat example_lon) as (d & H1 & _ & H3).
    + apply example_lat_nonzero.
    + unfold example_lat. lra.
    + now exists d.
Qed.

(** C8 at a visit at the current location, (24.7136, 46.6753): the
    distance is 0, as the haversine formula has it, and the travel time
    the claim gives is 0 minutes; [estimateTravelTime] takes the distance
    0 for a missing one and returns [null]. *)
Theorem same_place_has_no_travel_time :
  calculateDistance (at_point example_lat example_lon)
    (visit_at example_lat example_lon) = Some 0 /\
  haversine_distance 6371 example_lat example_lon example_lat example_lon
  = 0 /\
  travel_minutes 0 40 = 0 /\
  estimateTravelTime (at_point example_lat example_lon)
    (visit_at example_lat example_lon) = None.
Proof.
  pose proof (distance_same_place example_lat example_lon
                example_lat_nonzero) as Hd.
  split; [exact Hd|]. split; [|split].
  - unfold haversine_distance. rewrite central_hav_same, sqrt_0, asin_0. ring.
  - unfold travel_minutes. replace (0 / 40 * 60) with 0 by field.
    apply Math_round_zero.
  - unfold estimateTravelTime. rewrite Hd. now rewrite truthy_zero.
Qed.

End GeoFacts.

(** ** Double-precision arithmetic *)

Module DoubleFacts.

Import Double.
Local Open Scope Q_scope.

Lemma two_neq_0 : ~ 2 == 0.
Proof. discriminate. Qed.

Lemma pow2_pos (e : Z) : 0 < 2 ^ e.
Proof. apply Qpower_0_lt. reflexivity. Qed.

Lemma pow2_Z (n : Z) : (0 <= n)%Z -> inject_Z (2 ^ n) == 2 ^ n.
Proof. intros H. apply (Zpower_Qpower 2 n H). Qed.

Lemma pow2_succ (e : Z) : 2 ^ (e + 1) == 2 * 2 ^ e.
Proof. rewrite Qpower_plus by apply two_neq_0. rewrite Qpower_1_r. ring. Qed.

Lemma Qabs_frac (x : Q) :
  Qabs x == inject_Z (Z.abs (Qnum x)) / inject_Z (Z.pos (Qden x)).
Proof.
  destruct x as [n d]. unfold Qabs. cbn [Qnum Qden].
  rewrite (Qmake_Qdiv (Z.abs n) d). reflexivity.
Qed.

Lemma div_le_div (a b c d : Q) :
  0 < b -> 0 < d -> a * d <= c * b -> a / b <= c / d.
Proof.
  intros Hb Hd H. apply Qle_shift_div_r; [exact Hb |].
  setoid_replace (c / d * b) with (c * b / d) by (field; lra).
  apply Qle_shift_div_l; assumption.
Qed.

Lemma div_lt_div (a b c d : Q) :
  0 < b -> 0 < d -> a * d < c * b -> a / b < c / d.
Proof.
  intros Hb Hd H. apply Qlt_shift_div_r; [exact Hb |].
  setoid_replace (c / d * b) with (c * b / d) by (field; lra).
  apply Qlt_shift_div_l; assumption.
Qed.

(** The quotient of two positive integers lies between the powers of 2
    that their binary lengths give. *)
Lemma log2_quotient (n d : Z) :
  (0 < n)%Z -> (0 < d)%Z ->
  2 ^ (Z.log2 n - Z.log2 d - 1) <= inject_Z n / inject_Z d
  /\ inject_Z n / inject_Z d < 2 ^ (Z.log2 n - Z.log2 d + 1).
Proof.
  intros Hn Hd.
  destruct (Z.log2_spec n Hn) as [Hn1 Hn2].
  destruct (Z.log2_spec d Hd) as [Hd1 Hd2].
  pose proof (Z.log2_nonneg n) as Ha. pose proof (Z.log2_nonneg d) as Hb.
  assert (Qd : 0 < inject_Z d).
  { change 0 with (inject_Z 0). rewrite <- Zlt_Qlt. exact Hd. }
  assert (Qn : 0 < inject_Z n).
  { change 0 with (inject_Z 0). rewrite <- Zlt_Qlt. exact Hn. }
  assert (Qn1 : 2 ^ Z.log2 n <= inject_Z n).
  { rewrite <- pow2_Z by exact Ha. rewrite <- Zle_Qle. exact Hn1. }
  assert (Qn2 : inject_Z n < 2 * 2 ^ Z.log2 n).
  { rewrite <- pow2_succ. rewrite <- pow2_Z by lia. rewrite <- Zlt_Qlt.
    exact Hn2. }
  assert (Qd1 : 2 ^ Z.log2 d <= inject_Z d).
  { rewrite <- pow2_Z by exact Hb. rewrite <- Zle_Qle. exact Hd1. }
  assert (Qd2 : inject_Z d < 2 * 2 ^ Z.log2 d).
  { rewrite <- pow2_succ. rewrite <- pow2_Z by lia. rewrite <- Zlt_Qlt.
    exact Hd2. }
  pose proof (pow2_pos (Z.log2 n)) as Pa.
  pose proof (pow2_pos (Z.log2 d)) as Pb.
  replace (Z.log2 n - Z.log2 d - 1)%Z with (Z.log2 n - (Z.log2 d + 1))%Z
    by lia.
  replace (Z.log2 n - Z.log2 d + 1)%Z with (Z.log2 n + 1 - Z.log2 d)%Z
    by lia.
  rewrite !Qpower_minus by apply two_neq_0.
  rewrite !pow2_succ.
  set (A := 2 ^ Z.log2 n) in *. set (B := 2 ^ Z.log2 d) in *.
  set (N := inject_Z n) in *. set (D := inject_Z d) in *.
  clearbody A B N D. split.
  - apply div_le_div; [lra | lra | nra].
  - apply div_lt_div; [lra | lra | nra].
Qed.

(** [exponent] is the exponent of the binary notation. *)
Lemma exponent_spec (x : Q) :
  ~ x == 0 -> 2 ^ exponent x <= Qabs x /\ Qabs x < 2 * 2 ^ exponent x.
Proof.
  intros Hx.
  assert (Hn : (0 < Z.abs (Qnum x))%Z).
  { destruct x as [n d]. unfold Qeq in Hx. cbn in *. lia. }
  destruct (log2_quotient (Z.abs (Qnum x)) (Z.pos (Qden x)) Hn eq_refl)
    as [Hlo Hhi].
  rewrite <- Qabs_frac in Hlo, Hhi.
  unfold exponent.
  set (e := (Z.log2 (Z.abs (Qnum x)) - Z.log2 (Z.pos (Qden x)))%Z) in *.
  destruct (Qle_bool (2 ^ e) (Qabs x)) eqn:E.
  - apply Qle_bool_iff in E. split; [exact E |].
    rewrite <- pow2_succ. exact Hhi.
  - split; [exact Hlo |].
    assert (H : ~ 2 ^ e <= Qabs x).
    { intros H. apply Qle_bool_iff in H. congruence. }
    apply Qnot_le_lt in H.
    rewrite <- pow2_succ. replace (e - 1 + 1)%Z with e by lia. exact H.
Qed.

Lemma exponent_unique (x : Q) (e : Z) :
  2 ^ e <= Qabs x -> Qabs x < 2 * 2 ^ e -> ~ x == 0 -> exponent x = e.
Proof.
  intros H1 H2 Hx. destruct (exponent_spec x Hx) as [H3 H4].
  rewrite <- pow2_succ in H2, H4.
  assert (A : 2 ^ e < 2 ^ (exponent x + 1))
    by (eapply Qle_lt_trans; eassumption).
  assert (B : 2 ^ exponent x < 2 ^ (e + 1))
    by (eapply Qle_lt_trans; eassumption).
  apply Qpower_lt_compat_l_inv in A; [| reflexivity].
  apply Qpower_lt_compat_l_inv in B; [| reflexivity].
  lia.
Qed.

Lemma exponent_comp (x y : Q) :
  x == y -> ~ x == 0 -> exponent x = exponent y.
Proof.
  intros E H0. symmetry. destruct (exponent_spec x H0) as [H1 H2].
  apply exponent_unique.
  - rewrite <- E. exact H1.
  - rewrite <- E. exact H2.
  - rewrite <- E. exact H0.
Qed.

Lemma round_half_even_comp (x y : Q) :
  x == y -> round_half_even x = round_half_even y.
Proof.
  intros E. unfold round_half_even.
  rewrite (Qfloor_comp x y E).
  assert (C : Qcompare (x - inject_Z (Qfloor y)) (1 # 2)
              = Qcompare (y - inject_Z (Qfloor y)) (1 # 2)).
  { apply Qcompare_comp; [rewrite E; reflexivity | reflexivity]. }
  rewrite C. reflexivity.
Qed.

#[global] Instance round_half_even_proper :
  Proper (Qeq ==> eq) round_half_even.
Proof. intros x y E. apply round_half_even_comp. exact E. Qed.

#[global] Instance inject_Z_proper : Proper (eq ==> Qeq) inject_Z.
Proof. intros x y ->. reflexivity. Qed.

(** Equal numbers have the same nearest double. *)
#[global] Instance binary64_comp : Proper (Qeq ==> Qeq) binary64.
Proof.
  intros x y E. unfold binary64.
  destruct (Qeq_bool x 0) eqn:Hx.
  - apply Qeq_bool_iff in Hx.
    assert (Hy : Qeq_bool y 0 = true).
    { apply Qeq_bool_iff. rewrite <- E. exact Hx. }
    rewrite Hy. reflexivity.
  - assert (H0 : ~ x == 0).
    { intros H. apply Qeq_bool_iff in H. congruence. }
    assert (Hy : Qeq_bool y 0 = false).
    { destruct (Qeq_bool y 0) eqn:Ey; [| reflexivity].
      apply Qeq_bool_iff in Ey. exfalso. apply H0. rewrite E. exact Ey. }
    rewrite Hy. unfold ulp. rewrite <- (exponent_comp x y E H0).
    rewrite (round_half_even_comp (x / 2 ^ (exponent x - 52))
               (y / 2 ^ (exponent x - 52))).
    + reflexivity.
    + apply Qdiv_comp; [exact E | reflexivity].
Qed.

Lemma round_half_even_near (y : Q) :
  Qabs (inject_Z (round_half_even y) - y) <= 1 # 2.
Proof.
  unfold round_half_even.
  pose proof (Qfloor_le y) as H1. pose proof (Qlt_floor y) as H2.
  rewrite inject_Z_plus in H2. change (inject_Z 1) with 1 in H2.
  set (f := Qfloor y) in *.
  assert (Hf : inject_Z (f + 1) == inject_Z f + 1).
  { rewrite inject_Z_plus. reflexivity. }
  set (g := inject_Z (f + 1)) in *. set (h := inject_Z f) in *.
  destruct (Qcompare (y - h) (1 # 2)) eqn:C.
  - apply Qeq_alt in C.
    destruct (Z.even f); fold g; fold h; clearbody g h;
      apply Qabs_Qle_condition; split; lra.
  - apply Qlt_alt in C. fold h. clearbody g h.
    apply Qabs_Qle_condition; split; lra.
  - apply Qgt_alt in C. fold g. clearbody g h.
    apply Qabs_Qle_condition; split; lra.
Qed.

Lemma round_half_even_Z (k : Z) : round_half_even (inject_Z k) = k.
Proof.
  unfold round_half_even. rewrite Qfloor_Z.
  assert (C : Qcompare (inject_Z k - inject_Z k) (1 # 2) = Lt).
  { apply Qlt_alt. setoid_replace (inject_Z k - inject_Z k) with 0 by ring.
    reflexivity. }
  rewrite C. reflexivity.
Qed.

(** The relative error of a rounding is at most [epsilon]. *)
Lemma binary64_error (x : Q) : close epsilon (binary64 x) x.
Proof.
  unfold close, binary64. destruct (Qeq_bool x 0) eqn:Hx.
  - apply Qeq_bool_iff in Hx. rewrite Hx. unfold epsilon. simpl. lra.
  - assert (H0 : ~ x == 0).
    { intros H. apply Qeq_bool_iff in H. congruence. }
    destruct (exponent_spec x H0) as [Hlo _].
    unfold ulp.
    assert (Hu : 2 ^ exponent x == 2 ^ (exponent x - 52) * 2 ^ 52).
    { rewrite <- Qpower_plus by apply two_neq_0.
      replace (exponent x - 52 + 52)%Z with (exponent x) by lia. reflexivity. }
    pose proof (pow2_pos (exponent x - 52)) as Pu.
    set (u := 2 ^ (exponent x - 52)) in *.
    pose proof (round_half_even_near (x / u)) as Hr.
    set (m := inject_Z (round_half_even (x / u))) in *.
    assert (E : m * u - x == (m - x / u) * u) by (field; lra).
    rewrite E, Qabs_Qmult, (Qabs_pos u) by lra.
    rewrite Hu in Hlo. clearbody m u.
    set (a := Qabs x) in *. set (r := Qabs (m - x / u)) in *.
    clearbody a r.
    assert (P : 2 ^ 52 == 4503599627370496) by reflexivity.
    rewrite P in Hlo. unfold epsilon.
    nra.
Qed.

(** A whole number up to [MAX_SAFE_INTEGER] in absolute value is a
    double. *)
Lemma binary64_integer (z : Z) :
  (Z.abs z <= MAX_SAFE_INTEGER)%Z -> binary64 (inject_Z z) == inject_Z z.
Proof.
  intros Hz. unfold binary64.
  destruct (Qeq_bool (inject_Z z) 0) eqn:H0.
  - apply Qeq_bool_iff in H0. symmetry. exact H0.
  - assert (Hx : ~ inject_Z z == 0).
    { intros H. apply Qeq_bool_iff in H. congruence. }
    destruct (exponent_spec (inject_Z z) Hx) as [Hlo _].
    assert (He : (exponent (inject_Z z) < 53)%Z).
    { apply (Qpower_lt_compat_l_inv 2); [| reflexivity].
      eapply Qle_lt_trans; [exact Hlo |].
      change (Qabs (inject_Z z)) with (inject_Z (Z.abs z)).
      rewrite <- (pow2_Z 53) by lia. rewrite <- Zlt_Qlt.
      unfold MAX_SAFE_INTEGER in Hz. change (2 ^ 53)%Z with 9007199254740992%Z.
      lia. }
    unfold ulp. set (e := exponent (inject_Z z)) in *.
    assert (Hu : 2 ^ (e - 52) == / inject_Z (2 ^ (52 - e))).
    { rewrite pow2_Z by lia. rewrite <- Qpower_opp.
      replace (- (52 - e))%Z with (e - 52)%Z by lia. reflexivity. }
    assert (Pp : 0 < inject_Z (2 ^ (52 - e))).
    { rewrite pow2_Z by lia. apply pow2_pos. }
    rewrite Hu.
    rewrite (round_half_even_comp _ (inject_Z (z * 2 ^ (52 - e)))).
    + rewrite round_half_even_Z, inject_Z_mult. field. lra.
    + rewrite inject_Z_mult. field. lra.
Qed.

(** *** Relative errors *)

Lemma close_exact (a : Q) : close 0 a a.
Proof.
  unfold close. setoid_replace (a - a) with 0 by ring. simpl. lra.
Qed.

Lemma close_weaken (eps eps' a b : Q) :
  eps <= eps' -> close eps a b -> close eps' a b.
Proof.
  unfold close. intros H C. pose proof (Qabs_nonneg b).
  set (x := Qabs (a - b)) in *. set (y := Qabs b) in *. clearbody x y. nra.
Qed.

Lemma close_comp (eps a a' b b' : Q) :
  a == a' -> b == b' -> close eps a b -> close eps a' b'.
Proof. unfold close. intros -> ->. trivial. Qed.

Lemma close_mul (eps a b c : Q) : close eps a b -> close eps (a * c) (b * c).
Proof.
  unfold close. intros C.
  setoid_replace (a * c - b * c) with ((a - b) * c) by ring.
  rewrite !Qabs_Qmult. pose proof (Qabs_nonneg c).
  set (x := Qabs (a - b)) in *. set (y := Qabs b) in *.
  set (z := Qabs c) in *. clearbody x y z. nra.
Qed.

Lemma close_div (eps a b c : Q) : close eps a b -> close eps (a / c) (b / c).
Proof. unfold Qdiv. apply close_mul. Qed.

(** A rounding adds [epsilon] to the relative error, and a little. *)
Lemma close_binary64 (eps a b : Q) :
  0 <= eps -> close eps a b ->
  close (eps + epsilon + eps * epsilon) (binary64 a) b.
Proof.
  unfold close. intros He C. pose proof (binary64_error a) as R.
  unfold close in R.
  assert (T1 : Qabs (binary64 a - b)
               <= Qabs (binary64 a - a) + Qabs (a - b)).
  { setoid_replace (binary64 a - b) with ((binary64 a - a) + (a - b))
      by ring.
    apply Qabs_triangle. }
  assert (T2 : Qabs a <= Qabs (a - b) + Qabs b).
  { setoid_replace a with ((a - b) + b) at 1 by ring. apply Qabs_triangle. }
  pose proof (Qabs_nonneg b).
  assert (Hu : 0 <= epsilon) by (unfold epsilon; lra).
  set (x := Qabs (binary64 a - b)) in *. set (y := Qabs (binary64 a - a)) in *.
  set (z := Qabs (a - b)) in *. set (w := Qabs a) in *. set (v := Qabs b) in *.
  set (u := epsilon) in *. clearbody x y z w v u. nra.
Qed.

(** *** The model and the floats of the kernel *)

(** On the operands of the examples below, the operations of the model
    give the numbers that the binary64 floats of the kernel give. *)
Example operations_as_kernel_floats :
  of_float (23 / 160 * 100 * 100)%float == mul (mul (div 23 160) 100) 100
  /\ of_float ((67 - 160) / 160 * 100 * 100)%float
     == mul (mul (div (sub 67 160) 160) 100) 100
  /\ of_float (23 / 40 * 100)%float == mul (div 23 40) 100
  /\ of_float (1 / 3 * 100 * 100)%float == mul (mul (div 1 3) 100) 100
  /\ of_float (1437 / 100)%float == div 1437 100
  /\ of_float (370 / 300 * 100 * 100)%float == mul (mul (div 370 300) 100) 100
  /\ of_float (9007199254740992 + 1)%float == add 9007199254740992 1
  /\ of_float (9007199254740992 + 3)%float == add 9007199254740992 3.
Proof.
  repeat split; apply Qeq_bool_iff; vm_compute; reflexivity.
Qed.

End DoubleFacts.

(** ** The aggregation in double arithmetic *)

Module AnalyticsDoubleFacts.

Import Js JsFacts Analytics AnalyticsFacts Double DoubleFacts AnalyticsDouble.
Local Open Scope Q_scope.

(** On rows none of which is [null], [reduce] does not throw and is the
    left fold. *)
Lemma reduce_rows64 (f : AnalyticsRow -> option Q) (rows : list AnalyticsRow) :
  forall (acc : Q) (s : State),
    reduce (add_field f) acc (map Some rows) s
    = (Normal (fold_left (fun sum row => add sum (or_else (f row) 0)) rows acc),
       s).
Proof.
  induction rows as [| r rows IH]; intros acc s; simpl.
  - reflexivity.
  - unfold bind, add_field, prop, ret. apply IH.
Qed.

(** [computeKPIs] on rows none of which is [null] assigns [summary]. *)
Lemma computeKPIs_rows64 (rows : list AnalyticsRow) (s : State) :
  computeKPIs (map Some rows) s
  = (Normal tt,
     {| analytics := analytics s; kpis := summary rows;
        console := console s |}).
Proof.
  unfold computeKPIs.
  unfold bind at 1. rewrite reduce_rows64.
  unfold bind at 1. rewrite reduce_rows64.
  unfold bind at 1. rewrite reduce_rows64.
  rewrite length_map.
  assert (G : forall s0,
             (if (2 <=? List.length rows)%nat
              then
                bind (prop total_visits (index (map Some rows) 0))
                  (fun first =>
                     bind (prop total_visits
                             (index (map Some rows) (List.length rows - 1)))
                       (fun last =>
                          if gtb (or_else first 0) 0
                          then ret (mul (div (sub (or_else last 0)
                                                (or_else first 0))
                                           (or_else first 0)) 100)
                          else ret 0))
              else ret 0) s0 = (Normal (raw_growth rows), s0)).
  { intros s0. unfold raw_growth, visits_at.
    destruct (2 <=? List.length rows)%nat eqn:E; [| reflexivity].
    apply Nat.leb_le in E.
    destruct (@nth_error_in_range rows 0%nat) as [r0 H0]; [lia |].
    destruct (@nth_error_in_range rows (List.length rows - 1)%nat) as [r1 H1];
      [lia |].
    rewrite !index_rows, H0, H1. unfold bind, prop, ret. simpl.
    now destruct (gtb (or_else (total_visits r0) 0) 0). }
  unfold bind at 1. rewrite G.
  unfold bind at 1. rewrite reduce_rows64.
  reflexivity.
Qed.

(** The summary after [calculateKPIs] on rows none of which is [null],
    whatever the summary before. *)
Lemma calculateKPIs_rows64 (rows : list AnalyticsRow) (k : Kpis) :
  kpis (after_calculateKPIs (dashboard rows k))
  = match rows with [] => zero_kpis | _ :: _ => summary rows end.
Proof.
  unfold after_calculateKPIs, calculateKPIs, get_analytics.
  unfold bind at 1. cbn [dashboard analytics].
  destruct rows as [| r rows]; [reflexivity |].
  cbn [map List.length Nat.eqb]. unfold try_catch.
  change (Some r :: map Some rows) with (map Some (r :: rows)).
  rewrite computeKPIs_rows64. reflexivity.
Qed.

(** *** Sums *)

Lemma fold_field_from (f : AnalyticsRow -> option Q)
  (rows : list AnalyticsRow) :
  forall acc acc' : Q,
    acc == acc' ->
    fold_left (fun sum row => add sum (or_else (f row) 0)) rows acc
    == fold_left (fun sum row => binary64 (sum + absent_as_zero (f row)))
         rows acc'.
Proof.
  induction rows as [| r rows IH]; intros acc acc' E; simpl.
  - exact E.
  - apply IH. unfold add. apply binary64_comp.
    rewrite (or_else_zero (f r) 0) by reflexivity.
    unfold absent_as_zero. rewrite E. reflexivity.
Qed.

Lemma sum64_from (f : AnalyticsRow -> option Q) (rows : list AnalyticsRow) :
  forall acc acc' : Q,
    acc == acc' ->
    fold_left (fun sum row => binary64 (sum + absent_as_zero (f row)))
      rows acc
    == fold_left (fun sum row => binary64 (sum + absent_as_zero (f row)))
         rows acc'.
Proof.
  induction rows as [| r rows IH]; intros acc acc' E; simpl.
  - exact E.
  - apply IH. rewrite E. reflexivity.
Qed.

Lemma fold_field_sum64 (f : AnalyticsRow -> option Q)
  (rows : list AnalyticsRow) :
  AnalyticsDouble.fold_field f rows == sum64 f rows.
Proof. apply fold_field_from. reflexivity. Qed.

Lemma count_whole (v : option Q) :
  count v = true ->
  exists z : Z, (0 <= z)%Z /\ absent_as_zero v == inject_Z z.
Proof.
  destruct v as [q |]; simpl.
  - intros H. apply andb_prop in H. destruct H as [H0 H1].
    apply Qle_bool_iff in H0. apply Qeq_bool_iff in H1.
    exists (Qfloor q). split; [| exact H1].
    rewrite H1 in H0. change 0 with (inject_Z 0) in H0.
    rewrite <- Zle_Qle in H0. exact H0.
  - intros _. exists 0%Z. split; [lia | reflexivity].
Qed.

Lemma sum_of_counts (f : AnalyticsRow -> option Q) (rows : list AnalyticsRow) :
  counts f rows = true ->
  exists z : Z, (0 <= z)%Z /\ sum_of f rows == inject_Z z.
Proof.
  induction rows as [| r rows IH]; simpl.
  - intros _. exists 0%Z. split; [lia | reflexivity].
  - intros H. apply andb_prop in H. destruct H as [Hr Hrows].
    destruct (count_whole _ Hr) as [a [Ha Ea]].
    destruct (IH Hrows) as [b [Hb Eb]].
    exists (a + b)%Z. split; [lia |].
    rewrite Ea, Eb, inject_Z_plus. reflexivity.
Qed.

(** The sum of counts is exact in doubles as long as it is a safe
    integer. *)
Lemma sum64_counts_from (f : AnalyticsRow -> option Q)
  (rows : list AnalyticsRow) :
  forall a : Z,
    (0 <= a)%Z ->
    counts f rows = true ->
    inject_Z a + sum_of f rows <= inject_Z MAX_SAFE_INTEGER ->
    fold_left (fun sum row => binary64 (sum + absent_as_zero (f row)))
      rows (inject_Z a)
    == inject_Z a + sum_of f rows.
Proof.
  induction rows as [| r rows IH]; intros a Ha Hc Hmax; simpl.
  - ring.
  - simpl in Hc, Hmax. apply andb_prop in Hc. destruct Hc as [Hr Hrows].
    destruct (count_whole _ Hr) as [b [Hb Eb]].
    destruct (sum_of_counts f rows Hrows) as [c [Hc Ec]].
    rewrite Eb, Ec in Hmax. rewrite <- !inject_Z_plus in Hmax.
    rewrite <- Zle_Qle in Hmax.
    assert (E : binary64 (inject_Z a + absent_as_zero (f r))
                == inject_Z (a + b)).
    { rewrite Eb, <- inject_Z_plus. apply binary64_integer. lia. }
    rewrite (sum64_from f rows _ _ E).
    rewrite IH; [| lia | exact Hrows |].
    + rewrite Eb, inject_Z_plus. ring.
    + rewrite Ec, <- inject_Z_plus, <- Zle_Qle. lia.
Qed.

Lemma sum64_counts (f : AnalyticsRow -> option Q) (rows : list AnalyticsRow) :
  safe_counts f rows = true -> sum64 f rows == sum_of f rows.
Proof.
  intros H. apply andb_prop in H. destruct H as [Hc Hmax].
  apply Qle_bool_iff in Hmax.
  unfold sum64. change 0 with (inject_Z 0).
  rewrite (sum64_counts_from f rows 0); [| lia | exact Hc |].
  - change (inject_Z 0) with 0. ring.
  - change (inject_Z 0) with 0. rewrite Qplus_0_l. exact Hmax.
Qed.

Lemma sum_of_nonneg (f : AnalyticsRow -> option Q) (rows : list AnalyticsRow) :
  counts f rows = true -> 0 <= sum_of f rows.
Proof.
  intros H. destruct (sum_of_counts f rows H) as [z [Hz E]].
  rewrite E. change 0 with (inject_Z 0). rewrite <- Zle_Qle. exact Hz.
Qed.

(** *** Rounding to hundredths *)

Lemma stored_2dp_comp (x x' r r' : Q) :
  x == x' -> r == r' -> stored_2dp x r -> stored_2dp x' r'.
Proof.
  intros Ex Er [n [H1 H2]]. exists n. split.
  - rewrite <- Er. exact H1.
  - rewrite <- Ex. exact H2.
Qed.

(** [round2] of a number that is [x] up to a relative error stores [x]
    rounded to two decimal places. *)
Lemma round2_stored (eps xh x : Q) :
  0 <= eps -> close eps xh x ->
  eps + epsilon + eps * epsilon <= tolerance ->
  stored_2dp x (round2 xh).
Proof.
  intros He C Htol.
  assert (Cy : close tolerance (mul xh 100) (100 * x)).
  { apply close_weaken with (eps := eps + epsilon + eps * epsilon);
      [exact Htol |].
    apply close_comp with (a := binary64 (xh * 100)) (b := x * 100);
      [reflexivity | ring |].
    apply close_binary64; [exact He |]. apply close_mul. exact C. }
  unfold close in Cy.
  exists (Qfloor (mul xh 100 + (1 # 2))). split; [reflexivity |].
  destruct (Math_round_bounds (mul xh 100)) as [B1 B2].
  unfold Math_round in B1, B2.
  set (n := inject_Z (Qfloor (mul xh 100 + (1 # 2)))) in *.
  set (y := mul xh 100) in *.
  apply Qabs_Qle_condition in Cy. destruct Cy as [C1 C2].
  set (t := tolerance * Qabs (100 * x)) in *.
  clearbody n y t.
  apply Qabs_Qle_condition. split; lra.
Qed.

Lemma round2_0 : round2 0 == 0.
Proof. apply Qeq_bool_iff. vm_compute. reflexivity. Qed.

Lemma tolerance_2 : 0 + epsilon + 0 * epsilon <= tolerance
                    /\ epsilon + epsilon + epsilon * epsilon <= tolerance.
Proof. split; vm_compute; discriminate. Qed.

(** *** The fields of the summary *)


Lemma visits_at_first64 (rows : list AnalyticsRow) :
  AnalyticsDouble.visits_at rows 0 == first_visits rows.
Proof.
  unfold AnalyticsDouble.visits_at, first_visits.
  destruct rows as [| r rows]; simpl.
  - reflexivity.
  - now apply or_else_zero.
Qed.

Lemma visits_at_last64 (rows : list AnalyticsRow) :
  AnalyticsDouble.visits_at rows (List.length rows - 1) == last_visits rows.
Proof.
  unfold AnalyticsDouble.visits_at. induction rows as [| r rows IH].
  - reflexivity.
  - destruct rows as [| r' rows].
    + simpl. now apply or_else_zero.
    + change (last_visits (r :: r' :: rows)) with (last_visits (r' :: rows)).
      rewrite <- IH. simpl. now rewrite Nat.sub_0_r.
Qed.

Lemma growthRate_stored (rows : list AnalyticsRow) :
  (2 <= List.length rows)%nat -> 0 < first_visits rows ->
  stored_2dp
    ((last_visits rows - first_visits rows) / first_visits rows * 100)
    (growthRate (summary rows)).
Proof.
  intros Hlen Hfirst. cbn [summary growthRate].
  unfold AnalyticsDouble.raw_growth.
  apply Nat.leb_le in Hlen. rewrite Hlen.
  assert (G : gtb (AnalyticsDouble.visits_at rows 0) 0 = true).
  { apply gtb_gt. rewrite visits_at_first64. exact Hfirst. }
  rewrite G.
  set (f := AnalyticsDouble.visits_at rows 0).
  set (l := AnalyticsDouble.visits_at rows (List.length rows - 1)).
  apply stored_2dp_comp
    with (x := (l - f) / f * 100)
         (r := round2 (mul (div (sub l f) f) 100)); [| reflexivity |].
  { unfold l, f. rewrite visits_at_first64, visits_at_last64. reflexivity. }
  set (e1 := epsilon).
  set (e2 := e1 + epsilon + e1 * epsilon).
  set (e3 := e2 + epsilon + e2 * epsilon).
  apply round2_stored with (eps := e3).
  - vm_compute. discriminate.
  - unfold mul. apply close_binary64; [vm_compute; discriminate |].
    apply close_mul. unfold div.
    apply close_binary64; [vm_compute; discriminate |].
    apply close_div. unfold sub. apply binary64_error.
  - vm_compute. discriminate.
Qed.

Lemma growthRate_zero (rows : list AnalyticsRow) :
  (List.length rows < 2)%nat \/ first_visits rows <= 0 ->
  growthRate (summary rows) == 0.
Proof.
  intros H. cbn [summary growthRate]. unfold AnalyticsDouble.raw_growth.
  destruct (2 <=? List.length rows)%nat eqn:E.
  - apply Nat.leb_le in E. destruct H as [H | H]; [lia |].
    assert (G : gtb (AnalyticsDouble.visits_at rows 0) 0 = false).
    { apply gtb_le. rewrite visits_at_first64. exact H. }
    rewrite G. apply round2_0.
  - apply round2_0.
Qed.

Lemma targetAchievement_stored (rows : list AnalyticsRow) :
  0 < sum64 target_visits rows ->
  stored_2dp
    (sum64 total_visits rows / sum64 target_visits rows * 100)
    (targetAchievement (summary rows)).
Proof.
  intros Hpos. cbn [summary targetAchievement].
  unfold AnalyticsDouble.raw_target.
  assert (G : gtb (AnalyticsDouble.fold_field target_visits rows) 0 = true).
  { apply gtb_gt. rewrite fold_field_sum64. exact Hpos. }
  rewrite G.
  set (v := AnalyticsDouble.fold_field total_visits rows).
  set (t := AnalyticsDouble.fold_field target_visits rows).
  apply stored_2dp_comp
    with (x := v / t * 100) (r := round2 (mul (div v t) 100));
    [| reflexivity |].
  { unfold v, t. rewrite !fold_field_sum64. reflexivity. }
  set (e1 := epsilon).
  set (e2 := e1 + epsilon + e1 * epsilon).
  apply round2_stored with (eps := e2).
  - vm_compute. discriminate.
  - unfold mul. apply close_binary64; [vm_compute; discriminate |].
    apply close_mul. unfold div. apply binary64_error.
  - vm_compute. discriminate.
Qed.

Lemma targetAchievement_zero (rows : list AnalyticsRow) :
  sum64 target_visits rows <= 0 -> targetAchievement (summary rows) == 0.
Proof.
  intros H. cbn [summary targetAchievement].
  unfold AnalyticsDouble.raw_target.
  assert (G : gtb (AnalyticsDouble.fold_field target_visits rows) 0 = false).
  { apply gtb_le. rewrite fold_field_sum64. exact H. }
  rewrite G. apply round2_0.
Qed.

(** *** Evaluation of closed goals *)

Ltac q64_eq := apply Qeq_bool_iff; vm_compute; reflexivity.
Ltac q64_neq :=
  let H := fresh in
  intro H; apply Qeq_bool_iff in H; vm_compute in H; discriminate.

(** *** The claims on the totals, the mean, the growth and the target *)




(** The example of the specification: one row with 10 visits, a revenue
    of 100, a completion rate of 50 and a target of 20. *)
Example one_row_example :
  kpis_eq
    (kpis (after_calculateKPIs (dashboard [row 10 100 50 20] sevens)))
    {| totalVisits := 10; avgCompletionRate := 50; totalRevenue := 100;
       avgRevenueAchievement := 83; growthRate := 0;
       targetAchievement := 50 |}.
Proof. repeat split; q64_eq. Qed.

(** C2, as the claim states it, fails: from 3 visits to 4 the formula
    gives 100/3, whose nearest double is 33.333333333333336, and the
    summary holds the double 33.33. *)
Lemma growth_rate_unrounded_fails :
  growthRate (kpis (after_calculateKPIs (dashboard a_third_more sevens)))
  == binary64 (3333 # 100)
  /\ (last_visits a_third_more - first_visits a_third_more)
     / first_visits a_third_more * 100 == 100 # 3
  /\ ~ growthRate (kpis (after_calculateKPIs (dashboard a_third_more sevens)))
       == binary64 (100 # 3)
  /\ (3 # 1000)
     < (100 # 3)
       - growthRate
           (kpis (after_calculateKPIs (dashboard a_third_more sevens))).
Proof.
  split; [q64_eq |]. split; [q64_eq |]. split; [q64_neq |].
  vm_compute. reflexivity.
Qed.

(** The rounding of the growth rate is that of doubles: from 160 visits
    to 67 the growth is -58.125, which [Math.round] would take up to
    -58.12, and the summary holds the double -58.13. *)
Example falling_growth_is_rounded_away :
  (last_visits falling - first_visits falling) / first_visits falling * 100
  == - (58125 # 1000)
  /\ Js.round2 (- (58125 # 1000)) == - (5812 # 100)
  /\ growthRate (kpis (after_calculateKPIs (dashboard falling sevens)))
     == binary64 (- (5813 # 100)).
Proof. repeat split; q64_eq. Qed.

(** C2, amended.  For every sequence of at least 2 rows whose first row
    has [total_visits] above 0, [growthRate] is the growth from the first
    row to the last in percent, rounded to two decimal places in doubles;
    it is 0 when the sequence has fewer than 2 rows or the first row has
    no visits. *)
Theorem growth_rate_in_doubles (rows : list AnalyticsRow) (k0 : Kpis) :
  ((2 <= List.length rows)%nat -> 0 < first_visits rows ->
   stored_2dp
     ((last_visits rows - first_visits rows) / first_visits rows * 100)
     (growthRate (kpis (after_calculateKPIs (dashboard rows k0))))) /\
  ((List.length rows < 2)%nat \/ first_visits rows <= 0 ->
   growthRate (kpis (after_calculateKPIs (dashboard rows k0))) == 0).
Proof.
  rewrite calculateKPIs_rows64. split.
  - intros Hlen Hfirst. destruct rows as [| r rows]; [simpl in Hlen; lia |].
    apply growthRate_stored; assumption.
  - intros H. destruct rows as [| r rows]; [reflexivity |].
    apply growthRate_zero. exact H.
Qed.

(** The theorem on the two examples of the claim: visits doubling from
    10 to 20, and visits starting from 0. *)
Lemma growth_rate_in_doubles_witness :
  stored_2dp 100
    (growthRate (kpis (after_calculateKPIs (dashboard doubling sevens)))) /\
  growthRate (kpis (after_calculateKPIs (dashboard from_zero sevens))) == 0.
Proof.
  split.
  - apply stored_2dp_comp
      with (x := (last_visits doubling - first_visits doubling)
                 / first_visits doubling * 100)
           (r := growthRate
                   (kpis (after_calculateKPIs (dashboard doubling sevens)))).
    + q64_eq.
    + reflexivity.
    + apply (proj1 (growth_rate_in_doubles doubling sevens)).
      * simpl. lia.
      * vm_compute. reflexivity.
  - apply (proj2 (growth_rate_in_doubles from_zero sevens)).
    right. vm_compute. discriminate.
Defined.

(** The two examples of the claim, evaluated: a growth of exactly 100,
    and of 0. *)
Example growth_examples :
  growthRate (kpis (after_calculateKPIs (dashboard doubling sevens))) == 100
  /\ growthRate (kpis (after_calculateKPIs (dashboard from_zero sevens)))
     == 0.
Proof. split; q64_eq. Qed.

(** C3, as the claim states it, fails: 23 visits against a target of
    160 are 14.375 percent, which rounds to 14.38, and the summary holds
    the double 14.37: 23 / 160 * 100 * 100 is a double below 1437.5. *)
Lemma target_achievement_at_a_tie_is_rounded_down :
  sum_of total_visits below_target / sum_of target_visits below_target * 100
  == 14375 # 1000
  /\ Js.round2 (14375 # 1000) == 1438 # 100
  /\ targetAchievement
       (kpis (after_calculateKPIs (dashboard below_target sevens)))
     == binary64 (1437 # 100)
  /\ ~ targetAchievement
         (kpis (after_calculateKPIs (dashboard below_target sevens)))
       == binary64 (1438 # 100)
  /\ mul (mul (div 23 160) 100) 100 < 14375 # 10.
Proof.
  split; [q64_eq |]. split; [q64_eq |]. split; [q64_eq |].
  split; [q64_neq |]. vm_compute. reflexivity.
Qed.

(** C3, amended.  For every sequence of analytics rows,
    [targetAchievement] is [totalVisits] over the total target in
    percent, rounded to two decimal places in doubles, when the total
    target, the sum of the fields [target_visits] as doubles accumulate
    it, is above 0, and 0 otherwise.  When the visits and the targets are
    counts whose sums are safe integers, the two totals are the sums
    themselves, and the total target is 0 or above 0. *)
Theorem target_achievement_in_doubles (rows : list AnalyticsRow) (k0 : Kpis) :
  (0 < sum64 target_visits rows ->
   stored_2dp (sum64 total_visits rows / sum64 target_visits rows * 100)
     (targetAchievement (kpis (after_calculateKPIs (dashboard rows k0))))) /\
  (sum64 target_visits rows <= 0 ->
   targetAchievement (kpis (after_calculateKPIs (dashboard rows k0))) == 0) /\
  (safe_counts total_visits rows = true ->
   safe_counts target_visits rows = true ->
   totalVisits (kpis (after_calculateKPIs (dashboard rows k0)))
   == sum_of total_visits rows /\
   (0 < sum_of target_visits rows ->
    stored_2dp (sum_of total_visits rows / sum_of target_visits rows * 100)
      (targetAchievement (kpis (after_calculateKPIs (dashboard rows k0))))) /\
   (~ 0 < sum_of target_visits rows ->
    sum_of target_visits rows == 0 /\
    targetAchievement (kpis (after_calculateKPIs (dashboard rows k0))) == 0)).
Proof.
  rewrite calculateKPIs_rows64.
  assert (A : 0 < sum64 target_visits rows ->
              stored_2dp
                (sum64 total_visits rows / sum64 target_visits rows * 100)
                (targetAchievement
                   match rows with [] => zero_kpis | _ :: _ => summary rows end)).
  { intros Hpos. destruct rows as [| r rows].
    - vm_compute in Hpos. discriminate.
    - apply targetAchievement_stored. exact Hpos. }
  assert (B : sum64 target_visits rows <= 0 ->
              targetAchievement
                match rows with [] => zero_kpis | _ :: _ => summary rows end
              == 0).
  { intros H. destruct rows as [| r rows]; [reflexivity |].
    apply targetAchievement_zero. exact H. }
  split; [exact A |]. split; [exact B |].
  intros Hv Ht.
  pose proof (sum64_counts _ _ Hv) as Ev.
  pose proof (sum64_counts _ _ Ht) as Et.
  split.
  { rewrite <- Ev. destruct rows; [reflexivity | apply fold_field_sum64]. }
  split.
  - intros Hpos.
    apply stored_2dp_comp
      with (x := sum64 total_visits rows / sum64 target_visits rows * 100)
           (r := targetAchievement
                   match rows with
                   | [] => zero_kpis
                   | _ :: _ => summary rows
                   end).
    + rewrite Ev, Et. reflexivity.
    + reflexivity.
    + apply A. rewrite Et. exact Hpos.
  - intros Hn. apply andb_prop in Ht. destruct Ht as [Hc _].
    pose proof (sum_of_nonneg _ _ Hc) as H0.
    assert (E0 : sum_of target_visits rows == 0) by lra.
    split; [exact E0 |]. apply B. rewrite Et, E0. lra.
Qed.

(** The theorem on the example of the claim, three periods with 100,
    120 and 150 visits against a target of 100 each, and on a period
    without a target. *)
Lemma target_achievement_in_doubles_witness :
  totalVisits (kpis (after_calculateKPIs (dashboard three_periods sevens)))
  == 370 /\
  stored_2dp (370 / 300 * 100)
    (targetAchievement
       (kpis (after_calculateKPIs (dashboard three_periods sevens)))) /\
  targetAchievement
    (kpis (after_calculateKPIs (dashboard [row 10 0 0 0] sevens))) == 0.
Proof.
  destruct (target_achievement_in_doubles three_periods sevens)
    as [_ [_ H]].
  destruct (H eq_refl eq_refl) as [Hv [Hs _]].
  split; [rewrite Hv; q64_eq |]. split.
  - apply stored_2dp_comp
      with (x := sum_of total_visits three_periods
                 / sum_of target_visits three_periods * 100)
           (r := targetAchievement
                   (kpis (after_calculateKPIs
                            (dashboard three_periods sevens)))).
    + q64_eq.
    + reflexivity.
    + apply Hs. vm_compute. reflexivity.
  - destruct (target_achievement_in_doubles [row 10 0 0 0] sevens)
      as [_ [_ H']].
    destruct (H' eq_refl eq_refl) as [_ [_ Hz]].
    apply Hz. vm_compute. discriminate.
Defined.

(** The example of the claim, evaluated: 370 visits, and the double
    123.33. *)
Example three_periods_example :
  totalVisits (kpis (after_calculateKPIs (dashboard three_periods sevens)))
  == 370
  /\ targetAchievement
       (kpis (after_calculateKPIs (dashboard three_periods sevens)))
     == binary64 (12333 # 100).
Proof. split; q64_eq. Qed.

End AnalyticsDoubleFacts.

(** ** The progress of a visit in double arithmetic *)

Module TrackerDoubleFacts.

Import Js JsFacts Tracker TrackerFacts Double DoubleFacts TrackerDouble.
Local Open Scope Q_scope.
Local Open Scope string_scope.

(** The percentage that [calculateVisitProgress] computes for a running
    visit is the exact one up to the relative error of five roundings. *)
Lemma progress_close (now startTime : Z) (expected : Q) :
  close tolerance
    (mul (div (TrackerDouble.diff_minutes now startTime) expected) 100)
    (inject_Z (now - startTime) / 60000 / expected * 100).
Proof.
  set (e1 := epsilon).
  set (e2 := e1 + epsilon + e1 * epsilon).
  set (e3 := e2 + epsilon + e2 * epsilon).
  set (e4 := e3 + epsilon + e3 * epsilon).
  set (e5 := e4 + epsilon + e4 * epsilon).
  apply close_weaken with (eps := e5); [vm_compute; discriminate |].
  apply close_comp
    with (a := mul (div (TrackerDouble.diff_minutes now startTime) expected)
                 100)
         (b := (inject_Z now - inject_Z startTime) / 1000 / 60 / expected
               * 100).
  - reflexivity.
  - apply Qmult_comp; [| reflexivity].
    apply Qdiv_comp; [| reflexivity].
    unfold Zminus. rewrite inject_Z_plus, inject_Z_opp.
    unfold Qdiv, Qminus. rewrite <- Qmult_assoc. reflexivity.
  - unfold mul. apply close_binary64; [vm_compute; discriminate |].
    apply close_mul. unfold div at 1.
    apply close_binary64; [vm_compute; discriminate |].
    apply close_div. unfold TrackerDouble.diff_minutes, div at 1.
    apply close_binary64; [vm_compute; discriminate |].
    apply close_div. unfold div.
    apply close_binary64; [vm_compute; discriminate |].
    apply close_div. unfold sub. apply binary64_error.
Qed.

(** C7.  In double arithmetic, [calculateVisitProgress] returns 100 for
    a completed visit; 0 for a cancelled one; for a visit in progress
    with an actual start time, the minimum of 95 and the percentage it
    computes, which is the minutes elapsed since that time, the
    milliseconds over 60000, over the expected duration ([duration], or
    60 when it is missing or 0) times 100, up to a relative error of
    [2^-50]: hence at most 95; the number -1 for a planned visit whose
    planned time, today's midnight plus the time of day, is past; and 0
    in every other case. *)
Theorem visit_progress_in_doubles (now : Z) (visit : Visit) :
  (state visit = "completed" ->
   TrackerDouble.calculateVisitProgress now visit = 100) /\
  (state visit = "cancelled" ->
   TrackerDouble.calculateVisitProgress now visit = 0) /\
  (forall startTime,
     state visit = "in_progress" ->
     actual_start_time visit = Some startTime ->
     (exists p : Q,
        TrackerDouble.calculateVisitProgress now visit == Qmin p 95 /\
        close tolerance p
          (inject_Z (now - startTime) / 60000
           / match duration visit with
             | Some d => if Qeq_bool d 0 then 60 else d
             | None => 60
             end * 100)) /\
     TrackerDouble.calculateVisitProgress now visit <= 95) /\
  (forall t,
     state visit = "planned" -> planned_time visit = Some t ->
     (now - now mod 86400000 + t < now)%Z ->
     TrackerDouble.calculateVisitProgress now visit = -1) /\
  (state visit <> "completed" -> state visit <> "cancelled" ->
   ~ (state visit = "in_progress" /\ actual_start_time visit <> None) ->
   ~ (state visit = "planned" /\
      exists t, planned_time visit = Some t /\
                (now - now mod 86400000 + t < now)%Z) ->
   TrackerDouble.calculateVisitProgress now visit = 0).
Proof.
  unfold TrackerDouble.calculateVisitProgress.
  split; [| split; [| split; [| split]]].
  - intros ->. reflexivity.
  - intros ->. reflexivity.
  - intros startTime -> ->. cbn [String.eqb Ascii.eqb Bool.eqb].
    split; [| apply Math_min_le_r].
    exists (mul (div (TrackerDouble.diff_minutes now startTime)
                   (or_else (duration visit) 60)) 100).
    split; [apply Math_min_spec |].
    apply (progress_close now startTime (or_else (duration visit) 60)).
  - intros t -> -> Hpast. cbn [String.eqb Ascii.eqb Bool.eqb andb].
    change (plannedDate now t) with (now - now mod 86400000 + t)%Z.
    apply Z.ltb_lt in Hpast. now rewrite Hpast.
  - intros Hc Hx Hp Hq.
    apply String.eqb_neq in Hc, Hx. rewrite Hc, Hx.
    destruct (state visit =? "in_progress") eqn:Ei.
    + apply String.eqb_eq in Ei.
      destruct (actual_start_time visit) eqn:Es.
      * exfalso. apply Hp. split; [exact Ei | discriminate].
      * rewrite Ei. reflexivity.
    + destruct (state visit =? "planned") eqn:Epl; [| reflexivity].
      apply String.eqb_eq in Epl.
      destruct (planned_time visit) as [t |] eqn:Et; [| reflexivity].
      destruct (plannedDate now t <? now)%Z eqn:El; [| reflexivity].
      exfalso. apply Hq. split; [exact Epl |].
      exists t. split; [reflexivity |].
      apply Z.ltb_lt in El. exact El.
Qed.

(** The theorem on a visit of 60 minutes running since 09:00, at 09:07,
    on a visit planned for 09:00, at 10:30, and on a completed visit. *)
Lemma visit_progress_in_doubles_witness :
  (exists p : Q,
     TrackerDouble.calculateVisitProgress at_0907 running_visit
     == Qmin p 95
     /\ close tolerance p (inject_Z (7 * 60000) / 60000 / 60 * 100)) /\
  TrackerDouble.calculateVisitProgress at_1030 running_visit <= 95 /\
  TrackerDouble.calculateVisitProgress at_1030 planned_visit = -1 /\
  TrackerDouble.calculateVisitProgress at_1030 (completed_visit 0) = 100.
Proof.
  destruct (visit_progress_in_doubles at_0907 running_visit)
    as (_ & _ & H1 & _).
  destruct (visit_progress_in_doubles at_1030 running_visit)
    as (_ & _ & H2 & _).
  destruct (visit_progress_in_doubles at_1030 planned_visit)
    as (_ & _ & _ & G & _).
  destruct (visit_progress_in_doubles at_1030 (completed_visit 0)) as (C & _).
  split; [| split; [| split]].
  - exact (proj1 (H1 at_0900 eq_refl eq_refl)).
  - exact (proj2 (H2 at_0900 eq_refl eq_refl)).
  - apply (G (9 * 3600000)%Z eq_refl eq_refl). reflexivity.
  - apply C. reflexivity.
Defined.

(** The values on these visits: half of the expected duration is 50,
    the whole of it and half as much again is capped at 95, seven minutes
    of sixty are the double that the floats of the kernel give for
    [420000 / 1000 / 60 / 60 * 100], 11.666666666666666, and not 35/3. *)
Example visit_progress_examples :
  TrackerDouble.calculateVisitProgress at_0930 running_visit == 50 /\
  TrackerDouble.calculateVisitProgress at_1030 running_visit == 95 /\
  TrackerDouble.calculateVisitProgress at_0907 running_visit
  == of_float (420000 / 1000 / 60 / 60 * 100)%float /\
  ~ TrackerDouble.calculateVisitProgress at_0907 running_visit == 35 # 3 /\
  TrackerDouble.calculateVisitProgress at_1030 planned_visit == -1.
Proof.
  split; [apply Qeq_bool_iff; vm_compute; reflexivity |].
  split; [apply Qeq_bool_iff; vm_compute; reflexivity |].
  split; [apply Qeq_bool_iff; vm_compute; reflexivity |].
  split; [| apply Qeq_bool_iff; vm_compute; reflexivity].
  intros H. apply Qeq_bool_iff in H. vm_compute in H. discriminate.
Qed.

End TrackerDoubleFacts.

(** ** Notifications: marking as read, bus messages, ages *)

Module BusFacts.

Import Notifications NotificationFacts Bus.
Local Open Scope list_scope.

Lemma id_eqb_refl (i : Id) : id_eqb i i = true.
Proof.
  destruct i; cbn; [reflexivity | apply Z.eqb_refl | apply String.eqb_refl].
Qed.

Lemma update_found_length (i : Id) (f : Notification -> Notification)
  (l : list Notification) :
  List.length (update_found i f l) = List.length l.
Proof.
  induction l as [|n l IH]; cbn; [reflexivity|].
  destruct (id_eqb (id n) i); cbn; congruence.
Qed.

Lemma update_found_none (i : Id) (f : Notification -> Notification)
  (l : list Notification) :
  find_by_id i l = None -> update_found i f l = l.
Proof.
  unfold find_by_id. induction l as [|n l IH]; cbn; [reflexivity|].
  destruct (id_eqb (id n) i); [discriminate|]. intros H. now rewrite IH.
Qed.

Lemma count_update_found (i : Id) (f : Notification -> Notification)
  (l : list Notification) :
  (forall m, not_read (f m) = false) ->
  (count_unread (update_found i f l)
   + (if first_is_unread i l then 1 else 0))%nat
  = count_unread l.
Proof.
  intros Hf. unfold first_is_unread, find_by_id, count_unread.
  induction l as [|n l IH]; cbn; [reflexivity|].
  destruct (id_eqb (id n) i); cbn.
  - rewrite Hf. destruct (not_read n); cbn; lia.
  - destruct (not_read n); cbn; lia.
Qed.

Lemma not_read_read_and_seen (n : Notification) :
  not_read (read_and_seen n) = false.
Proof. reflexivity. Qed.

Lemma not_read_read (n : Notification) : not_read (read n) = false.
Proof. reflexivity. Qed.

(** X1.  Marking one notification as read, by [markAsRead] once the server
    has accepted the write or by [markNotificationRead], keeps the
    length of the list and lowers the unread counter by exactly one when
    the first notification with that id was unread, and by nothing
    otherwise; a rejected write changes nothing. *)
Theorem marking_one_as_read (i : Id) (c : Component) :
  List.length (notifications (markAsRead i (Resolved tt) c))
  = List.length (notifications c) /\
  List.length (notifications (markNotificationRead i c))
  = List.length (notifications c) /\
  (unreadCount (markAsRead i (Resolved tt) c)
   + (if first_is_unread i (notifications c) then 1 else 0))%nat
  = count_unread (notifications c) /\
  (unread_count_correct c ->
   (unreadCount (markNotificationRead i c)
    + (if first_is_unread i (notifications c) then 1 else 0))%nat
   = unreadCount c) /\
  (forall network, markAsRead i (Rejected network) c = c).
Proof.
  split; [|split; [|split; [|split]]].
  - cbn. apply update_found_length.
  - unfold markNotificationRead.
    destruct (find_by_id i (notifications c)) as [n|]; [|reflexivity].
    destruct (not_read n); [|reflexivity]. cbn. apply update_found_length.
  - cbn. apply (count_update_found i read_and_seen).
    apply not_read_read_and_seen.
  - intros Hc. unfold markNotificationRead, first_is_unread.
    destruct (find_by_id i (notifications c)) as [n|] eqn:Efind; [|lia].
    destruct (not_read n) eqn:En; [|lia].
    cbn. rewrite Hc.
    pose proof (count_update_found i read (notifications c) not_read_read)
      as H.
    unfold first_is_unread in H. now rewrite Efind, En in H.
  - reflexivity.
Qed.

Lemma find_update_found (i : Id) (l : list Notification) (n : Notification) :
  find_by_id i l = Some n -> find_by_id i (update_found i read l) = Some (read n).
Proof.
  unfold find_by_id. induction l as [|m l IH]; cbn; [discriminate|].
  destruct (id_eqb (id m) i) eqn:E; cbn.
  - intros [= ->]. cbn. now rewrite E.
  - rewrite E. exact IH.
Qed.

Lemma markNotificationRead_again (i : Id) (c : Component) :
  markNotificationRead i (markNotificationRead i c)
  = markNotificationRead i c.
Proof.
  destruct (find_by_id i (notifications c)) as [n|] eqn:Efind.
  - destruct (not_read n) eqn:En.
    + assert (E : markNotificationRead i c
                  = updateUnreadCount
                      (set_notifications
                         (update_found i read (notifications c)) c)).
      { unfold markNotificationRead. now rewrite Efind, En. }
      rewrite E. unfold markNotificationRead at 1.
      cbn [updateUnreadCount set_unreadCount set_notifications notifications].
      now rewrite (find_update_found i (notifications c) n Efind).
    + assert (E : markNotificationRead i c = c).
      { unfold markNotificationRead. now rewrite Efind, En. }
      now rewrite !E.
  - assert (E : markNotificationRead i c = c).
    { unfold markNotificationRead. now rewrite Efind. }
    now rewrite !E.
Qed.

(** X2.  A second [notification_read] message for the same id changes
    nothing. *)
Theorem markNotificationRead_twice (i : Id) (c : Component) :
  markNotificationRead i (markNotificationRead i c)
  = markNotificationRead i c.
Proof. apply markNotificationRead_again. Qed.

Lemma includes_In (ids : list Id) (i : Id) : In i ids -> includes ids i = true.
Proof.
  intros H. unfold includes. apply existsb_exists. exists i.
  split; [exact H | apply id_eqb_refl].
Qed.

Lemma filter_nil_map_id (l : list Notification) :
  map id (filter not_read l) = [] -> filter not_read l = [].
Proof. now destruct (filter not_read l). Qed.

Lemma mark_all_none_unread (ids : list Id) (l : list Notification) :
  (forall n, In n l -> not_read n = true -> In (id n) ids) ->
  filter not_read
    (map (fun notification =>
            if includes ids (id notification)
            then read_and_seen notification else notification) l) = [].
Proof.
  induction l as [|n l IH]; intros H; cbn [map filter]; [reflexivity|].
  rewrite IH by (intros m Hm; apply H; now right).
  destruct (not_read n) eqn:En.
  - rewrite (includes_In ids (id n)) by (apply H; [now left | exact En]).
    reflexivity.
  - destruct (includes ids (id n)); [reflexivity | now rewrite En].
Qed.

Lemma mark_all_keeps_ids (ids : list Id) (l : list Notification) :
  map id
    (map (fun notification =>
            if includes ids (id notification)
            then read_and_seen notification else notification) l)
  = map id l.
Proof.
  rewrite map_map. apply map_ext. intros n.
  now destruct (includes ids (id n)).
Qed.

(** X3.  After [markAllAsRead], the server having accepted the write and
    nothing having run in between, no notification is unread and the
    counter, if it was right, is 0; the notifications keep their ids and
    their order; a rejected write changes nothing. *)
Theorem markAllAsRead_leaves_none_unread (c : Component) :
  count_unread (notifications (markAllAsRead (Resolved tt) c)) = 0%nat /\
  (unread_count_correct c ->
   unreadCount (markAllAsRead (Resolved tt) c) = 0%nat) /\
  map id (notifications (markAllAsRead (Resolved tt) c))
  = map id (notifications c) /\
  (forall network, markAllAsRead (Rejected network) c = c).
Proof.
  unfold markAllAsRead, markAllAsRead_resume, unread_ids.
  destruct (map id (filter not_read (notifications c))) as [|i ids] eqn:E.
  - cbn. apply filter_nil_map_id in E. unfold count_unread.
    rewrite E. split; [reflexivity|]. split; [|split; reflexivity].
    intros Hc. rewrite Hc. unfold count_unread. now rewrite E.
  - cbn [List.length Nat.ltb Nat.leb].
    assert (Hnone :
      filter not_read
        (map (fun notification =>
                if includes (i :: ids) (id notification)
                then read_and_seen notification else notification)
           (notifications c)) = []).
    { apply mark_all_none_unread. intros n Hin Hn. rewrite <- E.
      apply in_map. apply filter_In. now split. }
    cbn [updateUnreadCount set_unreadCount set_notifications notifications
         unreadCount].
    unfold count_unread. rewrite Hnone.
    split; [reflexivity|]. split; [reflexivity|].
    split; [apply mark_all_keeps_ids | reflexivity].
Qed.

(** The theorem on a component with two unread notifications. *)
Lemma markAllAsRead_leaves_none_unread_witness :
  unread_count_correct
    (after [AddNewNotification unread_from_bus;
            AddNewNotification unread_from_bus] setup) /\
  unreadCount
    (markAllAsRead (Resolved tt)
       (after [AddNewNotification unread_from_bus;
               AddNewNotification unread_from_bus] setup)) = 0%nat.
Proof.
  split; [reflexivity|].
  apply (markAllAsRead_leaves_none_unread
           (after [AddNewNotification unread_from_bus;
                   AddNewNotification unread_from_bus] setup)).
  reflexivity.
Defined.

(** The theorem on a component with two unread notifications of the
    same id: one message marks one of them. *)
Lemma marking_one_as_read_witness :
  unread_count_correct
    (after [AddNewNotification unread_from_bus;
            AddNewNotification unread_from_bus] setup) /\
  unreadCount
    (markNotificationRead (IdNumber 7)
       (after [AddNewNotification unread_from_bus;
               AddNewNotification unread_from_bus] setup)) = 1%nat.
Proof.
  split; [reflexivity|].
  destruct (marking_one_as_read (IdNumber 7)
              (after [AddNewNotification unread_from_bus;
                      AddNewNotification unread_from_bus] setup))
    as (_ & _ & _ & H & _).
  specialize (H eq_refl). cbn in H. cbn. lia.
Defined.

(** *** Bulk messages *)

Lemma addNewNotification_list (d : NotificationData) (c : Component) :
  notifications (addNewNotification d c) = from_bus d :: notifications c.
Proof. unfold addNewNotification. now destruct (autoMarkRead _). Qed.

Lemma bulk_list (batch : list NotificationData) :
  forall c,
    notifications (fold_left (fun c notif => addNewNotification notif c) batch c)
    = rev (map from_bus batch) ++ notifications c.
Proof.
  induction batch as [|d batch IH]; intros c; cbn [fold_left map rev].
  - reflexivity.
  - rewrite IH, addNewNotification_list, <- app_assoc. reflexivity.
Qed.

Lemma bulk_correct (batch : list NotificationData) :
  forall c,
    unread_count_correct c ->
    unread_count_correct
      (fold_left (fun c notif => addNewNotification notif c) batch c).
Proof.
  induction batch as [|d batch IH]; intros c H; cbn [fold_left].
  - exact H.
  - apply IH. apply addNewNotification_correct.
Qed.

Lemma count_unread_app (l1 l2 : list Notification) :
  count_unread (l1 ++ l2) = (count_unread l1 + count_unread l2)%nat.
Proof. unfold count_unread. now rewrite filter_app, length_app. Qed.

Lemma count_unread_rev (l : list Notification) :
  count_unread (rev l) = count_unread l.
Proof.
  unfold count_unread. induction l as [|n l IH]; [reflexivity|].
  cbn [rev filter]. rewrite filter_app, length_app, IH. cbn.
  destruct (not_read n); cbn; lia.
Qed.

(** X4.  A bulk message puts its notifications at the head of the list, the
    last of the batch first, and raises the unread counter by the number
    of them that are not read; a [notifications] property that is not an
    array changes nothing. *)
Theorem bulk_notification_arrives_reversed
  (batch : list NotificationData) (c : Component) :
  notifications (handleBusMessage (bulk_notification (Some batch)) c)
  = rev (map from_bus batch) ++ notifications c /\
  (unread_count_correct c ->
   unreadCount (handleBusMessage (bulk_notification (Some batch)) c)
   = (count_unread (map from_bus batch) + unreadCount c)%nat) /\
  handleBusMessage (bulk_notification None) c = c.
Proof.
  cbn [handleBusMessage handleBulkNotification].
  split; [apply bulk_list|]. split; [|reflexivity].
  intros Hc. rewrite (bulk_correct batch c Hc), bulk_list.
  now rewrite count_unread_app, count_unread_rev, Hc.
Qed.

(** The theorem on a fresh component and a batch of an unread and a read
    notification. *)
Lemma bulk_notification_arrives_reversed_witness :
  unread_count_correct setup /\
  unreadCount
    (handleBusMessage
       (bulk_notification (Some [unread_from_bus; read_from_bus])) setup)
  = 1%nat /\
  map id
    (notifications
       (handleBusMessage
          (bulk_notification (Some [unread_from_bus; read_from_bus])) setup))
  = [IdNumber 8; IdNumber 7].
Proof.
  destruct (bulk_notification_arrives_reversed
              [unread_from_bus; read_from_bus] setup) as (Hl & Hc & _).
  split; [reflexivity|]. split.
  - rewrite (Hc eq_refl). reflexivity.
  - rewrite Hl. reflexivity.
Defined.

(** *** The age of a notification *)

(** X5.  [getTimeAgo] says "Just now" below one minute (and for a date in the
    future), then whole minutes from 1 to 59, whole hours from 1 to 23,
    and whole days from 1 on; the number it shows is the age rounded
    down to that unit. *)
Theorem getTimeAgo_buckets (now date : Z) :
  match getTimeAgo now date with
  | Just_now => (now - date < 60000)%Z
  | minutes_ago m =>
      (1 <= m <= 59 /\ 60000 * m <= now - date < 60000 * (m + 1))%Z
  | hours_ago h =>
      (1 <= h <= 23 /\ 3600000 * h <= now - date < 3600000 * (h + 1))%Z
  | days_ago d =>
      (1 <= d /\ 86400000 * d <= now - date < 86400000 * (d + 1))%Z
  end.
Proof.
  unfold getTimeAgo.
  destruct ((now - date) / 1000 <? 60)%Z eqn:E1.
  { apply Z.ltb_lt in E1. Z.div_mod_to_equations. lia. }
  apply Z.ltb_ge in E1.
  destruct ((now - date) / 1000 <? 3600)%Z eqn:E2.
  { apply Z.ltb_lt in E2. Z.div_mod_to_equations. lia. }
  apply Z.ltb_ge in E2.
  destruct ((now - date) / 1000 <? 86400)%Z eqn:E3.
  { apply Z.ltb_lt in E3. Z.div_mod_to_equations. lia. }
  apply Z.ltb_ge in E3. Z.div_mod_to_equations. lia.
Qed.

(** X6.  A notification that [isRecentNotification] flags as new reads "Just
    now" or at most "5 minutes ago", and one that reads "Just now" is
    flagged as new. *)
Theorem recent_notifications_read_minutes (now created : Z) :
  (isRecentNotification now created = true ->
   getTimeAgo now created = Just_now \/
   exists m, getTimeAgo now created = minutes_ago m /\ (1 <= m <= 5)%Z) /\
  (getTimeAgo now created = Just_now ->
   isRecentNotification now created = true).
Proof.
  unfold isRecentNotification, getTimeAgo. split.
  - intros H. apply Z.leb_le in H.
    destruct ((now - created) / 1000 <? 60)%Z eqn:E1; [now left|].
    apply Z.ltb_ge in E1. right.
    assert (E2 : ((now - created) / 1000 <? 3600)%Z = true).
    { apply Z.ltb_lt. Z.div_mod_to_equations. lia. }
    rewrite E2. eexists. split; [reflexivity|].
    Z.div_mod_to_equations. lia.
  - destruct ((now - created) / 1000 <? 60)%Z eqn:E1.
    + intros _. apply Z.ltb_lt in E1. apply Z.leb_le.
      Z.div_mod_to_equations. lia.
    + destruct ((now - created) / 1000 <? 3600)%Z; [discriminate|].
      destruct ((now - created) / 1000 <? 86400)%Z; discriminate.
Qed.

(** The theorem on a notification four and a half minutes old. *)
Lemma recent_notifications_read_minutes_witness :
  isRecentNotification 1000000 730000 = true /\
  (getTimeAgo 1000000 730000 = Just_now \/
   exists m, getTimeAgo 1000000 730000 = minutes_ago m /\ (1 <= m <= 5)%Z).
Proof.
  split; [reflexivity|].
  apply (proj1 (recent_notifications_read_minutes 1000000 730000)).
  reflexivity.
Defined.

(** *** Temporary ids *)

Lemma read_messages_once (k : nat) (i : Id) (c : Component) :
  read_messages (S k) i c = markNotificationRead i c.
Proof.
  induction k as [|k IH]; [reflexivity|].
  change (read_messages (S (S k)) i c)
    with (markNotificationRead i (read_messages (S k) i c)).
  rewrite IH. apply markNotificationRead_again.
Qed.

(** X7.  Two notifications that [createNotification] makes in the same
    millisecond share their temporary id, and [notification_read]
    messages for that id, however many, mark only the later one: the
    earlier one stays unread. *)
Theorem same_millisecond_same_id
  (now : Z) (title1 priority1 title2 priority2 : string) (k : nat)
  (c : Component) :
  map id
    (notifications
       (createNotification now title2 priority2
          (createNotification now title1 priority1 c)))
  = temp_id now :: temp_id now :: map id (notifications c) /\
  unreadCount
    (read_messages (S k) (temp_id now)
       (createNotification now title2 priority2
          (createNotification now title1 priority1 c)))
  = S (count_unread (notifications c)).
Proof.
  split.
  - unfold createNotification. now rewrite !addNewNotification_list.
  - rewrite read_messages_once. unfold markNotificationRead, find_by_id.
    unfold createNotification at 1 3. rewrite !addNewNotification_list.
    cbn [find from_bus id data_id]. rewrite id_eqb_refl.
    cbn [not_read from_bus is_read data_is_read update_found id data_id].
    rewrite id_eqb_refl.
    cbn [updateUnreadCount set_unreadCount set_notifications notifications
         unreadCount].
    unfold createNotification. rewrite addNewNotification_list.
    reflexivity.
Qed.

(** *** The total counter *)

Lemma attemptReconnection_totalCount (c : Component) :
  totalCount (attemptReconnection c) = totalCount c.
Proof.
  unfold attemptReconnection.
  now destruct (maxReconnectAttempts <=? reconnectAttempts c)%nat.
Qed.

Lemma bulk_totalCount (batch : list NotificationData) :
  forall c,
    totalCount (fold_left (fun c notif => addNewNotification notif c) batch c)
    = totalCount c.
Proof.
  induction batch as [|d batch IH]; intros c; cbn [fold_left];
    [reflexivity|].
  rewrite IH. unfold addNewNotification. now destruct (autoMarkRead _).
Qed.

(** X8.  [totalCount] is the number of notifications of the last successful
    load: no other operation changes it, so that after a load and a
    batch from the bus the list is longer than [totalCount] by the size
    of the batch. *)
Theorem totalCount_is_of_the_last_load :
  (forall op c,
     (forall now records, op <> LoadNotifications now (Resolved records)) ->
     totalCount (perform op c) = totalCount c) /\
  (forall now records c,
     totalCount (loadNotifications now (Resolved records) c)
     = List.length records) /\
  (forall now records batch c,
     List.length
       (notifications
          (handleBulkNotification (Some batch)
             (loadNotifications now (Resolved records) c)))
     = (totalCount
          (handleBulkNotification (Some batch)
             (loadNotifications now (Resolved records) c))
        + List.length batch)%nat).
Proof.
  split; [|split].
  - intros op c Hop. destruct op as [now reply|d|i reply|reply|ids reply|i];
      cbn [perform].
    + destruct reply as [records|network].
      * now contradiction (Hop now records).
      * unfold loadNotifications, handleError.
        destruct network; cbn; [|reflexivity].
        now rewrite attemptReconnection_totalCount.
    + unfold addNewNotification. now destruct (autoMarkRead _).
    + now destruct reply.
    + unfold markAllAsRead, markAllAsRead_resume.
      destruct (0 <? _)%nat; [|reflexivity]. now destruct reply.
    + unfold markAllAsRead_resume.
      destruct (0 <? _)%nat; [|reflexivity]. now destruct reply.
    + unfold markNotificationRead.
      destruct (find_by_id i (notifications c)) as [n|]; [|reflexivity].
      now destruct (not_read n).
  - intros now records c. cbn. apply length_map.
  - intros now records batch c. cbn [handleBulkNotification].
    rewrite bulk_list, bulk_totalCount, length_app, length_rev, length_map.
    cbn. rewrite length_map. lia.
Qed.

(** The theorem on a rejected write. *)
Lemma totalCount_is_of_the_last_load_witness :
  totalCount (perform (MarkAsRead (IdNumber 7) (Rejected false)) setup)
  = totalCount setup.
Proof.
  apply (proj1 totalCount_is_of_the_last_load). discriminate.
Defined.

(** *** Failed loads and the reconnection counter *)

Lemma failed_load_step (now : Z) (c : Component) :
  loadNotifications now (Rejected true) c
  = set_isLoading false
      (attemptReconnection
         (set_isLoading false
            (set_connectionStatus "error"%string
               (set_error
                  (Some "An error occurred in notifications. Please try refreshing."%string)
                  (set_isLoading true c))))).
Proof. reflexivity. Qed.

Lemma failed_loads_state (now : Z) (c : Component) (n : nat) :
  reconnectAttempts c = 0%nat ->
  reconnectAttempts (failed_loads n now c)
  = Nat.min n maxReconnectAttempts /\
  reconnect_delays (failed_loads n now c)
  = reconnect_delays c
    ++ map backoff_delay (seq 1 (Nat.min n maxReconnectAttempts)).
Proof.
  intros H0. induction n as [|n [IHa IHd]].
  - cbn. now rewrite H0, app_nil_r.
  - cbn [failed_loads]. rewrite failed_load_step.
    apply (attemptReconnection_step _ n); assumption.
Qed.

(** X9.  Every load that fails with a network error uses up one of the five
    reconnection attempts, although the bus has not dropped: after five
    such loads a drop of the bus schedules no reconnection at all and
    only sets the status ["error"]. *)
Theorem failed_loads_use_up_the_reconnections
  (now : Z) (c : Component) :
  reconnectAttempts c = 0%nat ->
  (forall n,
     reconnectAttempts (failed_loads n now c)
     = Nat.min n maxReconnectAttempts /\
     reconnect_delays (failed_loads n now c)
     = reconnect_delays c
       ++ map backoff_delay (seq 1 (Nat.min n maxReconnectAttempts))) /\
  (forall n,
     (maxReconnectAttempts <= n)%nat ->
     timeouts (on_disconnect (failed_loads n now c))
     = timeouts (failed_loads n now c) /\
     connectionStatus (on_disconnect (failed_loads n now c))
     = "error"%string).
Proof.
  intros H0. split.
  - intros n. now apply failed_loads_state.
  - intros n Hn. destruct (failed_loads_state now c n H0) as [Ha _].
    unfold on_disconnect. rewrite attemptReconnection_exhausted.
    + now split.
    + cbn. rewrite Ha. unfold maxReconnectAttempts in *. lia.
Qed.

(** The theorem on a fresh component after five failed loads. *)
Lemma failed_loads_use_up_the_reconnections_witness :
  reconnectAttempts setup = 0%nat /\
  reconnect_delays (failed_loads 5 0 setup)
  = [2000; 4000; 8000; 16000; 30000]%Z /\
  timeouts (on_disconnect (failed_loads 5 0 setup))
  = timeouts (failed_loads 5 0 setup).
Proof.
  destruct (failed_loads_use_up_the_reconnections 0 setup eq_refl)
    as (Hs & He).
  split; [reflexivity|]. split.
  - rewrite (proj2 (Hs 5%nat)). reflexivity.
  - apply He. unfold maxReconnectAttempts. lia.
Defined.

End BusFacts.

(** ** The visit tracker: statistics and tracking *)

Module VisitsFacts.

Import Js JsFacts Visits.
Local Open Scope list_scope.

(** *** Statistics *)

Lemma count_state_cons (s : string) (v : VisitLine) (l : list VisitLine) :
  count_state s (v :: l)
  = (indicator (state v =? s)%string + count_state s l)%nat.
Proof.
  unfold count_state. cbn [filter].
  now destruct (state v =? s)%string.
Qed.

Lemma indicator_sum (s : string) :
  (indicator (s =? "completed")%string + indicator (s =? "planned")%string
   + indicator (s =? "in_progress")%string
   + indicator (s =? "cancelled")%string)%nat
  = indicator (counted_state s).
Proof.
  unfold counted_state.
  destruct (s =? "completed")%string eqn:E1;
    [apply String.eqb_eq in E1; subst; reflexivity|].
  destruct (s =? "planned")%string eqn:E2;
    [apply String.eqb_eq in E2; subst; reflexivity|].
  destruct (s =? "in_progress")%string eqn:E3;
    [apply String.eqb_eq in E3; subst; reflexivity|].
  now destruct (s =? "cancelled")%string.
Qed.

Lemma counted_cons (v : VisitLine) (l : list VisitLine) :
  counted (v :: l) = (indicator (counted_state (state v)) + counted l)%nat.
Proof.
  unfold counted. rewrite !count_state_cons, <- indicator_sum. lia.
Qed.

Lemma counted_le (visits : list VisitLine) :
  (counted visits <= List.length visits)%nat.
Proof.
  induction visits as [|v l IH]; [cbn; lia|].
  rewrite counted_cons. cbn [List.length].
  destruct (counted_state (state v)); cbn; lia.
Qed.

Lemma counted_all (visits : list VisitLine) :
  counted visits = List.length visits
  <-> forallb (fun v => counted_state (state v)) visits = true.
Proof.
  induction visits as [|v l IH]; [cbn; tauto|].
  rewrite counted_cons. cbn [List.length forallb].
  pose proof (counted_le l) as Hle.
  destruct (counted_state (state v)); cbn [indicator andb].
  - rewrite <- IH. lia.
  - split; [lia | discriminate].
Qed.

Lemma completed_le_total (visits : list VisitLine) :
  (count_state "completed" visits <= List.length visits)%nat.
Proof. unfold count_state. apply filter_length_le. Qed.

Lemma of_nat_le (a b : nat) : (a <= b)%nat -> (of_nat a <= of_nat b)%Q.
Proof.
  intros H. unfold of_nat. rewrite <- Zle_Qle. lia.
Qed.

(** X10.  The four counters of [updateVisitStats] never add up to more than
    [total], and add up to [total] exactly when no visit is in another
    state, such as [rescheduled]; [efficiency] lies between 0 and 100 and
    is 0 for an empty list. *)
Theorem visit_stats_counts (visits : list VisitLine) :
  (completed (updateVisitStats visits) + pending (updateVisitStats visits)
   + inProgress (updateVisitStats visits)
   + cancelled (updateVisitStats visits)
   <= total (updateVisitStats visits))%nat /\
  ((completed (updateVisitStats visits) + pending (updateVisitStats visits)
    + inProgress (updateVisitStats visits)
    + cancelled (updateVisitStats visits))%nat
   = total (updateVisitStats visits)
   <-> forallb (fun v => counted_state (state v)) visits = true) /\
  (0 <= efficiency (updateVisitStats visits) <= 100)%Q /\
  efficiency (updateVisitStats []) = 0%Q.
Proof.
  cbn [updateVisitStats completed pending inProgress cancelled total
       efficiency].
  split; [apply counted_le|]. split; [apply counted_all|].
  split; [|reflexivity].
  destruct (0 <? List.length visits)%nat eqn:E; [|split; discriminate].
  apply Nat.ltb_lt in E.
  assert (Ht : (0 < of_nat (List.length visits))%Q).
  { unfold of_nat. change 0%Q with (inject_Z 0). rewrite <- Zlt_Qlt. lia. }
  assert (Hc : (0 <= of_nat (count_state "completed" visits))%Q).
  { unfold of_nat. change 0%Q with (inject_Z 0). rewrite <- Zle_Qle. lia. }
  pose proof (of_nat_le _ _ (completed_le_total visits)) as Hle.
  set (c := of_nat (count_state "completed" visits)) in *.
  set (t := of_nat (List.length visits)) in *.
  assert (H0 : (0 <= c / t)%Q).
  { apply Qle_shift_div_l; [exact Ht|]. now rewrite Qmult_0_l. }
  assert (H1 : (c / t <= 1)%Q).
  { apply Qle_shift_div_r; [exact Ht|]. now rewrite Qmult_1_l. }
  split; lra.
Qed.

(** *** Tracking *)

Lemma reload_keeps (reply : Answer (list VisitLine))
  (success failure : string * string) (t : Tracker) :
  tracking (reload_and_report reply success failure t) = tracking t /\
  intervals (reload_and_report reply success failure t) = intervals t /\
  writes (reload_and_report reply success failure t) = writes t /\
  next_handle (reload_and_report reply success failure t) = next_handle t.
Proof. unfold reload_and_report. now destruct reply. Qed.

Lemma find_unknown (visitId : Z) (l : list VisitLine) :
  (forall v, In v l -> id v <> visitId) ->
  find (fun v => (id v =? visitId)%Z) l = None.
Proof.
  intros H. destruct (find _ l) as [v|] eqn:E; [|reflexivity].
  apply find_some in E. destruct E as [Hin Heq].
  apply Z.eqb_eq in Heq. now contradiction (H v Hin).
Qed.

(** X11.  [completeVisit] for an id that is not among the loaded visits sends
    nothing to the server and leaves the visits and the tracking as they
    are: it only shows the error message.  [cancelVisit] does not look
    the visit up and sends its write for any id. *)
Theorem completing_an_unknown_visit
  (visitId : Z) (currentTime : Q) (result reason : string)
  (write : Answer unit) (reply : Answer (list VisitLine)) (t : Tracker) :
  (forall v, In v (visits t) -> id v <> visitId) ->
  writes (completeVisit visitId currentTime result write reply t) = writes t /\
  visits (completeVisit visitId currentTime result write reply t) = visits t /\
  tracking (completeVisit visitId currentTime result write reply t)
  = tracking t /\
  intervals (completeVisit visitId currentTime result write reply t)
  = intervals t /\
  messages (completeVisit visitId currentTime result write reply t)
  = ("Error completing visit"%string, "danger"%string) :: messages t /\
  writes (cancelVisit visitId reason write reply t)
  = write_cancel visitId reason :: writes t.
Proof.
  intros H. unfold completeVisit. rewrite (find_unknown visitId _ H).
  repeat split.
  unfold cancelVisit. destruct write.
  - now rewrite (proj1 (proj2 (proj2 (reload_keeps _ _ _ _)))).
  - reflexivity.
Qed.

(** The theorem on a tracker that follows visit 2 of the visits 1, 2, 3
    and is asked to complete visit 9. *)
Lemma completing_an_unknown_visit_witness :
  writes
    (completeVisit 9 (10 # 1) "successful" (Resolved tt) Rejected
       tracking_visit_2)
  = [] /\
  tracking
    (completeVisit 9 (10 # 1) "successful" (Resolved tt) Rejected
       tracking_visit_2)
  = (Some 2%Z, true, 0%nat, Some 1%nat).
Proof.
  assert (H : forall v, In v (visits tracking_visit_2) -> id v <> 9%Z).
  { intros v [<-|[<-|[<-|[]]]]; discriminate. }
  destruct (completing_an_unknown_visit 9 (10 # 1) "successful" ""
              (Resolved tt) Rejected tracking_visit_2 H)
    as (Hw & _ & Ht & _).
  split.
  - rewrite Hw. reflexivity.
  - rewrite Ht. reflexivity.
Defined.

Lemma filter_other_handles (next : nat) (l : list nat) :
  Forall (fun h => (h < next)%nat) l ->
  filter (fun h => negb (h =? next)%nat) l = l.
Proof.
  induction 1 as [|h l Hh _ IH]; cbn [filter]; [reflexivity|].
  assert (E : (h =? next)%nat = false) by (apply Nat.eqb_neq; lia).
  now rewrite E, IH.
Qed.

(** X12.  [startVisit] does not clear the interval of a visit that is already
    tracked: after a successful start and [stopTracking], exactly the
    intervals that ran before the start are still running, so that with
    one of them [elapsedTime] goes on counting although nothing is
    tracked. *)
Theorem start_then_stop_keeps_older_intervals
  (visitId : Z) (currentTime : Q) (reply : Answer (list VisitLine))
  (t : Tracker) :
  handles_in_use t ->
  intervals
    (stopTracking (startVisit visitId currentTime (Resolved tt) reply t))
  = intervals t /\
  tracking
    (stopTracking (startVisit visitId currentTime (Resolved tt) reply t))
  = (None, false, 0%nat, None) /\
  (intervals t <> [] ->
   (0 < elapsedTime
          (tick (stopTracking
                   (startVisit visitId currentTime (Resolved tt) reply t))))%nat).
Proof.
  intros Hwf.
  assert (Hi : intervals
                 (stopTracking
                    (startVisit visitId currentTime (Resolved tt) reply t))
               = intervals t).
  { unfold startVisit, stopTracking. cbn [intervals].
    destruct (reload_keeps reply
                ("Visit started successfully"%string, "success"%string)
                ("Error starting visit"%string, "danger"%string)
                (begin_tracking visitId
                   (orm_write (write_start visitId currentTime) t)))
      as (Ht & Hint & _ & _).
    apply (f_equal snd) in Ht. cbn [tracking snd] in Ht.
    rewrite Ht, Hint. cbn [begin_tracking orm_write timer intervals
                           next_handle filter].
    rewrite Nat.eqb_refl. cbn [negb].
    now apply filter_other_handles. }
  split; [exact Hi|]. split; [reflexivity|].
  intros Hne. unfold tick. cbn [elapsedTime]. rewrite Hi.
  cbn [stopTracking elapsedTime].
  destruct (intervals t); [now contradiction Hne | cbn; lia].
Qed.

(** The theorem on a tracker that follows visit 2 when visit 3 is
    started. *)
Lemma start_then_stop_keeps_older_intervals_witness :
  handles_in_use tracking_visit_2 /\
  intervals
    (stopTracking
       (startVisit 3 (10 # 1) (Resolved tt) Rejected tracking_visit_2))
  = [1%nat] /\
  elapsedTime
    (tick (stopTracking
             (startVisit 3 (10 # 1) (Resolved tt) Rejected tracking_visit_2)))
  = 1%nat.
Proof.
  assert (H : handles_in_use tracking_visit_2).
  { unfold handles_in_use. cbn. repeat constructor. }
  destruct (start_then_stop_keeps_older_intervals 3 (10 # 1) Rejected
              tracking_visit_2 H) as (Hi & _ & _).
  split; [exact H|]. split.
  - rewrite Hi. reflexivity.
  - unfold tick. cbn [elapsedTime]. rewrite Hi. reflexivity.
Defined.

(** X13.  A successful [completeVisit] or [cancelVisit] ends the tracking
    whatever visit is tracked, also another one than the visit completed
    or cancelled; [rescheduleVisit] and the actions whose write the
    server rejects leave the tracking as it is. *)
Theorem tracking_ends_with_any_visit
  (visitId : Z) (currentTime newTime : Q) (result reason : string)
  (reply : Answer (list VisitLine)) (t : Tracker) (visit : VisitLine) :
  find (fun v => (id v =? visitId)%Z) (visits t) = Some visit ->
  tracking (completeVisit visitId currentTime result (Resolved tt) reply t)
  = (None, false, 0%nat, None) /\
  tracking (cancelVisit visitId reason (Resolved tt) reply t)
  = (None, false, 0%nat, None) /\
  (forall write,
     tracking (rescheduleVisit visitId newTime write reply t) = tracking t) /\
  tracking (completeVisit visitId currentTime result Rejected reply t)
  = tracking t /\
  tracking (cancelVisit visitId reason Rejected reply t) = tracking t /\
  tracking (startVisit visitId currentTime Rejected reply t) = tracking t.
Proof.
  intros Hfind. unfold completeVisit. rewrite Hfind.
  unfold cancelVisit, rescheduleVisit, startVisit.
  split; [now rewrite (proj1 (reload_keeps _ _ _ _))|].
  split; [now rewrite (proj1 (reload_keeps _ _ _ _))|].
  split; [|repeat split].
  intros [[]|]; [now rewrite (proj1 (reload_keeps _ _ _ _)) | reflexivity].
Qed.

(** The theorem on a tracker that follows visit 2 when visit 1 is
    completed. *)
Lemma tracking_ends_with_any_visit_witness :
  currentVisit tracking_visit_2 = Some 2%Z /\
  tracking
    (completeVisit 1 (10 # 1) "successful" (Resolved tt) Rejected
       tracking_visit_2)
  = (None, false, 0%nat, None).
Proof.
  split; [reflexivity|].
  apply (tracking_ends_with_any_visit 1 (10 # 1) (11 # 1) "successful" ""
           Rejected tracking_visit_2 (line 1 "completed")).
  reflexivity.
Defined.

(** *** The display of the elapsed time *)

Lemma two_digits_checked :
  forallb
    (fun i =>
       (String.length (padStart2 (toString i)) =? 2)%nat
       && forallb
            (fun j =>
               implb (String.eqb (padStart2 (toString i))
                        (padStart2 (toString j)))
                 (i =? j)%nat)
            (seq 0 100))
    (seq 0 100) = true.
Proof. vm_compute. reflexivity. Qed.

Lemma two_digits_length (n : nat) :
  (n < 100)%nat -> String.length (padStart2 (toString n)) = 2%nat.
Proof.
  intros H.
  pose proof (proj1 (forallb_forall _ _) two_digits_checked n) as Hn.
  cbv beta in Hn.
  destruct (andb_prop _ _ (Hn (proj2 (in_seq 100 0 n) (conj (Nat.le_0_l n) H))))
    as [Hlen _].
  apply Nat.eqb_eq. exact Hlen.
Qed.

Lemma two_digits_inj (i j : nat) :
  (i < 100)%nat -> (j < 100)%nat ->
  padStart2 (toString i) = padStart2 (toString j) -> i = j.
Proof.
  intros Hi Hj E.
  pose proof (proj1 (forallb_forall _ _) two_digits_checked i) as Hn.
  cbv beta in Hn.
  destruct (andb_prop _ _ (Hn (proj2 (in_seq 100 0 i) (conj (Nat.le_0_l i) Hi))))
    as [_ Hall].
  pose proof (proj1 (forallb_forall _ _) Hall j
                (proj2 (in_seq 100 0 j) (conj (Nat.le_0_l j) Hj))) as Hij.
  cbv beta in Hij. rewrite E, String.eqb_refl in Hij.
  apply Nat.eqb_eq. exact Hij.
Qed.

Lemma append_same_length (a a' x x' : string) :
  String.length a = String.length a' ->
  (a ++ x)%string = (a' ++ x')%string -> a = a' /\ x = x'.
Proof.
  revert a'. induction a as [| ch a IH]; intros [| ch' a'] Hlen E;
    simpl in *; try discriminate.
  - split; [reflexivity | exact E].
  - injection E as -> E. injection Hlen as Hlen.
    destruct (IH a' Hlen E) as [-> ->]. split; reflexivity.
Qed.

Lemma length_append (a b : string) :
  String.length (a ++ b)%string = (String.length a + String.length b)%nat.
Proof. induction a as [| ch a IH]; simpl; [reflexivity | now rewrite IH]. Qed.

Lemma clock_fields (s : nat) :
  (s < 100 * 3600)%nat ->
  (s / 3600 < 100)%nat /\ ((s mod 3600) / 60 < 60)%nat /\ (s mod 60 < 60)%nat
  /\ s = (3600 * (s / 3600) + 60 * ((s mod 3600) / 60) + s mod 60)%nat.
Proof.
  intros H.
  assert (H1 := Nat.div_mod_eq s 3600).
  assert (H2 := Nat.mod_upper_bound s 3600 ltac:(lia)).
  assert (H3 := Nat.div_mod_eq (s mod 3600) 60).
  assert (H4 := Nat.mod_upper_bound (s mod 3600) 60 ltac:(lia)).
  assert (H5 : ((s mod (60 * 60)) mod 60 = s mod 60)%nat).
  { rewrite Nat.Div0.mod_mul_r, (Nat.mul_comm 60), Nat.Div0.mod_add.
    apply Nat.Div0.mod_mod. }
  change (60 * 60)%nat with 3600%nat in H5.
  rewrite H5 in H3, H4.
  repeat split; lia.
Qed.

(** X14.  Below a hundred hours the elapsed time is shown in exactly eight
    characters, and two different times are never shown alike. *)
Theorem elapsed_time_display (s1 s2 : nat) :
  (s1 < 100 * 3600)%nat -> (s2 < 100 * 3600)%nat ->
  String.length (formatElapsedTime s1) = 8%nat
  /\ (formatElapsedTime s1 = formatElapsedTime s2 -> s1 = s2).
Proof.
  intros H1 H2.
  destruct (clock_fields s1 H1) as [Hh1 [Hm1 [Hs1 E1]]].
  destruct (clock_fields s2 H2) as [Hh2 [Hm2 [Hs2 E2]]].
  unfold formatElapsedTime. split.
  - rewrite !length_append.
    rewrite !two_digits_length by lia. reflexivity.
  - intros E.
    apply append_same_length in E;
      [| rewrite !two_digits_length by lia; reflexivity].
    destruct E as [Eh E].
    apply (append_same_length ":" ":") in E; [| reflexivity].
    destruct E as [_ E].
    apply append_same_length in E;
      [| rewrite !two_digits_length by lia; reflexivity].
    destruct E as [Em E].
    apply (append_same_length ":" ":") in E; [| reflexivity].
    destruct E as [_ Es].
    apply two_digits_inj in Eh; [| lia | lia].
    apply two_digits_inj in Em; [| lia | lia].
    apply two_digits_inj in Es; [| lia | lia].
    lia.
Qed.

Lemma elapsed_time_display_witness :
  String.length (formatElapsedTime 3725) = 8%nat
  /\ (formatElapsedTime 3725 = formatElapsedTime 3725 -> 3725 = 3725)%nat.
Proof.
  apply (elapsed_time_display 3725 3725); lia.
Defined.

End VisitsFacts.

(** ** More on the KPI aggregation, the two classifiers and the
    distance *)

Module AnalyticsMoreFacts.

Import Js JsFacts Analytics AnalyticsFacts.
Local Open Scope Q_scope.



End AnalyticsMoreFacts.

Module TrackerMoreFacts.

Import Js JsFacts Tracker.
Local Open Scope Q_scope.
Local Open Scope string_scope.

Lemma diff_minutes_gt (k b a : Z) :
  inject_Z k < diff_minutes b a <-> (k * 60000 < b - a)%Z.
Proof.
  unfold diff_minutes, Qlt, Qdiv, Qmult, Qinv, inject_Z. cbn. lia.
Qed.

Lemma diff_minutes_le (k b a : Z) :
  diff_minutes b a <= inject_Z k <-> (b - a <= k * 60000)%Z.
Proof.
  unfold diff_minutes, Qle, Qdiv, Qmult, Qinv, inject_Z. cbn. lia.
Qed.

(** X16.  For a planned visit the two classifiers do not draw the line at the
    same place: a status ["overdue"] always comes with the progress -1,
    but the progress is -1 from the first millisecond after the planned
    time, while the status is still ["upcoming"] for the first 15
    minutes. *)
Theorem overdue_progress_comes_before_overdue_status
  (now : Z) (visit : Visit) (t : Z) :
  state visit = "planned" -> planned_time visit = Some t ->
  (getVisitTimeStatus now visit = "overdue" ->
   calculateVisitProgress now visit = overdue_sentinel) /\
  ((plannedDate now t < now <= plannedDate now t + 15 * 60000)%Z ->
   calculateVisitProgress now visit = overdue_sentinel /\
   getVisitTimeStatus now visit = "upcoming").
Proof.
  intros Hs Ht. unfold getVisitTimeStatus, calculateVisitProgress.
  rewrite Hs, Ht. cbn [String.eqb Ascii.eqb Bool.eqb andb].
  set (p := plannedDate now t).
  destruct (gtb (diff_minutes now p) 15) eqn:E15.
  - apply gtb_gt in E15. apply (diff_minutes_gt 15) in E15.
    assert (L : (p <? now)%Z = true) by (apply Z.ltb_lt; lia).
    rewrite L. split; [reflexivity|]. intros H. lia.
  - apply gtb_le in E15. apply (diff_minutes_le 15) in E15.
    split.
    + destruct (gtb (diff_minutes now p) (-30)); discriminate.
    + intros [H1 H2].
      assert (L : (p <? now)%Z = true) by (apply Z.ltb_lt; lia).
      rewrite L. split; [reflexivity|].
      assert (G : gtb (diff_minutes now p) (-30) = true).
      { apply gtb_gt. apply (diff_minutes_gt (-30)). lia. }
      now rewrite G.
Qed.

(** The theorem on a visit planned for 09:00, seen ten minutes later. *)
Lemma overdue_progress_comes_before_overdue_status_witness :
  calculateVisitProgress (at_0900 + 600000) planned_visit = overdue_sentinel /\
  getVisitTimeStatus (at_0900 + 600000) planned_visit = "upcoming".
Proof.
  apply (proj2 (overdue_progress_comes_before_overdue_status
                  (at_0900 + 600000) planned_visit (9 * 3600000)
                  eq_refl eq_refl)).
  vm_compute. split; [reflexivity | discriminate].
Defined.

End TrackerMoreFacts.

Module GeoMoreFacts.

Import Geo GeoFacts.
Local Open Scope R_scope.

Lemma hav_even (theta : R) : hav (- theta) = hav theta.
Proof.
  unfold hav. replace (- theta / 2) with (- (theta / 2)) by field.
  rewrite sin_neg. symmetry. apply Rsqr_neg.
Qed.

Lemma central_hav_sym (la lo lb lo' : R) :
  central_hav la lo lb lo' = central_hav lb lo' la lo.
Proof.
  unfold central_hav.
  rewrite <- (hav_even (toRadians la - toRadians lb)).
  rewrite <- (hav_even (toRadians lo - toRadians lo')).
  replace (- (toRadians la - toRadians lb))
    with (toRadians lb - toRadians la) by ring.
  replace (- (toRadians lo - toRadians lo'))
    with (toRadians lo' - toRadians lo) by ring.
  ring.
Qed.

Lemma asin_nonneg (x : R) : 0 <= x <= 1 -> 0 <= asin x.
Proof.
  intros [H0 H1]. destruct (Req_dec x 1) as [->|Hne].
  - rewrite asin_1. pose proof PI_RGT_0. lra.
  - destruct (Req_dec x 0) as [->|Hx0]; [rewrite asin_0; lra|].
    rewrite asin_atan by lra. rewrite <- atan_0.
    apply Rlt_le, atan_increasing.
    apply Rdiv_lt_0_compat; [lra|].
    apply sqrt_lt_R0. unfold Rsqr. nra.
Qed.

Lemma PI_upper : PI < 31421 / 10000.
Proof.
  pose proof (PI_2_3_7_ineq 1) as [_ U].
  unfold PI_2_3_7_tg, tg_alt, Ratan_seq in U. simpl in U. lra.
Qed.

(** X17.  With both latitudes other than 0, the distance from the current
    location to a visit is the distance from the visit to the current
    location, and it lies between 0 and half the circumference of the
    sphere, [6371 * PI] km, which is less than 20020 km. *)
Theorem distance_symmetric_and_bounded (la lo lb lo' : R) :
  la <> 0 -> lb <> 0 ->
  calculateDistance (at_point la lo) (visit_at lb lo')
  = calculateDistance (at_point lb lo') (visit_at la lo) /\
  exists d,
    calculateDistance (at_point la lo) (visit_at lb lo') = Some d /\
    0 <= d <= 6371 * PI /\ d < 20020.
Proof.
  intros Ha Hb. rewrite !distance_is_haversine by assumption.
  unfold haversine_distance. split.
  - now rewrite central_hav_sym.
  - eexists. split; [reflexivity|].
    pose proof (central_hav_range la lo lb lo') as [H0 H1].
    set (h := central_hav la lo lb lo') in *.
    assert (Hs : 0 <= sqrt h <= 1).
    { split; [apply sqrt_pos|].
      rewrite <- sqrt_1. apply sqrt_le_1; lra. }
    pose proof (asin_nonneg _ Hs) as Hlo.
    pose proof (asin_bound (sqrt h)) as [_ Hhi].
    pose proof PI_upper as Pu.
    clearbody h. repeat split; lra.
Qed.

(** The theorem on the location of the examples and a visit one degree
    further north. *)
Lemma distance_symmetric_and_bounded_witness :
  example_lat <> 0 /\ example_lat + 1 <> 0 /\
  calculateDistance (at_point example_lat example_lon)
    (visit_at (example_lat + 1) example_lon)
  = calculateDistance (at_point (example_lat + 1) example_lon)
      (visit_at example_lat example_lon).
Proof.
  assert (H1 : example_lat <> 0) by (unfold example_lat; lra).
  assert (H2 : example_lat + 1 <> 0) by (unfold example_lat; lra).
  split; [exact H1|]. split; [exact H2|].
  apply (proj1 (distance_symmetric_and_bounded example_lat example_lon
                  (example_lat + 1) example_lon H1 H2)).
Defined.

End GeoMoreFacts.

(* ------------------------------------------------------------------ *)
(** ** The GPS maps: viewport, markers, statistics and initial load *)

Module MapFacts.

Import Js GpsMaps MapView.
Local Open Scope list_scope.

(** *** Markers *)

Lemma getMarkerIcon_throws (g : bool) (t : string) (v : bool) :
  (exists e, getMarkerIcon g t v = Threw e) <-> t = "emergency"%string.
Proof.
  unfold getMarkerIcon.
  destruct (String.eqb t "visit_start") eqn:E1.
  { apply String.eqb_eq in E1; subst t. split.
    - intros [e H]; discriminate.
    - discriminate. }
  destruct (String.eqb t "visit_end") eqn:E2.
  { apply String.eqb_eq in E2; subst t. split.
    - intros [e H]; discriminate.
    - discriminate. }
  destruct (String.eqb t "emergency") eqn:E3.
  { apply String.eqb_eq in E3; subst t. split.
    - reflexivity.
    - intros _; eexists; reflexivity. }
  apply String.eqb_neq in E3.
  destruct (String.eqb t "manual") eqn:E4; split;
    try (intros [e H]; discriminate); intros H; contradiction.
Qed.

Lemma createMarker_emergency (g : bool) (f : Fix) :
  tracking_type f = "emergency"%string ->
  exists e, createMarker g f = Threw e.
Proof.
  intros H. unfold createMarker.
  destruct (proj2 (getMarkerIcon_throws g (tracking_type f) (is_valid f)) H)
    as [e He].
  rewrite He. exists e; reflexivity.
Qed.

Lemma createMarker_other (g : bool) (f : Fix) :
  tracking_type f <> "emergency"%string ->
  exists mk, createMarker g f = Returned mk.
Proof.
  intros H. unfold createMarker.
  destruct (getMarkerIcon g (tracking_type f) (is_valid f)) as [i | e] eqn:E.
  - eexists; reflexivity.
  - exfalso. apply H.
    apply (proj1 (getMarkerIcon_throws g (tracking_type f) (is_valid f))).
    exists e; exact E.
Qed.

Lemma create_markers_other (g : bool) (data : list Fix) :
  (forall f, In f data -> tracking_type f <> "emergency"%string) ->
  exists l, create_markers g data = Returned l
            /\ List.length l = List.length data.
Proof.
  induction data as [| f rest IH]; intros H; simpl.
  - exists []; split; reflexivity.
  - destruct (createMarker_other g f (H f (or_introl eq_refl))) as [mk Hmk].
    rewrite Hmk.
    destruct IH as [l [Hl Hlen]].
    { intros f' Hin; apply H; right; exact Hin. }
    rewrite Hl. exists (mk :: l); split; [reflexivity | simpl; congruence].
Qed.

Lemma create_markers_emergency (g : bool) (data : list Fix) :
  (exists f, In f data /\ tracking_type f = "emergency"%string) ->
  exists e, create_markers g data = Threw e.
Proof.
  induction data as [| f rest IH]; intros [f' [Hin Ht]].
  - destruct Hin.
  - simpl. destruct (createMarker g f) as [mk | e] eqn:E.
    + destruct Hin as [-> | Hin].
      * destruct (createMarker_emergency g f' Ht) as [e He]; congruence.
      * destruct IH as [e He]; [exists f'; split; assumption |].
        rewrite He; exists e; reflexivity.
    + exists e; reflexivity.
Qed.

(** X18.  Drawing the markers of a list of points fails exactly when one
    of the points is of the type [emergency]. *)
Theorem markers_fail_exactly_on_emergency (g : bool) (data : list Fix) :
  (exists e, create_markers g data = Threw e)
  <-> (exists f, In f data /\ tracking_type f = "emergency"%string).
Proof.
  split.
  - intros [e He].
    induction data as [| f rest IH]; simpl in He; [discriminate |].
    destruct (String.eqb (tracking_type f) "emergency") eqn:Et.
    + apply String.eqb_eq in Et. exists f; split; [left; reflexivity | exact Et].
    + apply String.eqb_neq in Et.
      destruct (createMarker_other g f Et) as [mk Hmk]. rewrite Hmk in He.
      destruct (create_markers g rest) as [l | e'] eqn:El; [discriminate |].
      destruct (IH He) as [f' [Hin Ht]].
      exists f'; split; [right; exact Hin | exact Ht].
  - apply create_markers_emergency.
Qed.

(** *** The viewport *)

Lemma Qle_bool_false_lt (a b : Q) : (b < a)%Q -> Qle_bool a b = false.
Proof.
  intros H. destruct (Qle_bool a b) eqn:E; [| reflexivity].
  apply Qle_bool_iff in E. lra.
Qed.

Lemma in_bounds_inverted (b : Bounds) (f : Fix) :
  (east b < west b)%Q \/ (north b < south b)%Q -> in_bounds b f = false.
Proof.
  intros H. unfold in_bounds, prop_geb, prop_leb.
  destruct (latitude (point f)) as [la |]; [| reflexivity].
  destruct (longitude (point f)) as [lo |];
    [| rewrite andb_false_r; reflexivity].
  destruct (Qle_bool (south b) la) eqn:E1; [| reflexivity].
  destruct (Qle_bool la (north b)) eqn:E2; [| reflexivity].
  destruct (Qle_bool (west b) lo) eqn:E3; [| reflexivity].
  destruct (Qle_bool lo (east b)) eqn:E4; [| reflexivity].
  apply Qle_bool_iff in E1, E2, E3, E4.
  exfalso. destruct H; lra.
Qed.

(** X19.  A viewport whose western edge lies east of its eastern edge, as
    a viewport over the date line has it, or whose north lies south of
    its south, shows no point at all. *)
Theorem inverted_viewport_shows_nothing (data : list Fix) (b : Bounds) :
  (east b < west b)%Q \/ (north b < south b)%Q ->
  filterDataByBounds data b = [].
Proof.
  intros H. unfold filterDataByBounds.
  induction data as [| f rest IH]; simpl; [reflexivity |].
  rewrite (in_bounds_inverted b f H). exact IH.
Qed.

Lemma inverted_viewport_shows_nothing_witness :
  filterDataByBounds
    [fix_of 1 0 (179 # 1) "manual"; fix_of 2 5 (-175 # 1) "manual"]
    over_the_date_line = [].
Proof.
  apply (inverted_viewport_shows_nothing _ over_the_date_line).
  left. vm_compute. reflexivity.
Defined.

(** *** The visible markers *)

Lemma abs_diff_same (n : nat) : abs_diff n n = O.
Proof. unfold abs_diff. rewrite Z.sub_diag. reflexivity. Qed.

(** X20.  When no point in view is of the type [emergency], a refresh on a
    map that is not loading leaves a list of visible markers whose length
    is within 10 of the number of points in view. *)
Theorem refresh_keeps_marker_count_close (b : Bounds) (m : Map) :
  mapInstance m = true ->
  isLoading m = false ->
  (forall f, In f (filterDataByBounds (trackingData m) b) ->
             tracking_type f <> "emergency"%string) ->
  exists l,
    visibleMarkers (refreshVisibleData b m) = Some l
    /\ (abs_diff (List.length l)
          (List.length (filterDataByBounds (trackingData m) b)) <= 10)%nat.
Proof.
  intros Hmap Hload Hno. unfold refreshVisibleData.
  rewrite Hmap, Hload. simpl.
  destruct (shouldUpdateMarkers (filterDataByBounds (trackingData m) b) m)
    eqn:Es.
  - unfold updateVisibleMarkers.
    destruct (create_markers_other (google (clearVisibleMarkers m)) _ Hno)
      as [l [Hl Hlen]].
    rewrite Hl. exists l. split; [reflexivity |].
    rewrite Hlen, abs_diff_same. lia.
  - unfold shouldUpdateMarkers in Es.
    apply orb_false_iff in Es. destruct Es as [E1 E2].
    destruct (visibleMarkers m) as [l |] eqn:Ev; [| discriminate].
    exists l. split; [reflexivity |].
    apply Nat.ltb_ge in E1. exact E1.
Qed.

Lemma refresh_keeps_marker_count_close_witness :
  exists l,
    visibleMarkers
      (refreshVisibleData around_riyadh
         (set_trackingData two_fixes loaded_map)) = Some l
    /\ (abs_diff (List.length l)
          (List.length
             (filterDataByBounds
                (trackingData (set_trackingData two_fixes loaded_map))
                around_riyadh)) <= 10)%nat.
Proof.
  apply (refresh_keeps_marker_count_close around_riyadh
           (set_trackingData two_fixes loaded_map)).
  - reflexivity.
  - reflexivity.
  - intros f Hin. vm_compute in Hin.
    destruct Hin as [<- | [<- | []]]; discriminate.
Defined.

(** X21.  When a refresh has to redraw and a point of the type
    [emergency] is in view, the map is left without any visible marker
    and the error goes to the console. *)
Theorem emergency_in_view_clears_the_markers (b : Bounds) (m : Map) :
  mapInstance m = true ->
  isLoading m = false ->
  shouldUpdateMarkers (filterDataByBounds (trackingData m) b) m = true ->
  (exists f, In f (filterDataByBounds (trackingData m) b)
             /\ tracking_type f = "emergency"%string) ->
  visibleMarkers (refreshVisibleData b m) = Some []
  /\ console (refreshVisibleData b m)
     = "Error refreshing visible data:"%string :: console m.
Proof.
  intros Hmap Hload Hs He. unfold refreshVisibleData.
  rewrite Hmap, Hload, Hs. simpl.
  unfold updateVisibleMarkers.
  destruct (create_markers_emergency (google (clearVisibleMarkers m)) _ He)
    as [e Hthrow].
  rewrite Hthrow. split; reflexivity.
Qed.

Lemma emergency_in_view_clears_the_markers_witness :
  visibleMarkers
    (refreshVisibleData around_riyadh
       (set_trackingData with_emergency loaded_map)) = Some []
  /\ console
       (refreshVisibleData around_riyadh
          (set_trackingData with_emergency loaded_map))
     = "Error refreshing visible data:"%string
       :: console (set_trackingData with_emergency loaded_map).
Proof.
  apply (emergency_in_view_clears_the_markers around_riyadh
           (set_trackingData with_emergency loaded_map)).
  - reflexivity.
  - reflexivity.
  - vm_compute. reflexivity.
  - exists (fix_of 20 (248 # 10) (468 # 10) "emergency"). split.
    + vm_compute. right; left; reflexivity.
    + reflexivity.
Defined.

(** *** Drawing the tracking points *)

Lemma push_markers_stops (before after : list Fix) (e : Fix) :
  forall m : Map,
    (forall f, In f before -> tracking_type f <> "emergency"%string) ->
    tracking_type e = "emergency"%string ->
    exists l err,
      create_markers (google m) before = Returned l
      /\ push_markers (before ++ e :: after) m
         = (Threw err, set_markers (markers m ++ l) m).
Proof.
  induction before as [| f rest IH]; intros m Hno He.
  - simpl. destruct (createMarker_emergency (google m) e He) as [err Herr].
    rewrite Herr. exists [], err. split; [reflexivity |].
    rewrite app_nil_r. destruct m; reflexivity.
  - simpl.
    destruct (createMarker_other (google m) f (Hno f (or_introl eq_refl)))
      as [mk Hmk].
    rewrite Hmk.
    destruct (IH (set_markers (markers m ++ [mk]) m)) as [l [err [Hl Hp]]].
    { intros f' Hin; apply Hno; right; exact Hin. }
    { exact He. }
    simpl in Hl. rewrite Hl.
    exists (mk :: l), err. split; [reflexivity |].
    rewrite Hp. simpl. rewrite <- app_assoc. reflexivity.
Qed.

(** X22.  Drawing the tracking points stops at the first point of the type
    [emergency]: the points before it have their markers on the map, that
    point and all the points after it have none. *)
Theorem drawing_stops_at_the_first_emergency
  (before after : list Fix) (e : Fix) (m : Map) :
  trackingData m = before ++ e :: after ->
  (forall f, In f before -> tracking_type f <> "emergency"%string) ->
  tracking_type e = "emergency"%string ->
  exists l err,
    create_markers (google m) before = Returned l
    /\ List.length l = List.length before
    /\ renderTrackingPoints m = (Threw err, set_markers (markers m ++ l) m).
Proof.
  intros Hd Hno He. unfold renderTrackingPoints. rewrite Hd.
  destruct (push_markers_stops before after e m Hno He) as [l [err [Hl Hp]]].
  exists l, err. split; [exact Hl |]. split.
  - destruct (create_markers_other (google m) before Hno) as [l' [Hl' Hlen]].
    congruence.
  - rewrite length_app. simpl.
    replace (List.length before + S (List.length after) =? 0)%nat with false.
    + exact Hp.
    + symmetry. apply Nat.eqb_neq. lia.
Qed.

Lemma drawing_stops_at_the_first_emergency_witness :
  exists l err,
    create_markers true [fix_of 30 (247 # 10) (467 # 10) "manual"]
    = Returned l
    /\ List.length l = 1%nat
    /\ renderTrackingPoints (set_trackingData with_emergency loaded_map)
       = (Threw err,
          set_markers (markers loaded_map ++ l)
            (set_trackingData with_emergency loaded_map)).
Proof.
  apply (drawing_stops_at_the_first_emergency
           [fix_of 30 (247 # 10) (467 # 10) "manual"]
           [fix_of 10 (249 # 10) (469 # 10) "visit_end"]
           (fix_of 20 (248 # 10) (468 # 10) "emergency")
           (set_trackingData with_emergency loaded_map)).
  - reflexivity.
  - intros f [<- | []]. discriminate.
  - reflexivity.
Defined.

(** *** Statistics of the loaded data *)

Lemma valid_accuracy_bound (p : TrackingPoint) :
  valid_point p = true -> (or_else (accuracy p) 0 <= 1000)%Q.
Proof.
  unfold valid_point, or_else, truthy, prop_gtb, gtb, ltb.
  destruct (accuracy p) as [q |].
  - destruct (Qeq_bool q 0) eqn:E0; simpl.
    + intros _. lra.
    + destruct (Qle_bool q 1000) eqn:E; simpl.
      * intros _. apply Qle_bool_iff. exact E.
      * destruct (_ || _); [discriminate |].
        destruct (_ || _); discriminate.
  - intros _. lra.
Qed.

Lemma of_nat_S (n : nat) : (of_nat (S n) == of_nat n + 1)%Q.
Proof.
  unfold of_nat. rewrite Nat2Z.inj_succ, <- Z.add_1_r, inject_Z_plus.
  reflexivity.
Qed.

Lemma of_nat_pos (n : nat) : (0 < n)%nat -> (0 < of_nat n)%Q.
Proof.
  intros H. unfold of_nat.
  replace 0%Q with (inject_Z 0) by reflexivity.
  rewrite <- Zlt_Qlt. lia.
Qed.

Lemma accuracy_fold_bound (data : list Fix) :
  forall acc : Q,
    (forall f, In f data -> valid_point (point f) = true) ->
    (fold_left (fun sum p => sum + or_else (accuracy (point p)) 0) data acc
     <= acc + 1000 * of_nat (List.length data))%Q.
Proof.
  induction data as [| f rest IH]; intros acc H.
  - cbn [fold_left]. change (of_nat (List.length (@nil Fix))) with 0%Q. lra.
  - cbn [fold_left List.length].
    assert (Hf := valid_accuracy_bound (point f) (H f (or_introl eq_refl))).
    assert (Hr := IH (acc + or_else (accuracy (point f)) 0)%Q
                    (fun f' Hin => H f' (or_intror Hin))).
    rewrite of_nat_S. lra.
Qed.

Lemma fold_min_le (rest : list Z) :
  forall first : Z,
    (fold_left Z.min rest first <= first)%Z
    /\ forall x, In x rest -> (fold_left Z.min rest first <= x)%Z.
Proof.
  induction rest as [| y rest IH]; intros first; simpl.
  - split; [lia | intros x []].
  - destruct (IH (Z.min first y)) as [H1 H2]. split; [lia |].
    intros x [<- | Hin]; [lia | apply H2; exact Hin].
Qed.

Lemma fold_max_ge (rest : list Z) :
  forall first : Z,
    (first <= fold_left Z.max rest first)%Z
    /\ forall x, In x rest -> (x <= fold_left Z.max rest first)%Z.
Proof.
  induction rest as [| y rest IH]; intros first; simpl.
  - split; [lia | intros x []].
  - destruct (IH (Z.max first y)) as [H1 H2]. split; [lia |].
    intros x [<- | Hin]; [lia | apply H2; exact Hin].
Qed.

(** X23.  After the tracking data has been loaded, the statistics agree
    with the data kept: what is kept is the valid part of the answer, the
    counts of valid and of in-territory points are at most the total, the
    average accuracy is at most 1000, and the date range is absent exactly
    when nothing was kept and otherwise encloses every timestamp. *)
Theorem loaded_statistics_are_consistent (data : list Fix) (m : Map) :
  let m' := snd (loadTrackingData (Resolved data) m) in
  trackingData m' = validate_fixes data
  /\ exists s,
       stats m' = Some s
       /\ totalPoints s = List.length (trackingData m')
       /\ (validPoints s <= totalPoints s)%nat
       /\ (territoryPoints s <= totalPoints s)%nat
       /\ (averageAccuracy s <= 1000)%Q
       /\ match dateRange_from s, dateRange_to s with
          | Some a, Some b =>
              forall f, In f (trackingData m') ->
                        (a <= timestamp (point f) <= b)%Z
          | None, None => trackingData m' = []
          | _, _ => False
          end.
Proof.
  simpl. split; [reflexivity |].
  eexists. split; [reflexivity |].
  set (kept := validate_fixes data).
  assert (Hv : forall f, In f kept -> valid_point (point f) = true).
  { intros f Hin. unfold kept, validate_fixes in Hin.
    apply filter_In in Hin. apply Hin. }
  clearbody kept. simpl.
  split; [reflexivity |].
  split; [apply filter_length_le |].
  split; [apply filter_length_le |].
  split.
  - destruct (0 <? List.length kept)%nat eqn:E; [| lra].
    apply Nat.ltb_lt in E.
    assert (Hp := of_nat_pos _ E).
    apply Qle_shift_div_r; [exact Hp |].
    assert (Hs := accuracy_fold_bound kept 0 Hv).
    unfold accuracy_sum. lra.
  - destruct kept as [| f0 rest]; simpl; [reflexivity |].
    intros f Hin.
    destruct (fold_min_le (map (fun p => timestamp (point p)) rest)
                (timestamp (point f0))) as [Hmin1 Hmin2].
    destruct (fold_max_ge (map (fun p => timestamp (point p)) rest)
                (timestamp (point f0))) as [Hmax1 Hmax2].
    unfold Math_min_of, Math_max_of.
    destruct Hin as [<- | Hin]; [lia |].
    assert (Hx : In (timestamp (point f))
                   (map (fun p => timestamp (point p)) rest)).
    { apply in_map_iff. exists f; split; [reflexivity | exact Hin]. }
    split; [apply Hmin2 | apply Hmax2]; exact Hx.
Qed.

(** *** The initial load *)

(** X24.  On a loaded map the initial load ends with the error message
    set and shown, whatever the server answers: either a load fails, or
    drawing the points fails, or the read of [state.realTimeSettings],
    which no code defines, fails.  The tracking data that the server
    returned is kept all the same. *)
Theorem initial_load_always_reports_failure
  (tracking : Answer (list Fix)) (routes_ok : bool) (m : Map) :
  mapLoaded m = true ->
  let m' := loadInitialData tracking routes_ok m in
  error m' = Some load_failed
  /\ messages m' = load_failed :: messages m
  /\ isLoading m' = false
  /\ trackingData m'
     = match tracking with
       | Resolved data => validate_fixes data
       | Rejected => []
       end.
Proof.
  intros Hm. unfold loadInitialData. rewrite Hm. simpl.
  destruct tracking as [data |]; destruct routes_ok; simpl;
    try (repeat split; reflexivity).
  unfold renderCurrentView. simpl.
  destruct (String.eqb (currentView m) "tracking").
  - unfold renderTrackingPoints. simpl.
    destruct (List.length (validate_fixes data) =? 0)%nat.
    + repeat split; reflexivity.
    + set (start := clearMapElements _).
      assert (Hpush : forall l s,
                 trackingData (snd (push_markers l s)) = trackingData s
                 /\ messages (snd (push_markers l s)) = messages s).
      { induction l as [| f rest IH]; intros s; simpl.
        - split; reflexivity.
        - destruct (createMarker (google s) f); simpl.
          + destruct (IH (set_markers (markers s ++ [a]) s)) as [H1 H2].
            rewrite H1, H2. split; reflexivity.
          + split; reflexivity. }
      destruct (Hpush (validate_fixes data) start) as [H1 H2].
      destruct (push_markers (validate_fixes data) start) as [[u | e] m2];
        simpl in *; rewrite H1, H2; repeat split; reflexivity.
  - repeat split; reflexivity.
Qed.

Lemma initial_load_always_reports_failure_witness :
  error (loadInitialData (Resolved two_fixes) true loaded_map)
  = Some load_failed
  /\ trackingData (loadInitialData (Resolved two_fixes) true loaded_map)
     = two_fixes.
Proof.
  destruct (initial_load_always_reports_failure
              (Resolved two_fixes) true loaded_map eq_refl)
    as [He [_ [_ Hd]]].
  split; [exact He |]. rewrite Hd. vm_compute. reflexivity.
Defined.

End MapFacts.

(* ------------------------------------------------------------------ *)
(** ** The dashboard: loads and filter handlers *)

Module DashboardFacts.

Import Js Analytics AnalyticsFacts Dashboard.
Local Open Scope list_scope.

Lemma loadAnalytics_flags (reply : Answer) (c : bool) (d : Dash) :
  loading (snd (loadAnalytics reply c d)) = true
  /\ draws (snd (loadAnalytics reply c d)) = draws d.
Proof.
  unfold loadAnalytics. simpl.
  destruct (date_gtb (dateFrom d) (dateTo d)); [split; reflexivity |].
  destruct reply as [[a |] | message]; try (split; reflexivity).
  destruct (server_kpis a); split; reflexivity.
Qed.

Lemma renderCharts_loading (c : bool) (d : Dash) :
  loading d = true -> renderCharts c d = d.
Proof. intros H. unfold renderCharts. rewrite H. reflexivity. Qed.

Lemma reload_flags (reply : Answer) (c : bool) (line text : string)
  (d : Dash) :
  loading (reload reply c line text d) = true
  /\ draws (reload reply c line text d) = draws d.
Proof.
  unfold reload.
  destruct (loadAnalytics_flags reply c d) as [Hl Hd].
  destruct (loadAnalytics reply c d) as [[| message] d']; simpl in *.
  - rewrite (renderCharts_loading c d' Hl). split; assumption.
  - split; assumption.
Qed.

Lemma loadInitialData_draws (reply : Answer) (c : bool) (d : Dash) :
  draws (loadInitialData reply c d) = draws d.
Proof.
  unfold loadInitialData.
  destruct (loadAnalytics_flags reply c (set_error None (set_loading true d)))
    as [_ Hd].
  destruct (loadAnalytics reply c _) as [[| message] d']; simpl in *;
    exact Hd.
Qed.

Lemma handle_draws (c : bool) (d : Dash) (e : Event) :
  draws (handle c d e) = draws d.
Proof.
  destruct e as [r | r | v r | v r | v r]; simpl.
  - apply loadInitialData_draws.
  - unfold refreshData. simpl. apply loadInitialData_draws.
  - unfold onPeriodTypeChange.
    apply (proj2 (reload_flags r c _ _ (set_periodType v d))).
  - unfold onDateFromChange.
    destruct (date_gtb _ _); [reflexivity |].
    apply (proj2 (reload_flags r c _ _ (set_dateFrom v d))).
  - unfold onDateToChange.
    destruct (date_gtb _ _); [reflexivity |].
    apply (proj2 (reload_flags r c _ _ (set_dateTo v d))).
Qed.

(** X25.  In runs that do not overlap, [renderCharts] never gets past its
    guard: whatever the loads, the refreshes and the changes of filters,
    and whatever the server answers, every call of it finds [loading]
    set. *)
Theorem charts_are_never_drawn (c : bool) (events : list Event) (d : Dash) :
  draws (run c events d) = draws d.
Proof.
  unfold run. revert d.
  induction events as [| e rest IH]; intros d; simpl; [reflexivity |].
  rewrite IH. apply handle_draws.
Qed.

(** X26.  A change of a filter that goes on to load leaves [loading] set
    when its handler ends, whether the load succeeded or failed. *)
Theorem filter_change_leaves_loading_on (c : bool) (e : Event) (d : Dash) :
  starts_a_load e d = true -> loading (handle c d e) = true.
Proof.
  destruct e as [r | r | v r | v r | v r]; simpl; intros H;
    try discriminate.
  - unfold onPeriodTypeChange.
    apply (proj1 (reload_flags r c _ _ (set_periodType v d))).
  - unfold onDateFromChange. simpl.
    apply negb_true_iff in H. rewrite H.
    apply (proj1 (reload_flags r c _ _ (set_dateFrom v d))).
  - unfold onDateToChange. simpl.
    apply negb_true_iff in H. rewrite H.
    apply (proj1 (reload_flags r c _ _ (set_dateTo v d))).
Qed.

Lemma filter_change_leaves_loading_on_witness :
  loading (handle true (loadInitialData (Resolved (Some two_rows)) true fresh)
             (PeriodTypeChange "weekly" (Resolved (Some two_rows))))
  = true
  /\ loading (loadInitialData (Resolved (Some two_rows)) true fresh) = false.
Proof.
  split.
  - apply (filter_change_leaves_loading_on true
             (PeriodTypeChange "weekly" (Resolved (Some two_rows)))).
    reflexivity.
  - reflexivity.
Defined.

(** The summary that [calculateKPIs] leaves depends on the rows only. *)
Lemma kpis_after_only_rows (s1 s2 : State) :
  analytics s1 = analytics s2 ->
  kpis (after_calculateKPIs s1) = kpis (after_calculateKPIs s2).
Proof.
  intros H.
  destruct (null_or_rows (analytics s1)) as [Hnull | [rows Hrows]].
  - rewrite (proj1 (calculateKPIs_null s1 Hnull)).
    rewrite H in Hnull.
    rewrite (proj1 (calculateKPIs_null s2 Hnull)). reflexivity.
  - rewrite !after_calculateKPIs_cases. rewrite <- H.
    destruct (List.length (analytics s1) =? 0)%nat; [reflexivity |].
    unfold try_catch. rewrite Hrows, !computeKPIs_rows. reflexivity.
Qed.

(** X27.  The summary that the server sends with the rows never shows: a
    load that succeeds leaves the summary that [calculateKPIs] computes
    from the rows, whatever [kpis] the answer carries and whatever the
    summary was before. *)
Theorem server_kpis_are_discarded (a : AnalyticsData) (c : bool) (d : Dash) :
  date_gtb (dateFrom d) (dateTo d) = false ->
  fst (loadAnalytics (Resolved (Some a)) c d) = Completed
  /\ analytics (core (snd (loadAnalytics (Resolved (Some a)) c d)))
     = rows_of a
  /\ kpis (core (snd (loadAnalytics (Resolved (Some a)) c d)))
     = kpis (after_calculateKPIs
               {| analytics := rows_of a; kpis := zero_kpis; console := [] |}).
Proof.
  intros Hd. unfold loadAnalytics. simpl. rewrite Hd.
  assert (Ha : forall s, analytics (after_calculateKPIs s) = analytics s).
  { intros s. rewrite after_calculateKPIs_cases.
    destruct (List.length (analytics s) =? 0)%nat; [reflexivity |].
    unfold try_catch.
    destruct (null_or_rows (analytics s)) as [Hnull | [rows Hrows]].
    - destruct (computeKPIs_null s Hnull) as [e He]. rewrite He. reflexivity.
    - rewrite Hrows, computeKPIs_rows. simpl. exact Hrows. }
  destruct (server_kpis a) as [update |]; simpl;
    (split; [reflexivity |]);
    try (rewrite renderCharts_loading by reflexivity; simpl);
    (split; [rewrite Ha; reflexivity |]);
    apply kpis_after_only_rows; reflexivity.
Qed.

Lemma server_kpis_are_discarded_witness :
  kpis (core (snd (loadAnalytics (Resolved (Some two_rows)) true fresh)))
  = kpis (after_calculateKPIs
            {| analytics := rows_of two_rows; kpis := zero_kpis;
               console := [] |}).
Proof.
  apply (server_kpis_are_discarded two_rows true fresh). reflexivity.
Defined.

(** X28.  A start date after the end date is refused with a warning and
    without a query, but it stays in the state: the next change of the
    period fails on it, again without a query, and leaves [loading] and
    the error set. *)
Theorem refused_start_date_stays (value : DateValue) (r1 r2 : Answer)
  (c : bool) (period : string) (d : Dash) :
  date_gtb value (dateTo d) = true ->
  let d1 := onDateFromChange value r1 c d in
  let d2 := onPeriodTypeChange period r2 c d1 in
  dateFrom d1 = value
  /\ queries d1 = queries d
  /\ messages d1 = start_after_end :: messages d
  /\ queries d2 = queries d
  /\ error d2 = Some start_after_end
  /\ messages d2
     = "Failed to update period type"%string :: start_after_end :: messages d
  /\ loading d2 = true.
Proof.
  intros H. unfold onDateFromChange, onPeriodTypeChange, reload, loadAnalytics.
  simpl. rewrite H. simpl. rewrite H. simpl.
  repeat split; reflexivity.
Qed.

Lemma refused_start_date_stays_witness :
  dateFrom (onDateFromChange (Some 2592000001%Z) (Resolved None) true fresh)
  = Some 2592000001%Z
  /\ error (onPeriodTypeChange "weekly" (Resolved (Some two_rows)) true
              (onDateFromChange (Some 2592000001%Z) (Resolved None) true
                 fresh))
     = Some start_after_end.
Proof.
  destruct (refused_start_date_stays (Some 2592000001%Z) (Resolved None)
              (Resolved (Some two_rows)) true "weekly" fresh eq_refl)
    as [H1 [_ [_ [_ [H2 _]]]]].
  split; [exact H1 | exact H2].
Defined.

Lemma loadAnalytics_queries (reply : Answer) (c : bool) (d : Dash) :
  queries (snd (loadAnalytics reply c d)) = queries d
  \/ exists q, inverted q = false
               /\ queries (snd (loadAnalytics reply c d)) = q :: queries d.
Proof.
  unfold loadAnalytics. simpl.
  destruct (date_gtb (dateFrom d) (dateTo d)) eqn:E; [left; reflexivity |].
  right. exists {| period_type := periodType d; date_from := dateFrom d;
                   date_to := dateTo d |}.
  split; [exact E |].
  destruct reply as [[a |] | message]; try reflexivity.
  rewrite renderCharts_loading; [| destruct (server_kpis a); reflexivity].
  destruct (server_kpis a); reflexivity.
Qed.

Lemma reload_queries (reply : Answer) (c : bool) (line text : string)
  (d : Dash) :
  queries (reload reply c line text d) = queries d
  \/ exists q, inverted q = false
               /\ queries (reload reply c line text d) = q :: queries d.
Proof.
  unfold reload.
  destruct (loadAnalytics_queries reply c d) as [H | [q [Hq H]]];
    destruct (loadAnalytics_flags reply c d) as [Hl _];
    destruct (loadAnalytics reply c d) as [[| message] d']; simpl in *;
    try rewrite (renderCharts_loading c d' Hl);
    first [left; exact H | right; exists q; split; assumption].
Qed.

Lemma loadInitialData_queries (reply : Answer) (c : bool) (d : Dash) :
  queries (loadInitialData reply c d) = queries d
  \/ exists q, inverted q = false
               /\ queries (loadInitialData reply c d) = q :: queries d.
Proof.
  unfold loadInitialData.
  destruct (loadAnalytics_queries reply c
              (set_error None (set_loading true d))) as [H | [q [Hq H]]];
    destruct (loadAnalytics reply c _) as [[| message] d']; simpl in *;
    first [left; exact H | right; exists q; split; assumption].
Qed.

Lemma handle_queries (c : bool) (d : Dash) (e : Event) :
  queries (handle c d e) = queries d
  \/ exists q, inverted q = false /\ queries (handle c d e) = q :: queries d.
Proof.
  destruct e as [r | r | v r | v r | v r]; simpl.
  - apply loadInitialData_queries.
  - unfold refreshData. simpl. apply loadInitialData_queries.
  - unfold onPeriodTypeChange.
    apply (reload_queries r c _ _ (set_periodType v d)).
  - unfold onDateFromChange.
    destruct (date_gtb _ _); [left; reflexivity |].
    apply (reload_queries r c _ _ (set_dateFrom v d)).
  - unfold onDateToChange.
    destruct (date_gtb _ _); [left; reflexivity |].
    apply (reload_queries r c _ _ (set_dateTo v d)).
Qed.

(** X29.  No query for analytics data ever goes to the server with a start
    date after its end date, whatever the order of the changes of the
    filters, the loads and the refreshes. *)
Theorem no_query_with_inverted_dates (c : bool) (events : list Event)
  (d : Dash) :
  (forall q, In q (queries d) -> inverted q = false) ->
  forall q, In q (queries (run c events d)) -> inverted q = false.
Proof.
  unfold run. revert d.
  induction events as [| e rest IH]; intros d Hd; simpl; [exact Hd |].
  apply IH. intros q Hin.
  destruct (handle_queries c d e) as [H | [q' [Hq' H]]]; rewrite H in Hin.
  - apply Hd; exact Hin.
  - destruct Hin as [<- | Hin]; [exact Hq' | apply Hd; exact Hin].
Qed.

Lemma no_query_with_inverted_dates_witness :
  forallb (fun q => negb (inverted q))
    (queries
       (run true
          [InitialLoad (Resolved (Some two_rows));
           DateToChange (Some (-5)%Z) (Resolved (Some two_rows));
           PeriodTypeChange "weekly" (Rejected "offline")]
          fresh))
  = true.
Proof.
  apply forallb_forall. intros q Hin.
  rewrite (no_query_with_inverted_dates true _ fresh
             (fun q' (H : In q' []) => match H with end) q Hin).
  reflexivity.
Defined.

End DashboardFacts.
